(** * Embedded signing-session widgets: a model of the Lightning components

    The repository holds three variants of one UI component that launches,
    resumes and tracks an embedded signing session:

    - [BetterWebform]          (lwc/betterWebform/betterWebform.js)
    - [WebformRelaunch]        (lwc/webformRelaunch/webformRelaunch.js)
    - [DocusignWebformIframe]  (lwc/docusignWebformIframe/docusignWebformIframe.js)

    Each component is a bag of mutable fields on [this] plus handlers that
    the platform, the vendor widget and the window call.  The model threads
    an explicit world through every handler: the component fields, the
    window's message listeners (or its clock and timeouts), the vendor
    widget instances that were created, the log of backend (Apex) calls, the console, and the
    promises a handler is suspended on.  An [await] cuts a handler in two:
    the part before it runs when the handler is called, the part after it
    runs when the environment settles the promise. *)

From Stdlib Require Import String List Bool Arith NArith Lia.
From stdpp Require Import base list.
Import ListNotations.
Local Open Scope string_scope.
Local Open Scope list_scope.

(** ** JavaScript values the components handle *)

Module Js.

(** A string-valued slot; [None] stands for [undefined] and [null]. *)
Definition value : Type := option string.

(** Truthiness of such a slot: absent and empty strings are falsy. *)
Definition truthy (v : value) : bool :=
  match v with
  | Some s => negb (String.eqb s "")
  | None => false
  end.

(** [a || b] *)
Definition orElse (a b : value) : value := if truthy a then a else b.

(** [v === s] for a string literal [s] *)
Definition strictEq (v : value) (s : string) : bool :=
  match v with
  | Some x => String.eqb x s
  | None => false
  end.

(** [new Set(xs).has(v)] *)
Definition has (xs : list string) (v : value) : bool :=
  match v with
  | Some x => existsb (String.eqb x) xs
  | None => false
  end.

(** An error object as the components read it: the platform's structured
    [body.message], the generic [message], and what string concatenation
    makes of the object. *)
Record ErrorBody : Type := mkErrorBody { body_message : value }.

Record Error : Type := mkError {
  body : option ErrorBody;
  message : value;
  asString : string
}.

(** A rejection reason or caught value: one of the two nullish values,
    or an object. *)
Inductive thrown : Type :=
| Undefined
| Null
| Obj (err : Error).

(** [error?.body?.message] *)
Definition body_message_of (e : thrown) : value :=
  match e with
  | Obj err =>
      match body err with
      | Some b => body_message b
      | None => None
      end
  | Undefined | Null => None
  end.

(** [error?.message] *)
Definition message_of (e : thrown) : value :=
  match e with
  | Obj err => message err
  | Undefined | Null => None
  end.

(** [(error?.message || error)] used as the right operand of [+] *)
Definition message_or_self (e : thrown) : string :=
  match e with
  | Obj err =>
      match message err with
      | Some m => if String.eqb m "" then asString err else m
      | None => asString err
      end
  | Undefined => "undefined"
  | Null => "null"
  end.

(** [new Error(msg)] *)
Definition new_Error (msg : string) : Error :=
  {| body := None; message := Some msg; asString := "Error: " ++ msg |}.

End Js.

(** ** The vendor widget library, the backend and the console *)

(** The element the widget is mounted into
    ([template.querySelector('[data-id="webform-container"]')]). *)
Inductive Container : Type := WebformContainer.

(** The options object handed to the widget factory. *)
Record WidgetOptions : Type := mkWidgetOptions {
  opt_instanceToken : Js.value;
  showFinishLater : bool;
  hideProgressBar : bool;
  iframeHeightCalculationMethod : string;
  autoResizeHeight : bool;
  dismissWidgetOnSessionEnd : bool
}.

(** The loaded SDK object.  The library is vendor-owned; the components
    only test whether [webforms] is a function and whether the instance
    it returns has a [destroy] function, and they catch what [mount]
    throws. *)
Record Sdk : Type := mkSdk {
  webforms_is_function : bool;
  instance_has_destroy : bool;
  mount_throws : option Js.Error
}.

(** A widget instance as the factory returned it and as the component's
    calls left it. *)
Record Widget : Type := mkWidget {
  url : Js.value;
  options : WidgetOptions;
  destroy_is_function : bool;
  observers : list string;
  mountedIn : option Container;
  destroyed : bool
}.

Definition add_observer (eventType : string) (x : Widget) : Widget :=
  {| url := url x; options := options x;
     destroy_is_function := destroy_is_function x;
     observers := observers x ++ [eventType];
     mountedIn := mountedIn x; destroyed := destroyed x |}.

Definition set_mountedIn (c : Container) (x : Widget) : Widget :=
  {| url := url x; options := options x;
     destroy_is_function := destroy_is_function x;
     observers := observers x;
     mountedIn := Some c; destroyed := destroyed x |}.

Definition set_destroyed (x : Widget) : Widget :=
  {| url := url x; options := options x;
     destroy_is_function := destroy_is_function x;
     observers := observers x;
     mountedIn := mountedIn x; destroyed := true |}.

(** [sdk.webforms({ url, options })] *)
Definition webforms (sdk : Sdk) (u : Js.value) (o : WidgetOptions) : Widget :=
  {| url := u; options := o;
     destroy_is_function := instance_has_destroy sdk;
     observers := []; mountedIn := None; destroyed := false |}.

(** What an Apex call resolves with. *)
Record InstanceResult : Type := mkInstanceResult {
  res_instanceToken : Js.value;
  res_instanceId : Js.value;
  res_formUrl : Js.value
}.

(** Calls to the backend controllers, in the order they were made. *)
Inductive ApexCall : Type :=
| createWebformInstance (formId : Js.value)
| createWebformInstanceRecord
    (instanceToken instanceId formUrl dbqWebformId : Js.value)
| updateWebformInstanceStatus (recordId : Js.value) (status : string)
| refreshInstanceToken (recordId : Js.value).

(** Console output; a line keeps the literal first argument of the call,
    without the ellipsis some of the source literals end in. *)
Inductive ConsoleLine : Type :=
| console_log (tag : string)
| console_error (tag : string).

(** What the environment settles a promise with. *)
Inductive Resolution : Type :=
| RUnit
| RSdk (sdk : option Sdk)
| RInstance (r : InstanceResult)
| RRecordId (id : Js.value).

Inductive Settled : Type :=
| Resolved (v : Resolution)
| Rejected (e : Js.thrown).

(** The payload of a widget event; [sessionEnd] may carry a subtype. *)
Record Payload : Type := mkPayload { payload_sessionEndType : Js.value }.

(** A window message event: [evt.data] with the fields the fallback
    listener reads. *)
Record MessageContent : Type := mkMessageContent { sessionEndType : Js.value }.

Record MessageData : Type := mkMessageData {
  sender : Js.value;
  eventType : Js.value;
  type : Js.value;
  content : option MessageContent
}.

Record MessageEvent : Type := mkMessageEvent { data : option MessageData }.

(** Backend reports of a given status among a list of calls. *)
Definition reports (status : string) (c : ApexCall) : bool :=
  match c with
  | updateWebformInstanceStatus _ s => String.eqb s status
  | _ => false
  end.

Definition count_reports (status : string) (cs : list ApexCall) : nat :=
  length (List.filter (reports status) cs).

(** One more report is possible while the guard is clear. *)
Definition room (flag : bool) : nat := if flag then 0 else 1.

(** ** betterWebform: selector, launcher and widget host *)

Module BetterWebform.

(** The fields of the component instance.  [webformsInstance] and
    [messageHandler] hold references: the index of the widget in the
    world's store and the identity of the listener closure. *)
Record Component : Type := mkComponent {
  showSelector : bool;
  isLoading : bool;
  errorMessage : Js.value;
  docusignSDK : option Sdk;
  docusignLoaded : bool;
  webformsInstance : option nat;
  hasRendered : bool;
  messageHandler : option nat;
  instanceToken : Js.value;
  instanceId : Js.value;
  currentFormId : Js.value;
  webformInstanceRecordId : Js.value;
  pendingFormUrl : Js.value;
  pendingInstanceToken : Js.value;
  _didEnd : bool;
  _didSubmit : bool;
  _didReady : bool
}.

Definition set_showSelector (v : bool) (c : Component) : Component :=
  {| showSelector := v; isLoading := isLoading c;
     errorMessage := errorMessage c; docusignSDK := docusignSDK c;
     docusignLoaded := docusignLoaded c;
     webformsInstance := webformsInstance c; hasRendered := hasRendered c;
     messageHandler := messageHandler c; instanceToken := instanceToken c;
     instanceId := instanceId c; currentFormId := currentFormId c;
     webformInstanceRecordId := webformInstanceRecordId c;
     pendingFormUrl := pendingFormUrl c;
     pendingInstanceToken := pendingInstanceToken c; _didEnd := _didEnd c;
     _didSubmit := _didSubmit c; _didReady := _didReady c |}.

Definition set_isLoading (v : bool) (c : Component) : Component :=
  {| showSelector := showSelector c; isLoading := v;
     errorMessage := errorMessage c; docusignSDK := docusignSDK c;
     docusignLoaded := docusignLoaded c;
     webformsInstance := webformsInstance c; hasRendered := hasRendered c;
     messageHandler := messageHandler c; instanceToken := instanceToken c;
     instanceId := instanceId c; currentFormId := currentFormId c;
     webformInstanceRecordId := webformInstanceRecordId c;
     pendingFormUrl := pendingFormUrl c;
     pendingInstanceToken := pendingInstanceToken c; _didEnd := _didEnd c;
     _didSubmit := _didSubmit c; _didReady := _didReady c |}.

Definition set_errorMessage (v : Js.value) (c : Component) : Component :=
  {| showSelector := showSelector c; isLoading := isLoading c;
     errorMessage := v; docusignSDK := docusignSDK c;
     docusignLoaded := docusignLoaded c;
     webformsInstance := webformsInstance c; hasRendered := hasRendered c;
     messageHandler := messageHandler c; instanceToken := instanceToken c;
     instanceId := instanceId c; currentFormId := currentFormId c;
     webformInstanceRecordId := webformInstanceRecordId c;
     pendingFormUrl := pendingFormUrl c;
     pendingInstanceToken := pendingInstanceToken c; _didEnd := _didEnd c;
     _didSubmit := _didSubmit c; _didReady := _didReady c |}.

Definition set_docusignSDK (v : option Sdk) (c : Component) : Component :=
  {| showSelector := showSelector c; isLoading := isLoading c;
     errorMessage := errorMessage c; docusignSDK := v;
     docusignLoaded := docusignLoaded c;
     webformsInstance := webformsInstance c; hasRendered := hasRendered c;
     messageHandler := messageHandler c; instanceToken := instanceToken c;
     instanceId := instanceId c; currentFormId := currentFormId c;
     webformInstanceRecordId := webformInstanceRecordId c;
     pendingFormUrl := pendingFormUrl c;
     pendingInstanceToken := pendingInstanceToken c; _didEnd := _didEnd c;
     _didSubmit := _didSubmit c; _didReady := _didReady c |}.

Definition set_docusignLoaded (v : bool) (c : Component) : Component :=
  {| showSelector := showSelector c; isLoading := isLoading c;
     errorMessage := errorMessage c; docusignSDK := docusignSDK c;
     docusignLoaded := v; webformsInstance := webformsInstance c;
     hasRendered := hasRendered c; messageHandler := messageHandler c;
     instanceToken := instanceToken c; instanceId := instanceId c;
     currentFormId := currentFormId c;
     webformInstanceRecordId := webformInstanceRecordId c;
     pendingFormUrl := pendingFormUrl c;
     pendingInstanceToken := pendingInstanceToken c; _didEnd := _didEnd c;
     _didSubmit := _didSubmit c; _didReady := _didReady c |}.

Definition set_webformsInstance (v : option nat) (c : Component) : Component :=
  {| showSelector := showSelector c; isLoading := isLoading c;
     errorMessage := errorMessage c; docusignSDK := docusignSDK c;
     docusignLoaded := docusignLoaded c; webformsInstance := v;
     hasRendered := hasRendered c; messageHandler := messageHandler c;
     instanceToken := instanceToken c; instanceId := instanceId c;
     currentFormId := currentFormId c;
     webformInstanceRecordId := webformInstanceRecordId c;
     pendingFormUrl := pendingFormUrl c;
     pendingInstanceToken := pendingInstanceToken c; _didEnd := _didEnd c;
     _didSubmit := _didSubmit c; _didReady := _didReady c |}.

Definition set_hasRendered (v : bool) (c : Component) : Component :=
  {| showSelector := showSelector c; isLoading := isLoading c;
     errorMessage := errorMessage c; docusignSDK := docusignSDK c;
     docusignLoaded := docusignLoaded c;
     webformsInstance := webformsInstance c; hasRendered := v;
     messageHandler := messageHandler c; instanceToken := instanceToken c;
     instanceId := instanceId c; currentFormId := currentFormId c;
     webformInstanceRecordId := webformInstanceRecordId c;
     pendingFormUrl := pendingFormUrl c;
     pendingInstanceToken := pendingInstanceToken c; _didEnd := _didEnd c;
     _didSubmit := _didSubmit c; _didReady := _didReady c |}.

Definition set_messageHandler (v : option nat) (c : Component) : Component :=
  {| showSelector := showSelector c; isLoading := isLoading c;
     errorMessage := errorMessage c; docusignSDK := docusignSDK c;
     docusignLoaded := docusignLoaded c;
     webformsInstance := webformsInstance c; hasRendered := hasRendered c;
     messageHandler := v; instanceToken := instanceToken c;
     instanceId := instanceId c; currentFormId := currentFormId c;
     webformInstanceRecordId := webformInstanceRecordId c;
     pendingFormUrl := pendingFormUrl c;
     pendingInstanceToken := pendingInstanceToken c; _didEnd := _didEnd c;
     _didSubmit := _didSubmit c; _didReady := _didReady c |}.

Definition set_instanceToken (v : Js.value) (c : Component) : Component :=
  {| showSelector := showSelector c; isLoading := isLoading c;
     errorMessage := errorMessage c; docusignSDK := docusignSDK c;
     docusignLoaded := docusignLoaded c;
     webformsInstance := webformsInstance c; hasRendered := hasRendered c;
     messageHandler := messageHandler c; instanceToken := v;
     instanceId := instanceId c; currentFormId := currentFormId c;
     webformInstanceRecordId := webformInstanceRecordId c;
     pendingFormUrl := pendingFormUrl c;
     pendingInstanceToken := pendingInstanceToken c; _didEnd := _didEnd c;
     _didSubmit := _didSubmit c; _didReady := _didReady c |}.

Definition set_instanceId (v : Js.value) (c : Component) : Component :=
  {| showSelector := showSelector c; isLoading := isLoading c;
     errorMessage := errorMessage c; docusignSDK := docusignSDK c;
     docusignLoaded := docusignLoaded c;
     webformsInstance := webformsInstance c; hasRendered := hasRendered c;
     messageHandler := messageHandler c; instanceToken := instanceToken c;
     instanceId := v; currentFormId := currentFormId c;
     webformInstanceRecordId := webformInstanceRecordId c;
     pendingFormUrl := pendingFormUrl c;
     pendingInstanceToken := pendingInstanceToken c; _didEnd := _didEnd c;
     _didSubmit := _didSubmit c; _didReady := _didReady c |}.

Definition set_currentFormId (v : Js.value) (c : Component) : Component :=
  {| showSelector := showSelector c; isLoading := isLoading c;
     errorMessage := errorMessage c; docusignSDK := docusignSDK c;
     docusignLoaded := docusignLoaded c;
     webformsInstance := webformsInstance c; hasRendered := hasRendered c;
     messageHandler := messageHandler c; instanceToken := instanceToken c;
     instanceId := instanceId c; currentFormId := v;
     webformInstanceRecordId := webformInstanceRecordId c;
     pendingFormUrl := pendingFormUrl c;
     pendingInstanceToken := pendingInstanceToken c; _didEnd := _didEnd c;
     _didSubmit := _didSubmit c; _didReady := _didReady c |}.

Definition set_webformInstanceRecordId (v : Js.value) (c : Component) : Component :=
  {| showSelector := showSelector c; isLoading := isLoading c;
     errorMessage := errorMessage c; docusignSDK := docusignSDK c;
     docusignLoaded := docusignLoaded c;
     webformsInstance := webformsInstance c; hasRendered := hasRendered c;
     messageHandler := messageHandler c; instanceToken := instanceToken c;
     instanceId := instanceId c; currentFormId := currentFormId c;
     webformInstanceRecordId := v; pendingFormUrl := pendingFormUrl c;
     pendingInstanceToken := pendingInstanceToken c; _didEnd := _didEnd c;
     _didSubmit := _didSubmit c; _didReady := _didReady c |}.

Definition set_pendingFormUrl (v : Js.value) (c : Component) : Component :=
  {| showSelector := showSelector c; isLoading := isLoading c;
     errorMessage := errorMessage c; docusignSDK := docusignSDK c;
     docusignLoaded := docusignLoaded c;
     webformsInstance := webformsInstance c; hasRendered := hasRendered c;
     messageHandler := messageHandler c; instanceToken := instanceToken c;
     instanceId := instanceId c; currentFormId := currentFormId c;
     webformInstanceRecordId := webformInstanceRecordId c;
     pendingFormUrl := v; pendingInstanceToken := pendingInstanceToken c;
     _didEnd := _didEnd c; _didSubmit := _didSubmit c;
     _didReady := _didReady c |}.

Definition set_pendingInstanceToken (v : Js.value) (c : Component) : Component :=
  {| showSelector := showSelector c; isLoading := isLoading c;
     errorMessage := errorMessage c; docusignSDK := docusignSDK c;
     docusignLoaded := docusignLoaded c;
     webformsInstance := webformsInstance c; hasRendered := hasRendered c;
     messageHandler := messageHandler c; instanceToken := instanceToken c;
     instanceId := instanceId c; currentFormId := currentFormId c;
     webformInstanceRecordId := webformInstanceRecordId c;
     pendingFormUrl := pendingFormUrl c; pendingInstanceToken := v;
     _didEnd := _didEnd c; _didSubmit := _didSubmit c;
     _didReady := _didReady c |}.

Definition set_didEnd (v : bool) (c : Component) : Component :=
  {| showSelector := showSelector c; isLoading := isLoading c;
     errorMessage := errorMessage c; docusignSDK := docusignSDK c;
     docusignLoaded := docusignLoaded c;
     webformsInstance := webformsInstance c; hasRendered := hasRendered c;
     messageHandler := messageHandler c; instanceToken := instanceToken c;
     instanceId := instanceId c; currentFormId := currentFormId c;
     webformInstanceRecordId := webformInstanceRecordId c;
     pendingFormUrl := pendingFormUrl c;
     pendingInstanceToken := pendingInstanceToken c; _didEnd := v;
     _didSubmit := _didSubmit c; _didReady := _didReady c |}.

Definition set_didSubmit (v : bool) (c : Component) : Component :=
  {| showSelector := showSelector c; isLoading := isLoading c;
     errorMessage := errorMessage c; docusignSDK := docusignSDK c;
     docusignLoaded := docusignLoaded c;
     webformsInstance := webformsInstance c; hasRendered := hasRendered c;
     messageHandler := messageHandler c; instanceToken := instanceToken c;
     instanceId := instanceId c; currentFormId := currentFormId c;
     webformInstanceRecordId := webformInstanceRecordId c;
     pendingFormUrl := pendingFormUrl c;
     pendingInstanceToken := pendingInstanceToken c; _didEnd := _didEnd c;
     _didSubmit := v; _didReady := _didReady c |}.

Definition set_didReady (v : bool) (c : Component) : Component :=
  {| showSelector := showSelector c; isLoading := isLoading c;
     errorMessage := errorMessage c; docusignSDK := docusignSDK c;
     docusignLoaded := docusignLoaded c;
     webformsInstance := webformsInstance c; hasRendered := hasRendered c;
     messageHandler := messageHandler c; instanceToken := instanceToken c;
     instanceId := instanceId c; currentFormId := currentFormId c;
     webformInstanceRecordId := webformInstanceRecordId c;
     pendingFormUrl := pendingFormUrl c;
     pendingInstanceToken := pendingInstanceToken c; _didEnd := _didEnd c;
     _didSubmit := _didSubmit c; _didReady := v |}.

(** Promises a handler of this component is suspended on. *)
Inductive Pending : Type :=
| AwaitLoadScript
| AwaitLoadDocuSign
| AwaitCreateInstance (formId dbqWebformId : Js.value)
| AwaitCreateRecord (ds : InstanceResult)
| AwaitUpdateStatus.

Record World : Type := mkWorld {
  comp : Component;
  listeners : list nat;
  handlersCreated : nat;
  widgets : list Widget;
  apex : list ApexCall;
  console : list ConsoleLine;
  pending : list Pending
}.

Definition set_comp (v : Component) (c : World) : World :=
  {| comp := v; listeners := listeners c;
     handlersCreated := handlersCreated c; widgets := widgets c;
     apex := apex c; console := console c; pending := pending c |}.

Definition set_listeners (v : list nat) (c : World) : World :=
  {| comp := comp c; listeners := v; handlersCreated := handlersCreated c;
     widgets := widgets c; apex := apex c; console := console c;
     pending := pending c |}.

Definition set_handlersCreated (v : nat) (c : World) : World :=
  {| comp := comp c; listeners := listeners c; handlersCreated := v;
     widgets := widgets c; apex := apex c; console := console c;
     pending := pending c |}.

Definition set_widgets (v : list Widget) (c : World) : World :=
  {| comp := comp c; listeners := listeners c;
     handlersCreated := handlersCreated c; widgets := v; apex := apex c;
     console := console c; pending := pending c |}.

Definition set_apex (v : list ApexCall) (c : World) : World :=
  {| comp := comp c; listeners := listeners c;
     handlersCreated := handlersCreated c; widgets := widgets c; apex := v;
     console := console c; pending := pending c |}.

Definition set_console (v : list ConsoleLine) (c : World) : World :=
  {| comp := comp c; listeners := listeners c;
     handlersCreated := handlersCreated c; widgets := widgets c;
     apex := apex c; console := v; pending := pending c |}.

Definition set_pending (v : list Pending) (c : World) : World :=
  {| comp := comp c; listeners := listeners c;
     handlersCreated := handlersCreated c; widgets := widgets c;
     apex := apex c; console := console c; pending := v |}.

(** The field initialisers of the class. *)
Definition initialComponent : Component :=
  {| showSelector := true; isLoading := false; errorMessage := None;
     docusignSDK := None; docusignLoaded := false; webformsInstance := None;
     hasRendered := false; messageHandler := None;
     instanceToken := None; instanceId := None; currentFormId := None;
     webformInstanceRecordId := None;
     pendingFormUrl := None; pendingInstanceToken := None;
     _didEnd := false; _didSubmit := false; _didReady := false |}.

Definition initialWorld : World :=
  {| comp := initialComponent; listeners := []; handlersCreated := 0;
     widgets := []; apex := []; console := []; pending := [] |}.

(** *** Primitive effects *)

Definition upd (f : Component -> Component) (w : World) : World :=
  set_comp (f (comp w)) w.

Definition log (l : ConsoleLine) (w : World) : World :=
  set_console (console w ++ [l]) w.

Definition callApex (c : ApexCall) (w : World) : World :=
  set_apex (apex w ++ [c]) w.

Definition await (p : Pending) (w : World) : World :=
  set_pending (pending w ++ [p]) w.

(** [window.addEventListener('message', h)]: a listener is registered once. *)
Definition addEventListener (h : nat) (w : World) : World :=
  if existsb (Nat.eqb h) (listeners w) then w
  else set_listeners (listeners w ++ [h]) w.

(** [window.removeEventListener('message', h)] *)
Definition removeEventListener (h : nat) (w : World) : World :=
  set_listeners (List.filter (fun k => negb (Nat.eqb h k)) (listeners w)) w.

(** [typeof instance.destroy === 'function'] *)
Definition has_destroy (wid : nat) (w : World) : bool :=
  match widgets w !! wid with
  | Some x => destroy_is_function x
  | None => false
  end.

(** [try { instance.destroy(); } catch (e) { /* noop */ }] *)
Definition destroy (wid : nat) (w : World) : World :=
  set_widgets (alter set_destroyed wid (widgets w)) w.

(** [instance.on(eventType, handler)] *)
Definition on (wid : nat) (eventType : string) (w : World) : World :=
  set_widgets (alter (add_observer eventType) wid (widgets w)) w.

(** *** updateStatus *)

(** [updateStatus(status)] up to its [await]. *)
Definition updateStatus (status : string) (w : World) : World :=
  let w := log (console_log "[Status]") w in
  if negb (Js.truthy (webformInstanceRecordId (comp w))) then
    log (console_error "[Apex] Cannot update status - no record ID available") w
  else
    await AwaitUpdateStatus
      (callApex
         (updateWebformInstanceStatus (webformInstanceRecordId (comp w)) status)
         w).

Definition updateStatus_errorLines : list ConsoleLine :=
  [ console_error "========================================";
    console_error "[Apex] ERROR UPDATING STATUS";
    console_error "Name:";
    console_error "Message:";
    console_error "Body:";
    console_error "Full error object:";
    console_error "========================================" ].

(** [updateStatus] after its [await]: nothing on success, the [catch]
    block on failure. *)
Definition updateStatus_settled (r : Settled) (w : World) : World :=
  match r with
  | Resolved _ => w
  | Rejected e =>
      let w := fold_left (fun w l => log l w) updateStatus_errorLines w in
      upd (set_errorMessage
             (Js.orElse (Js.orElse (Js.body_message_of e) (Js.message_of e))
                        (Some "Failed to update status"))) w
  end.

(** *** The observers set up by initializeWebform *)

Definition markInProgressOnce (w : World) : World :=
  if _didEnd (comp w) || _didSubmit (comp w) then w
  else updateStatus "In Progress" (upd (set_didEnd true) w).

Definition eventTypes : list string := ["ready"; "submitted"; "sessionEnd"].

(** The closure registered with [webformsInstance.on(eventType, ...)];
    its argument [event] is not read. *)
Definition sdkHandler (eventType : string) (event : Payload) (w : World)
  : World :=
  let w := log (console_log "[SDK]") w in
  if String.eqb eventType "ready" then
    if negb (_didReady (comp w)) then
      updateStatus "Ready" (upd (set_didReady true) w)
    else w
  else if String.eqb eventType "submitted" then
    if _didSubmit (comp w) then w
    else updateStatus "Submitted" (upd (set_didSubmit true) w)
  else if String.eqb eventType "sessionEnd" then
    markInProgressOnce w
  else w.

Definition allowedSenders : list string :=
  ["WebFormsPlayer"; "@embedded/signing-ui"; "@embedded-js/core"].

Definition interesting : list string := ["ready"; "submitted"; "sessionEnd"].

(** [const { data } = evt || {}] *)
Definition data_of (evt : option MessageEvent) : option MessageData :=
  match evt with
  | Some e => data e
  | None => None
  end.

(** [data?.content?.sessionEndType] *)
Definition sessionEndType_of (d : MessageData) : Js.value :=
  match content d with
  | Some c => sessionEndType c
  | None => None
  end.

(** The closure stored in [this.messageHandler]. *)
Definition messageHandler_call (evt : option MessageEvent) (w : World)
  : World :=
  match data_of evt with
  | None => w
  | Some d =>
      if Js.truthy (sender d) && negb (Js.has allowedSenders (sender d))
      then w
      else
        let ty := Js.orElse (eventType d) (type d) in
        if negb (Js.truthy ty) || negb (Js.has interesting ty) then w
        else if Js.strictEq ty "submitted" then
          if negb (_didSubmit (comp w)) then
            updateStatus "Submitted" (upd (set_didSubmit true) w)
          else w
        else if Js.strictEq ty "sessionEnd" then
          let t := sessionEndType_of d in
          if Js.strictEq t "finishLater" || Js.strictEq t "finish_later" then
            markInProgressOnce w
          else if Js.strictEq t "completed" then
            updateStatus "Submitted" w
          else markInProgressOnce w
        else if Js.strictEq ty "ready" then
          if negb (_didReady (comp w)) then
            updateStatus "Ready" (upd (set_didReady true) w)
          else w
        else w
  end.

(** *** initializeWebform *)

Definition widgetOptions (tok : Js.value) : WidgetOptions :=
  {| opt_instanceToken := tok;
     showFinishLater := true;
     hideProgressBar := false;
     iframeHeightCalculationMethod := "max";
     autoResizeHeight := true;
     dismissWidgetOnSessionEnd := false |}.

(** The [catch] block of initializeWebform. *)
Definition initializeWebform_catch (e : Js.thrown) (w : World) : World :=
  let w := log (console_error "[LWC] Error in initializeWebform:") w in
  let w :=
    upd (set_errorMessage
           (Some (String.append "Failed to initialize webform: "
                                (Js.message_or_self e)))) w in
  upd (set_showSelector true) w.

Definition sdkNotInitialized : Js.Error :=
  Js.new_Error "DocuSign SDK not properly initialized".

(** The [try] block once the SDK check has passed. *)
Definition initializeWebform_try
    (sdk : Sdk) (container : Container) (formUrl tok : Js.value) (w : World)
  : World :=
  let wid := length (widgets w) in
  let w :=
    set_widgets (widgets w ++ [webforms sdk formUrl (widgetOptions tok)]) w in
  let w := upd (set_webformsInstance (Some wid)) w in
  let w := fold_left (fun w ty => on wid ty w) eventTypes w in
  let h := handlersCreated w in
  let w := set_handlersCreated (S h) w in
  let w := upd (set_messageHandler (Some h)) w in
  let w := addEventListener h w in
  match mount_throws sdk with
  | Some e => initializeWebform_catch (Js.Obj e) w
  | None => set_widgets (alter (set_mountedIn container) wid (widgets w)) w
  end.

Definition initializeWebform
    (container : Container) (formUrl tok : Js.value) (w : World) : World :=
  let w := log (console_log "[LWC] === Initializing webform ===") w in
  let w := log (console_log "[LWC] Base URL:") w in
  match docusignSDK (comp w) with
  | Some sdk =>
      if webforms_is_function sdk then
        initializeWebform_try sdk container formUrl tok w
      else initializeWebform_catch (Js.Obj sdkNotInitialized) w
  | None => initializeWebform_catch (Js.Obj sdkNotInitialized) w
  end.

(** *** Lifecycle callbacks *)

(** connectedCallback up to [await loadScript(...)]. *)
Definition connectedCallback (w : World) : World :=
  await AwaitLoadScript (log (console_log "[LWC] Loading DocuSign library") w).

Definition connectedCallback_catch (e : Js.thrown) (w : World) : World :=
  let w := log (console_error "[LWC] Error loading DocuSign library:") w in
  upd (set_errorMessage
         (Some (String.append "Failed to load DocuSign library: "
                              (Js.message_or_self e)))) w.

(** After [loadScript] settled: call [window.DocuSign.loadDocuSign]. *)
Definition connectedCallback_scriptLoaded (r : Settled) (w : World) : World :=
  match r with
  | Resolved _ =>
      await AwaitLoadDocuSign
        (log (console_log "[LWC] DocuSign script loaded, initializing SDK") w)
  | Rejected e => connectedCallback_catch e w
  end.

(** After [loadDocuSign] settled. *)
Definition connectedCallback_sdkLoaded (r : Settled) (w : World)
  : option World :=
  match r with
  | Resolved (RSdk sdk) =>
      let w := upd (set_docusignSDK sdk) w in
      let w := log (console_log "[LWC] DocuSign SDK ready:") w in
      Some (upd (set_docusignLoaded true) w)
  | Resolved _ => None
  | Rejected e => Some (connectedCallback_catch e w)
  end.

Definition disconnectedCallback (w : World) : World :=
  let w :=
    match messageHandler (comp w) with
    | Some h => upd (set_messageHandler None) (removeEventListener h w)
    | None => w
    end in
  match webformsInstance (comp w) with
  | Some wid => if has_destroy wid w then destroy wid w else w
  | None => w
  end.

(** renderedCallback; [container] is the result of the template query. *)
Definition renderedCallback (container : option Container) (w : World)
  : World :=
  let c := comp w in
  if Js.truthy (pendingFormUrl c) && Js.truthy (pendingInstanceToken c)
     && negb (hasRendered c) && negb (showSelector c)
  then
    let w := upd (set_hasRendered true) w in
    match container with
    | Some el =>
        let w :=
          log (console_log "[LWC] Container found, initializing webform") w in
        initializeWebform el (pendingFormUrl (comp w))
                          (pendingInstanceToken (comp w)) w
    | None =>
        log (console_error "[LWC] Container not found in renderedCallback") w
    end
  else w.

(** *** handleConditionClick *)

(** Up to [await createWebformInstance({ formId })]; the two arguments are
    [event.target.dataset.formid] and [event.target.dataset.recordid]. *)
Definition handleConditionClick (formId dbqWebformId : Js.value) (w : World)
  : World :=
  if negb (docusignLoaded (comp w)) then
    upd (set_errorMessage
           (Some "DocuSign library not loaded yet. Please try again in a moment."))
        w
  else
    let w := upd (set_isLoading true) w in
    let w := upd (set_errorMessage None) w in
    if negb (Js.truthy formId) || negb (Js.truthy dbqWebformId) then
      let w := upd (set_errorMessage (Some "Missing form information")) w in
      upd (set_isLoading false) w
    else
      let w :=
        log (console_log "[LWC] Creating web form instance for form:") w in
      await (AwaitCreateInstance formId dbqWebformId)
            (callApex (createWebformInstance formId) w).

(** The [catch] block of handleConditionClick. *)
Definition handleConditionClick_catch (e : Js.thrown) (w : World) : World :=
  let w := log (console_error "[LWC] Error creating instance or record:") w in
  let w :=
    upd (set_errorMessage
           (Js.orElse (Js.orElse (Js.body_message_of e) (Js.message_of e))
                      (Some "Unexpected error"))) w in
  upd (set_isLoading false) w.

(** After [createWebformInstance] settled. *)
Definition handleConditionClick_instance
    (formId dbqWebformId : Js.value) (r : Settled) (w : World)
  : option World :=
  match r with
  | Resolved (RInstance ds) =>
      let w := log (console_log "[LWC] DocuSign instance created:") w in
      let w := upd (set_instanceToken (res_instanceToken ds)) w in
      let w := upd (set_instanceId (res_instanceId ds)) w in
      let w := upd (set_currentFormId formId) w in
      Some (await (AwaitCreateRecord ds)
              (callApex
                 (createWebformInstanceRecord
                    (instanceToken (comp w)) (instanceId (comp w))
                    (res_formUrl ds) dbqWebformId) w))
  | Resolved _ => None
  | Rejected e => Some (handleConditionClick_catch e w)
  end.

(** After [createWebformInstanceRecord] settled. *)
Definition handleConditionClick_record
    (ds : InstanceResult) (r : Settled) (w : World) : option World :=
  match r with
  | Resolved (RRecordId sfRecordId) =>
      let w :=
        log (console_log "[LWC] Salesforce tracking record created:") w in
      let w := upd (set_webformInstanceRecordId sfRecordId) w in
      let w := upd (set_pendingFormUrl (res_formUrl ds)) w in
      let w := upd (set_pendingInstanceToken (res_instanceToken ds)) w in
      let w := upd (set_showSelector false) w in
      let w := upd (set_isLoading false) w in
      let w := upd (set_didEnd false) w in
      let w := upd (set_didSubmit false) w in
      Some (upd (set_didReady false) w)
  | Resolved _ => None
  | Rejected e => Some (handleConditionClick_catch e w)
  end.

(** *** handleBackToSelector *)

Definition handleBackToSelector (w : World) : World :=
  let w :=
    match messageHandler (comp w) with
    | Some h => upd (set_messageHandler None) (removeEventListener h w)
    | None => w
    end in
  let w :=
    match webformsInstance (comp w) with
    | Some wid => if has_destroy wid w then destroy wid w else w
    | None => w
    end in
  let w := upd (set_showSelector true) w in
  let w := upd (set_instanceToken None) w in
  let w := upd (set_instanceId None) w in
  let w := upd (set_currentFormId None) w in
  let w := upd (set_webformInstanceRecordId None) w in
  let w := upd (set_webformsInstance None) w in
  let w := upd (set_pendingFormUrl None) w in
  let w := upd (set_pendingInstanceToken None) w in
  let w := upd (set_hasRendered false) w in
  let w := upd (set_didEnd false) w in
  let w := upd (set_didSubmit false) w in
  upd (set_didReady false) w.

(** *** The event loop *)

(** What the platform, the user, the widget, the window and the backend
    can make the component do. *)
Inductive Event : Type :=
| Connected
| Disconnected
| Rendered (container : option Container)
| ConditionClick (formId dbqWebformId : Js.value)
| BackToSelector
| SdkEvent (wid : nat) (eventType : string) (event : Payload)
| WindowMessage (evt : option MessageEvent)
| Settle (k : nat) (r : Settled).

(** The part of a suspended handler that runs when its promise settles;
    [None] when the value is not one the awaited call can produce. *)
Definition continue (p : Pending) (r : Settled) (w : World) : option World :=
  match p with
  | AwaitLoadScript => Some (connectedCallback_scriptLoaded r w)
  | AwaitLoadDocuSign => connectedCallback_sdkLoaded r w
  | AwaitCreateInstance formId dbqWebformId =>
      handleConditionClick_instance formId dbqWebformId r w
  | AwaitCreateRecord ds => handleConditionClick_record ds r w
  | AwaitUpdateStatus => Some (updateStatus_settled r w)
  end.

(** A widget calls the observers registered for the event it emits. *)
Definition emit (wid : nat) (eventType : string) (event : Payload) (w : World)
  : World :=
  match widgets w !! wid with
  | Some x =>
      fold_left
        (fun w ty =>
           if String.eqb ty eventType then sdkHandler ty event w else w)
        (observers x) w
  | None => w
  end.

(** The window calls every registered message listener; all listeners of
    this component are closures over the same [this]. *)
Definition postMessage (evt : option MessageEvent) (w : World) : World :=
  fold_left (fun w _ => messageHandler_call evt w) (listeners w) w.

Definition step (e : Event) (w : World) : World :=
  match e with
  | Connected => connectedCallback w
  | Disconnected => disconnectedCallback w
  | Rendered container => renderedCallback container w
  | ConditionClick formId dbqWebformId =>
      handleConditionClick formId dbqWebformId w
  | BackToSelector => handleBackToSelector w
  | SdkEvent wid eventType event => emit wid eventType event w
  | WindowMessage evt => postMessage evt w
  | Settle k r =>
      match pending w !! k with
      | Some p =>
          match continue p r (set_pending (delete k (pending w)) w) with
          | Some w' => w'
          | None => w
          end
      | None => w
      end
  end.

Definition run (es : list Event) (w : World) : World :=
  fold_left (fun w e => step e w) es w.

(** Worlds the component can be in. *)
Inductive reachable : World -> Prop :=
| reachable_initial : reachable initialWorld
| reachable_step e w : reachable w -> reachable (step e w).

(** Notifications of one session, delivered to the observers directly. *)
Inductive Notification : Type :=
| FromSdk (eventType : string) (event : Payload)
| FromWindow (evt : option MessageEvent).

Definition deliver (n : Notification) (w : World) : World :=
  match n with
  | FromSdk eventType event => sdkHandler eventType event w
  | FromWindow evt => messageHandler_call evt w
  end.

Definition deliverAll (ns : list Notification) (w : World) : World :=
  fold_left (fun w n => deliver n w) ns w.

(** The calls made to the backend since the world [w0]. *)
Definition apexSince (w0 w : World) : list ApexCall :=
  drop (length (apex w0)) (apex w).

End BetterWebform.

(** ** webformRelaunch: resume a session from its tracking record *)

Module WebformRelaunch.

(** The fields of the component instance; [recordId] is the public
    property the host page sets. *)
Record Component : Type := mkComponent {
  recordId : Js.value;
  isLoading : bool;
  errorMessage : Js.value;
  status : Js.value;
  formUrl : Js.value;
  instanceId : Js.value;
  ds : option Sdk;
  sdkLoaded : bool;
  webformsInstance : option nat;
  instanceToken : Js.value;
  _didEnd : bool;
  _didSubmit : bool;
  pendingResume : bool;
  sdkLoadTimeoutId : option nat
}.

Definition set_recordId (v : Js.value) (c : Component) : Component :=
  {| recordId := v; isLoading := isLoading c; errorMessage := errorMessage c;
     status := status c; formUrl := formUrl c; instanceId := instanceId c;
     ds := ds c; sdkLoaded := sdkLoaded c;
     webformsInstance := webformsInstance c;
     instanceToken := instanceToken c; _didEnd := _didEnd c;
     _didSubmit := _didSubmit c; pendingResume := pendingResume c;
     sdkLoadTimeoutId := sdkLoadTimeoutId c |}.

Definition set_isLoading (v : bool) (c : Component) : Component :=
  {| recordId := recordId c; isLoading := v; errorMessage := errorMessage c;
     status := status c; formUrl := formUrl c; instanceId := instanceId c;
     ds := ds c; sdkLoaded := sdkLoaded c;
     webformsInstance := webformsInstance c;
     instanceToken := instanceToken c; _didEnd := _didEnd c;
     _didSubmit := _didSubmit c; pendingResume := pendingResume c;
     sdkLoadTimeoutId := sdkLoadTimeoutId c |}.

Definition set_errorMessage (v : Js.value) (c : Component) : Component :=
  {| recordId := recordId c; isLoading := isLoading c; errorMessage := v;
     status := status c; formUrl := formUrl c; instanceId := instanceId c;
     ds := ds c; sdkLoaded := sdkLoaded c;
     webformsInstance := webformsInstance c;
     instanceToken := instanceToken c; _didEnd := _didEnd c;
     _didSubmit := _didSubmit c; pendingResume := pendingResume c;
     sdkLoadTimeoutId := sdkLoadTimeoutId c |}.

Definition set_status (v : Js.value) (c : Component) : Component :=
  {| recordId := recordId c; isLoading := isLoading c;
     errorMessage := errorMessage c; status := v; formUrl := formUrl c;
     instanceId := instanceId c; ds := ds c; sdkLoaded := sdkLoaded c;
     webformsInstance := webformsInstance c;
     instanceToken := instanceToken c; _didEnd := _didEnd c;
     _didSubmit := _didSubmit c; pendingResume := pendingResume c;
     sdkLoadTimeoutId := sdkLoadTimeoutId c |}.

Definition set_formUrl (v : Js.value) (c : Component) : Component :=
  {| recordId := recordId c; isLoading := isLoading c;
     errorMessage := errorMessage c; status := status c; formUrl := v;
     instanceId := instanceId c; ds := ds c; sdkLoaded := sdkLoaded c;
     webformsInstance := webformsInstance c;
     instanceToken := instanceToken c; _didEnd := _didEnd c;
     _didSubmit := _didSubmit c; pendingResume := pendingResume c;
     sdkLoadTimeoutId := sdkLoadTimeoutId c |}.

Definition set_instanceId (v : Js.value) (c : Component) : Component :=
  {| recordId := recordId c; isLoading := isLoading c;
     errorMessage := errorMessage c; status := status c;
     formUrl := formUrl c; instanceId := v; ds := ds c;
     sdkLoaded := sdkLoaded c; webformsInstance := webformsInstance c;
     instanceToken := instanceToken c; _didEnd := _didEnd c;
     _didSubmit := _didSubmit c; pendingResume := pendingResume c;
     sdkLoadTimeoutId := sdkLoadTimeoutId c |}.

Definition set_ds (v : option Sdk) (c : Component) : Component :=
  {| recordId := recordId c; isLoading := isLoading c;
     errorMessage := errorMessage c; status := status c;
     formUrl := formUrl c; instanceId := instanceId c; ds := v;
     sdkLoaded := sdkLoaded c; webformsInstance := webformsInstance c;
     instanceToken := instanceToken c; _didEnd := _didEnd c;
     _didSubmit := _didSubmit c; pendingResume := pendingResume c;
     sdkLoadTimeoutId := sdkLoadTimeoutId c |}.

Definition set_sdkLoaded (v : bool) (c : Component) : Component :=
  {| recordId := recordId c; isLoading := isLoading c;
     errorMessage := errorMessage c; status := status c;
     formUrl := formUrl c; instanceId := instanceId c; ds := ds c;
     sdkLoaded := v; webformsInstance := webformsInstance c;
     instanceToken := instanceToken c; _didEnd := _didEnd c;
     _didSubmit := _didSubmit c; pendingResume := pendingResume c;
     sdkLoadTimeoutId := sdkLoadTimeoutId c |}.

Definition set_webformsInstance (v : option nat) (c : Component) : Component :=
  {| recordId := recordId c; isLoading := isLoading c;
     errorMessage := errorMessage c; status := status c;
     formUrl := formUrl c; instanceId := instanceId c; ds := ds c;
     sdkLoaded := sdkLoaded c; webformsInstance := v;
     instanceToken := instanceToken c; _didEnd := _didEnd c;
     _didSubmit := _didSubmit c; pendingResume := pendingResume c;
     sdkLoadTimeoutId := sdkLoadTimeoutId c |}.

Definition set_instanceToken (v : Js.value) (c : Component) : Component :=
  {| recordId := recordId c; isLoading := isLoading c;
     errorMessage := errorMessage c; status := status c;
     formUrl := formUrl c; instanceId := instanceId c; ds := ds c;
     sdkLoaded := sdkLoaded c; webformsInstance := webformsInstance c;
     instanceToken := v; _didEnd := _didEnd c; _didSubmit := _didSubmit c;
     pendingResume := pendingResume c;
     sdkLoadTimeoutId := sdkLoadTimeoutId c |}.

Definition set_didEnd (v : bool) (c : Component) : Component :=
  {| recordId := recordId c; isLoading := isLoading c;
     errorMessage := errorMessage c; status := status c;
     formUrl := formUrl c; instanceId := instanceId c; ds := ds c;
     sdkLoaded := sdkLoaded c; webformsInstance := webformsInstance c;
     instanceToken := instanceToken c; _didEnd := v;
     _didSubmit := _didSubmit c; pendingResume := pendingResume c;
     sdkLoadTimeoutId := sdkLoadTimeoutId c |}.

Definition set_didSubmit (v : bool) (c : Component) : Component :=
  {| recordId := recordId c; isLoading := isLoading c;
     errorMessage := errorMessage c; status := status c;
     formUrl := formUrl c; instanceId := instanceId c; ds := ds c;
     sdkLoaded := sdkLoaded c; webformsInstance := webformsInstance c;
     instanceToken := instanceToken c; _didEnd := _didEnd c; _didSubmit := v;
     pendingResume := pendingResume c;
     sdkLoadTimeoutId := sdkLoadTimeoutId c |}.

Definition set_pendingResume (v : bool) (c : Component) : Component :=
  {| recordId := recordId c; isLoading := isLoading c;
     errorMessage := errorMessage c; status := status c;
     formUrl := formUrl c; instanceId := instanceId c; ds := ds c;
     sdkLoaded := sdkLoaded c; webformsInstance := webformsInstance c;
     instanceToken := instanceToken c; _didEnd := _didEnd c;
     _didSubmit := _didSubmit c; pendingResume := v;
     sdkLoadTimeoutId := sdkLoadTimeoutId c |}.

Definition set_sdkLoadTimeoutId (v : option nat) (c : Component) : Component :=
  {| recordId := recordId c; isLoading := isLoading c;
     errorMessage := errorMessage c; status := status c;
     formUrl := formUrl c; instanceId := instanceId c; ds := ds c;
     sdkLoaded := sdkLoaded c; webformsInstance := webformsInstance c;
     instanceToken := instanceToken c; _didEnd := _didEnd c;
     _didSubmit := _didSubmit c; pendingResume := pendingResume c;
     sdkLoadTimeoutId := v |}.

(** Who called [resume()]: connectedCallback awaits it and then runs its
    [finally] block, the record wire and the retry action do nothing after. *)
Inductive Caller : Type :=
| FromConnected
| FromWire
| FromReload.

(** Promises a handler of this component is suspended on. *)
Inductive Pending : Type :=
| AwaitLoadScript
| AwaitLoadDocuSign
| AwaitRefresh (caller : Caller)
| AwaitUpdateStatus.

(** The component and its surroundings.  [now] is the clock, in
    milliseconds; [timers] holds the ids of the timeouts that are set and
    [deadlines] the time each timeout that was created is due, newest
    first. *)
Record World : Type := mkWorld {
  comp : Component;
  now : N;
  timers : list nat;
  deadlines : list (nat * N);
  timersCreated : nat;
  widgets : list Widget;
  apex : list ApexCall;
  console : list ConsoleLine;
  pending : list Pending
}.

Definition set_comp (v : Component) (c : World) : World :=
  {| comp := v; now := now c; timers := timers c; deadlines := deadlines c;
     timersCreated := timersCreated c; widgets := widgets c; apex := apex c;
     console := console c; pending := pending c |}.

Definition set_now (v : N) (c : World) : World :=
  {| comp := comp c; now := v; timers := timers c; deadlines := deadlines c;
     timersCreated := timersCreated c; widgets := widgets c; apex := apex c;
     console := console c; pending := pending c |}.

Definition set_timers (v : list nat) (c : World) : World :=
  {| comp := comp c; now := now c; timers := v; deadlines := deadlines c;
     timersCreated := timersCreated c; widgets := widgets c; apex := apex c;
     console := console c; pending := pending c |}.

Definition set_deadlines (v : list (nat * N)) (c : World) : World :=
  {| comp := comp c; now := now c; timers := timers c; deadlines := v;
     timersCreated := timersCreated c; widgets := widgets c; apex := apex c;
     console := console c; pending := pending c |}.

Definition set_timersCreated (v : nat) (c : World) : World :=
  {| comp := comp c; now := now c; timers := timers c;
     deadlines := deadlines c; timersCreated := v; widgets := widgets c;
     apex := apex c; console := console c; pending := pending c |}.

Definition set_widgets (v : list Widget) (c : World) : World :=
  {| comp := comp c; now := now c; timers := timers c;
     deadlines := deadlines c; timersCreated := timersCreated c; widgets := v;
     apex := apex c; console := console c; pending := pending c |}.

Definition set_apex (v : list ApexCall) (c : World) : World :=
  {| comp := comp c; now := now c; timers := timers c;
     deadlines := deadlines c; timersCreated := timersCreated c;
     widgets := widgets c; apex := v; console := console c;
     pending := pending c |}.

Definition set_console (v : list ConsoleLine) (c : World) : World :=
  {| comp := comp c; now := now c; timers := timers c;
     deadlines := deadlines c; timersCreated := timersCreated c;
     widgets := widgets c; apex := apex c; console := v;
     pending := pending c |}.

Definition set_pending (v : list Pending) (c : World) : World :=
  {| comp := comp c; now := now c; timers := timers c;
     deadlines := deadlines c; timersCreated := timersCreated c;
     widgets := widgets c; apex := apex c; console := console c;
     pending := v |}.

(** The field initialisers of the class. *)
Definition initialComponent (rid : Js.value) : Component :=
  {| recordId := rid; isLoading := true; errorMessage := None;
     status := None; formUrl := None; instanceId := None;
     ds := None; sdkLoaded := false; webformsInstance := None;
     instanceToken := None; _didEnd := false; _didSubmit := false;
     pendingResume := false; sdkLoadTimeoutId := None |}.

Definition initialWorld (rid : Js.value) : World :=
  {| comp := initialComponent rid; now := 0%N; timers := []; deadlines := [];
     timersCreated := 0; widgets := []; apex := []; console := [];
     pending := [] |}.

(** What the record wire delivers for the three fields. *)
Record RecordData : Type := mkRecordData {
  rec_status : Js.value;
  rec_formUrl : Js.value;
  rec_instanceId : Js.value
}.

(** *** Getters *)

Definition canRender (c : Component) : bool :=
  negb (Js.truthy (errorMessage c)) && Js.strictEq (status c) "In Progress".

Definition showNotInProgress (c : Component) : bool :=
  negb (isLoading c) && negb (Js.truthy (errorMessage c))
  && negb (Js.strictEq (status c) "In Progress").

(** *** Primitive effects *)

Definition upd (f : Component -> Component) (w : World) : World :=
  set_comp (f (comp w)) w.

Definition log (l : ConsoleLine) (w : World) : World :=
  set_console (console w ++ [l]) w.

Definition callApex (c : ApexCall) (w : World) : World :=
  set_apex (apex w ++ [c]) w.

Definition await (p : Pending) (w : World) : World :=
  set_pending (pending w ++ [p]) w.

(** [window.clearTimeout(id)] *)
Definition clearTimeout (id : nat) (w : World) : World :=
  set_timers (List.filter (fun k => negb (Nat.eqb id k)) (timers w)) w.

(** [instance.destroy] is present *)
Definition has_destroy (wid : nat) (w : World) : bool :=
  match widgets w !! wid with
  | Some x => destroy_is_function x
  | None => false
  end.

(** [try { instance.destroy(); } catch (_) {}] *)
Definition destroy (wid : nat) (w : World) : World :=
  set_widgets (alter set_destroyed wid (widgets w)) w.

(** [instance.on(evt, handler)] *)
Definition on (wid : nat) (evt : string) (w : World) : World :=
  set_widgets (alter (add_observer evt) wid (widgets w)) w.

(** The error a call through a missing function raises; the text of its
    message is the engine's. *)
Definition typeError : Js.Error :=
  {| Js.body := None; Js.message := Some "TypeError";
     Js.asString := "TypeError" |}.

(** *** updateStatus *)

(** [updateStatus(status)] up to its [await]. *)
Definition updateStatus (st : string) (w : World) : World :=
  await AwaitUpdateStatus
    (callApex (updateWebformInstanceStatus (recordId (comp w)) st) w).

(** [updateStatus] after its [await]. *)
Definition updateStatus_settled (r : Settled) (w : World) : World :=
  match r with
  | Resolved _ => w
  | Rejected e =>
      let w := log (console_error "Failed to update status") w in
      upd (set_errorMessage
             (Js.orElse (Js.orElse (Js.body_message_of e) (Js.message_of e))
                        (Some "Failed to update status"))) w
  end.

(** *** mount and its observers *)

Definition markInProgressOnce (w : World) : World :=
  if _didEnd (comp w) || _didSubmit (comp w) then w
  else updateStatus "In Progress" (upd (set_didEnd true) w).

Definition eventTypes : list string := ["ready"; "submitted"; "sessionEnd"].

(** The closure registered with [webformsInstance.on(evt, ...)]. *)
Definition sdkHandler (evt : string) (payload : Payload) (w : World) : World :=
  let w := log (console_log "[relaunch SDK]") w in
  if String.eqb evt "submitted" then
    if negb (_didSubmit (comp w)) then
      updateStatus "Submitted" (upd (set_didSubmit true) w)
    else w
  else if String.eqb evt "sessionEnd" then markInProgressOnce w
  else w.

Definition widgetOptions (tok : Js.value) : WidgetOptions :=
  {| opt_instanceToken := tok;
     showFinishLater := true;
     hideProgressBar := false;
     iframeHeightCalculationMethod := "max";
     autoResizeHeight := true;
     dismissWidgetOnSessionEnd := false |}.

(** [mount(container, formUrl, instanceToken)]; the second component is
    what the call throws, if anything. *)
Definition mount (container : Container) (url tok : Js.value) (w : World)
  : World * option Js.Error :=
  let w := upd (set_didEnd false) w in
  let w := upd (set_didSubmit false) w in
  match ds (comp w) with
  | Some sdk =>
      if webforms_is_function sdk then
        let wid := length (widgets w) in
        let w :=
          set_widgets (widgets w ++ [webforms sdk url (widgetOptions tok)]) w in
        let w := upd (set_webformsInstance (Some wid)) w in
        let w := fold_left (fun w evt => on wid evt w) eventTypes w in
        match mount_throws sdk with
        | Some e => (w, Some e)
        | None =>
            (set_widgets (alter (set_mountedIn container) wid (widgets w)) w,
             None)
        end
      else (w, Some typeError)
  | None => (w, Some typeError)
  end.

(** *** connectedCallback, first part, and its [finally] block *)

(** The callback handed to [window.setTimeout(..., 15000)]. *)
Definition sdkLoadTimeout (w : World) : World :=
  if negb (sdkLoaded (comp w)) then
    let w :=
      upd (set_errorMessage (Some "DocuSign SDK took too long to load.")) w in
    upd (set_isLoading false) w
  else w.

(** [window.setTimeout(callback, delay)]: the timeout is set and is due
    [delay] milliseconds from now; the result is its id. *)
Definition setTimeout (delay : N) (w : World) : World * nat :=
  let id := S (timersCreated w) in
  let w := set_timersCreated id w in
  let w := set_timers (timers w ++ [id]) w in
  (set_deadlines ((id, (now w + delay)%N) :: deadlines w) w, id).

Definition connectedCallback (w : World) : World :=
  let (w, id) := setTimeout 15000 w in
  let w := upd (set_sdkLoadTimeoutId (Some id)) w in
  await AwaitLoadScript w.

Definition connectedCallback_finally (w : World) : World :=
  match sdkLoadTimeoutId (comp w) with
  | Some id =>
      if Nat.eqb id 0 then w
      else upd (set_sdkLoadTimeoutId None) (clearTimeout id w)
  | None => w
  end.

Definition connectedCallback_catch (e : Js.thrown) (w : World) : World :=
  let w :=
    upd (set_errorMessage
           (Some (String.append "Failed to load DocuSign SDK: "
                                (Js.message_or_self e)))) w in
  upd (set_isLoading false) w.

(** *** resume *)

(** What runs once a call of [resume()] has completed. *)
Definition resumed (caller : Caller) (w : World) : World :=
  match caller with
  | FromConnected => connectedCallback_finally w
  | FromWire | FromReload => w
  end.

(** The [catch] block of resume. *)
Definition resume_catch (e : Js.thrown) (w : World) : World :=
  let w :=
    upd (set_errorMessage
           (Js.orElse (Js.orElse (Js.body_message_of e) (Js.message_of e))
                      (Some "Unexpected error resuming webform"))) w in
  upd (set_isLoading false) w.

(** [resume()] up to [await refreshInstanceToken(...)]. *)
Definition resume (caller : Caller) (w : World) : World :=
  let w := upd (set_isLoading true) w in
  let w := upd (set_errorMessage None) w in
  if negb (sdkLoaded (comp w)) then
    resumed caller (upd (set_pendingResume true) w)
  else if negb (Js.truthy (formUrl (comp w)))
          || negb (Js.truthy (instanceId (comp w))) then
    resumed caller
      (resume_catch
         (Js.Obj (Js.new_Error "Missing form URL or Instance ID on the record"))
         w)
  else
    await (AwaitRefresh caller)
          (callApex (refreshInstanceToken (recordId (comp w))) w).

(** [resume()] after the refresh resolved with [refreshed]; [container]
    is the result of the template query. *)
Definition resume_refreshed
    (refreshed : InstanceResult) (container : option Container) (w : World)
  : World :=
  let w := upd (set_instanceToken (res_instanceToken refreshed)) w in
  let w :=
    upd (set_formUrl (Js.orElse (res_formUrl refreshed) (formUrl (comp w))))
        w in
  let w :=
    upd (set_instanceId
           (Js.orElse (res_instanceId refreshed) (instanceId (comp w)))) w in
  if negb (Js.truthy (instanceToken (comp w))) then
    resume_catch
      (Js.Obj (Js.new_Error "Failed to obtain a fresh instance token")) w
  else
    match container with
    | None => resume_catch (Js.Obj (Js.new_Error "Container not found")) w
    | Some el =>
        let w :=
          match webformsInstance (comp w) with
          | Some wid =>
              if has_destroy wid w then
                upd (set_webformsInstance None) (destroy wid w)
              else w
          | None => w
          end in
        match mount el (formUrl (comp w)) (instanceToken (comp w)) w with
        | (w, Some e) => resume_catch (Js.Obj e) w
        | (w, None) => upd (set_isLoading false) w
        end
    end.

(** [resume()] after its [await] settled. *)
Definition resume_settled
    (caller : Caller) (r : Settled) (container : option Container) (w : World)
  : option World :=
  match r with
  | Resolved (RInstance refreshed) =>
      Some (resumed caller (resume_refreshed refreshed container w))
  | Resolved _ => None
  | Rejected e => Some (resumed caller (resume_catch e w))
  end.

(** [reload()] *)
Definition reload (w : World) : World := resume FromReload w.

(** *** connectedCallback after its awaits *)

(** After [loadScript] settled. *)
Definition connectedCallback_scriptLoaded (r : Settled) (w : World) : World :=
  match r with
  | Resolved _ => await AwaitLoadDocuSign w
  | Rejected e => connectedCallback_finally (connectedCallback_catch e w)
  end.

(** After [loadDocuSign] settled. *)
Definition connectedCallback_sdkLoaded (r : Settled) (w : World)
  : option World :=
  match r with
  | Resolved (RSdk sdk) =>
      let w := upd (set_ds sdk) w in
      let w := upd (set_sdkLoaded true) w in
      if pendingResume (comp w) then
        Some (resume FromConnected (upd (set_pendingResume false) w))
      else Some (connectedCallback_finally w)
  | Resolved _ => None
  | Rejected e =>
      Some (connectedCallback_finally (connectedCallback_catch e w))
  end.

(** *** wiredRecord *)

Definition wiredRecord
    (wireData : option RecordData) (wireError : option Js.Error) (w : World)
  : World :=
  match wireError with
  | Some _ =>
      let w :=
        upd (set_errorMessage (Some "Failed to load Webform Instance record"))
            w in
      upd (set_isLoading false) w
  | None =>
      match wireData with
      | None => w
      | Some d =>
          let w := upd (set_status (rec_status d)) w in
          let w := upd (set_formUrl (rec_formUrl d)) w in
          let w := upd (set_instanceId (rec_instanceId d)) w in
          if Js.strictEq (status (comp w)) "In Progress" then
            if sdkLoaded (comp w) then resume FromWire w
            else upd (set_pendingResume true) w
          else upd (set_isLoading false) w
      end
  end.

(** *** The event loop *)

(** What the platform, the host page, the user, the window, the widget
    and the backend do to the component.  [Elapse] lets time pass;
    [SetRecordId] is the host page writing the public [recordId]. *)
Inductive Event : Type :=
| Connected
| WiredRecord (wireData : option RecordData) (wireError : option Js.Error)
| Reload
| TimerFires (id : nat)
| SdkEvent (wid : nat) (evt : string) (payload : Payload)
| Settle (k : nat) (r : Settled) (container : option Container)
| Elapse (ms : N)
| SetRecordId (rid : Js.value).

Definition continue
    (p : Pending) (r : Settled) (container : option Container) (w : World)
  : option World :=
  match p with
  | AwaitLoadScript => Some (connectedCallback_scriptLoaded r w)
  | AwaitLoadDocuSign => connectedCallback_sdkLoaded r w
  | AwaitRefresh caller => resume_settled caller r container w
  | AwaitUpdateStatus => Some (updateStatus_settled r w)
  end.

Definition emit (wid : nat) (evt : string) (payload : Payload) (w : World)
  : World :=
  match widgets w !! wid with
  | Some x =>
      fold_left
        (fun w ty => if String.eqb ty evt then sdkHandler ty payload w else w)
        (observers x) w
  | None => w
  end.

(** The time the timeout [id] is due. *)
Definition deadline (id : nat) (w : World) : option N :=
  match List.find (fun t => Nat.eqb id (fst t)) (deadlines w) with
  | Some t => Some (snd t)
  | None => None
  end.

(** The delay of the timeout [id] has passed. *)
Definition due (id : nat) (w : World) : bool :=
  match deadline id w with
  | Some t => N.leb t (now w)
  | None => false
  end.

(** A timeout that is still set fires once, and not before it is due. *)
Definition fire (id : nat) (w : World) : World :=
  if existsb (Nat.eqb id) (timers w) && due id w
  then sdkLoadTimeout (clearTimeout id w)
  else w.

Definition step (e : Event) (w : World) : World :=
  match e with
  | Connected => connectedCallback w
  | WiredRecord wireData wireError => wiredRecord wireData wireError w
  | Reload => reload w
  | TimerFires id => fire id w
  | SdkEvent wid evt payload => emit wid evt payload w
  | Settle k r container =>
      match pending w !! k with
      | Some p =>
          match
            continue p r container (set_pending (delete k (pending w)) w)
          with
          | Some w' => w'
          | None => w
          end
      | None => w
      end
  | Elapse ms => set_now (now w + ms)%N w
  | SetRecordId rid => upd (set_recordId rid) w
  end.

Definition run (es : list Event) (w : World) : World :=
  fold_left (fun w e => step e w) es w.

Definition deliverAll (ns : list (string * Payload)) (w : World) : World :=
  fold_left (fun w n => sdkHandler (fst n) (snd n) w) ns w.

End WebformRelaunch.

(** ** docusignWebformIframe: the simplest variant *)

Module DocusignWebformIframe.

Record Component : Type := mkComponent {
  selectedUrl : Js.value;
  showSelector : bool;
  isLoading : bool;
  errorMessage : Js.value;
  instanceToken : Js.value;
  instanceId : Js.value;
  currentFormId : Js.value;
  webformInstanceRecordId : Js.value
}.

Definition set_selectedUrl (v : Js.value) (c : Component) : Component :=
  {| selectedUrl := v; showSelector := showSelector c;
     isLoading := isLoading c; errorMessage := errorMessage c;
     instanceToken := instanceToken c; instanceId := instanceId c;
     currentFormId := currentFormId c;
     webformInstanceRecordId := webformInstanceRecordId c |}.

Definition set_showSelector (v : bool) (c : Component) : Component :=
  {| selectedUrl := selectedUrl c; showSelector := v;
     isLoading := isLoading c; errorMessage := errorMessage c;
     instanceToken := instanceToken c; instanceId := instanceId c;
     currentFormId := currentFormId c;
     webformInstanceRecordId := webformInstanceRecordId c |}.

Definition set_isLoading (v : bool) (c : Component) : Component :=
  {| selectedUrl := selectedUrl c; showSelector := showSelector c;
     isLoading := v; errorMessage := errorMessage c;
     instanceToken := instanceToken c; instanceId := instanceId c;
     currentFormId := currentFormId c;
     webformInstanceRecordId := webformInstanceRecordId c |}.

Definition set_errorMessage (v : Js.value) (c : Component) : Component :=
  {| selectedUrl := selectedUrl c; showSelector := showSelector c;
     isLoading := isLoading c; errorMessage := v;
     instanceToken := instanceToken c; instanceId := instanceId c;
     currentFormId := currentFormId c;
     webformInstanceRecordId := webformInstanceRecordId c |}.

Definition set_instanceToken (v : Js.value) (c : Component) : Component :=
  {| selectedUrl := selectedUrl c; showSelector := showSelector c;
     isLoading := isLoading c; errorMessage := errorMessage c;
     instanceToken := v; instanceId := instanceId c;
     currentFormId := currentFormId c;
     webformInstanceRecordId := webformInstanceRecordId c |}.

Definition set_instanceId (v : Js.value) (c : Component) : Component :=
  {| selectedUrl := selectedUrl c; showSelector := showSelector c;
     isLoading := isLoading c; errorMessage := errorMessage c;
     instanceToken := instanceToken c; instanceId := v;
     currentFormId := currentFormId c;
     webformInstanceRecordId := webformInstanceRecordId c |}.

Definition set_currentFormId (v : Js.value) (c : Component) : Component :=
  {| selectedUrl := selectedUrl c; showSelector := showSelector c;
     isLoading := isLoading c; errorMessage := errorMessage c;
     instanceToken := instanceToken c; instanceId := instanceId c;
     currentFormId := v;
     webformInstanceRecordId := webformInstanceRecordId c |}.

Definition set_webformInstanceRecordId (v : Js.value) (c : Component) : Component :=
  {| selectedUrl := selectedUrl c; showSelector := showSelector c;
     isLoading := isLoading c; errorMessage := errorMessage c;
     instanceToken := instanceToken c; instanceId := instanceId c;
     currentFormId := currentFormId c; webformInstanceRecordId := v |}.

(** Promises a handler of this component is suspended on. *)
Inductive Pending : Type :=
| AwaitCreateInstance (formId dbqWebformId : Js.value)
| AwaitCreateRecord.

Record World : Type := mkWorld {
  comp : Component;
  apex : list ApexCall;
  console : list ConsoleLine;
  pending : list Pending
}.

Definition initialComponent : Component :=
  {| selectedUrl := None; showSelector := true; isLoading := false;
     errorMessage := None; instanceToken := None; instanceId := None;
     currentFormId := None; webformInstanceRecordId := None |}.

Definition initialWorld : World :=
  {| comp := initialComponent; apex := []; console := []; pending := [] |}.

Definition upd (f : Component -> Component) (w : World) : World :=
  {| comp := f (comp w); apex := apex w; console := console w;
     pending := pending w |}.

Definition log (l : ConsoleLine) (w : World) : World :=
  {| comp := comp w; apex := apex w; console := console w ++ [l];
     pending := pending w |}.

Definition callApex (c : ApexCall) (w : World) : World :=
  {| comp := comp w; apex := apex w ++ [c]; console := console w;
     pending := pending w |}.

Definition await (p : Pending) (w : World) : World :=
  {| comp := comp w; apex := apex w; console := console w;
     pending := pending w ++ [p] |}.

Definition set_pending (ps : list Pending) (w : World) : World :=
  {| comp := comp w; apex := apex w; console := console w; pending := ps |}.

(** handleConditionClick up to [await createWebformInstance(...)]. *)
Definition handleConditionClick (formId dbqWebformId : Js.value) (w : World)
  : World :=
  let w := upd (set_isLoading true) w in
  let w := upd (set_errorMessage None) w in
  if negb (Js.truthy formId) then
    let w :=
      upd (set_errorMessage (Some "Form ID not found for this condition")) w in
    upd (set_isLoading false) w
  else if negb (Js.truthy dbqWebformId) then
    let w :=
      upd (set_errorMessage (Some "DBQ Webform record ID not found")) w in
    upd (set_isLoading false) w
  else
    let w := log (console_log "Creating instance for form ID:") w in
    let w := log (console_log "DBQ Webform Record ID:") w in
    await (AwaitCreateInstance formId dbqWebformId)
          (callApex (createWebformInstance formId) w).

(** The [finally] block. *)
Definition handleConditionClick_finally (w : World) : World :=
  upd (set_isLoading false) w.

(** The [catch] block, [error.body ? error.body.message : error.message];
    reading [body] of a nullish reason throws out of the block. *)
Definition handleConditionClick_catch (e : Js.thrown) (w : World) : World :=
  let w := log (console_error "Error:") w in
  match e with
  | Js.Obj err =>
      upd (set_errorMessage
             (match Js.body err with
              | Some b => Js.body_message b
              | None => Js.message err
              end)) w
  | Js.Undefined | Js.Null => w
  end.

(** After [createWebformInstance] settled. *)
Definition handleConditionClick_instance
    (formId dbqWebformId : Js.value) (r : Settled) (w : World)
  : option World :=
  match r with
  | Resolved (RInstance result) =>
      let w := log (console_log "DocuSign instance created:") w in
      let w := upd (set_instanceToken (res_instanceToken result)) w in
      let w := upd (set_instanceId (res_instanceId result)) w in
      let w := upd (set_currentFormId formId) w in
      let w := upd (set_selectedUrl (res_formUrl result)) w in
      let w :=
        log (console_log "Creating Salesforce Webform_Instance__c record...")
            w in
      Some (await AwaitCreateRecord
              (callApex
                 (createWebformInstanceRecord
                    (instanceToken (comp w)) (instanceId (comp w))
                    (selectedUrl (comp w)) dbqWebformId) w))
  | Resolved _ => None
  | Rejected e =>
      Some (handleConditionClick_finally (handleConditionClick_catch e w))
  end.

(** After [createWebformInstanceRecord] settled. *)
Definition handleConditionClick_record (r : Settled) (w : World)
  : option World :=
  match r with
  | Resolved (RRecordId sfRecordId) =>
      let w := log (console_log "Salesforce record created with ID:") w in
      let w := upd (set_webformInstanceRecordId sfRecordId) w in
      let w := upd (set_showSelector false) w in
      Some (handleConditionClick_finally w)
  | Resolved _ => None
  | Rejected e =>
      Some (handleConditionClick_finally (handleConditionClick_catch e w))
  end.

Definition handleBackToSelector (w : World) : World :=
  let w := upd (set_showSelector true) w in
  let w := upd (set_selectedUrl None) w in
  let w := upd (set_instanceToken None) w in
  let w := upd (set_instanceId None) w in
  let w := upd (set_currentFormId None) w in
  upd (set_webformInstanceRecordId None) w.

Inductive Event : Type :=
| ConditionClick (formId dbqWebformId : Js.value)
| BackToSelector
| Settle (k : nat) (r : Settled).

Definition continue (p : Pending) (r : Settled) (w : World) : option World :=
  match p with
  | AwaitCreateInstance formId dbqWebformId =>
      handleConditionClick_instance formId dbqWebformId r w
  | AwaitCreateRecord => handleConditionClick_record r w
  end.

Definition step (e : Event) (w : World) : World :=
  match e with
  | ConditionClick formId dbqWebformId =>
      handleConditionClick formId dbqWebformId w
  | BackToSelector => handleBackToSelector w
  | Settle k r =>
      match pending w !! k with
      | Some p =>
          match continue p r (set_pending (delete k (pending w)) w) with
          | Some w' => w'
          | None => w
          end
      | None => w
      end
  end.

Definition run (es : list Event) (w : World) : World :=
  fold_left (fun w e => step e w) es w.

End DocusignWebformIframe.

(** ** Worlds and predicates the statements below are about *)

Module BetterWebformSession.
Import BetterWebform.

(** An SDK object that follows the vendor's documented interface. *)
Definition vendorSdk : Sdk :=
  {| webforms_is_function := true; instance_has_destroy := true;
     mount_throws := None |}.

Definition created : InstanceResult :=
  {| res_instanceToken := Some "t1"; res_instanceId := Some "s1";
     res_formUrl := Some "https://x/f1" |}.

(** The library loads, the user picks an item, the backend creates the
    session and the tracking record ["rec1"], and the view renders. *)
Definition launch : list Event :=
  [ Connected;
    Settle 0 (Resolved RUnit);
    Settle 0 (Resolved (RSdk (Some vendorSdk)));
    ConditionClick (Some "f1") (Some "c1");
    Settle 0 (Resolved (RInstance created));
    Settle 0 (Resolved (RRecordId (Some "rec1")));
    Rendered (Some WebformContainer) ].

Definition sessionWorld : World := run launch initialWorld.

(** A window message with the given fields. *)
Definition message (from ty subtype : Js.value) : option MessageEvent :=
  Some {| data :=
            Some {| sender := from; eventType := None; type := ty;
                    content := Some {| sessionEndType := subtype |} |} |}.

(** The filter at the head of the fallback listener lets the message
    through: no sender or an allowed one, and an interesting type. *)
Definition accepted (evt : option MessageEvent) : bool :=
  match data_of evt with
  | Some d =>
      (negb (Js.truthy (sender d)) || Js.has allowedSenders (sender d))
      && Js.has interesting (Js.orElse (eventType d) (type d))
  | None => false
  end.

(** Lines 169 to 180 of handleBackToSelector: the field resets that
    follow the teardown calls. *)
Definition resetSelection (c : Component) : Component :=
  let c := set_showSelector true c in
  let c := set_instanceToken None c in
  let c := set_instanceId None c in
  let c := set_currentFormId None c in
  let c := set_webformInstanceRecordId None c in
  let c := set_webformsInstance None c in
  let c := set_pendingFormUrl None c in
  let c := set_pendingInstanceToken None c in
  let c := set_hasRendered false c in
  let c := set_didEnd false c in
  let c := set_didSubmit false c in
  set_didReady false c.

(** No listener of the component is registered with the window. *)
Definition no_listener (w : World) : Prop := listeners w = [].

(** Every widget instance that can be destroyed has been. *)
Definition no_active_widget (w : World) : Prop :=
  forall i x, widgets w !! i = Some x ->
              destroy_is_function x = true -> destroyed x = true.

(** What ties the component's references to the window and the widget
    store: the registered listeners are exactly the held closure, a live
    widget is the held instance, and before the first render of a session
    nothing is held. *)
Record consistent (w : World) : Prop := mkConsistent {
  listeners_held :
    listeners w = match messageHandler (comp w) with
                  | Some h => [h]
                  | None => []
                  end;
  live_widget_held :
    forall i x, widgets w !! i = Some x ->
                destroy_is_function x = true -> destroyed x = false ->
                webformsInstance (comp w) = Some i;
  unrendered_idle :
    hasRendered (comp w) = false ->
    messageHandler (comp w) = None /\ no_active_widget w
}.

(** The world [w'] differs from [w] in nothing the teardown is about. *)
Definition same_handles (w w' : World) : Prop :=
  listeners w' = listeners w
  /\ widgets w' = widgets w
  /\ messageHandler (comp w') = messageHandler (comp w)
  /\ webformsInstance (comp w') = webformsInstance (comp w)
  /\ hasRendered (comp w') = hasRendered (comp w).

(** The suspended handler is a launch waiting for the remote session or
    for the tracking record. *)
Definition launching (p : Pending) : bool :=
  match p with
  | AwaitCreateInstance _ _ | AwaitCreateRecord _ => true
  | _ => false
  end.

(** A [sessionEnd] window message with subtype "completed" that passes
    the filter: the one notification whose report no guard covers. *)
Definition completed_message (n : Notification) : bool :=
  match n with
  | FromSdk _ _ => false
  | FromWindow evt =>
      match data_of evt with
      | Some d =>
          accepted evt
          && Js.strictEq (Js.orElse (eventType d) (type d)) "sessionEnd"
          && Js.strictEq (sessionEndType_of d) "completed"
      | None => false
      end
  end.

End BetterWebformSession.

Module WebformRelaunchSession.
Import WebformRelaunch.

Definition vendorSdk : Sdk :=
  {| webforms_is_function := true; instance_has_destroy := true;
     mount_throws := None |}.

Definition inProgressRecord : RecordData :=
  {| rec_status := Some "In Progress"; rec_formUrl := Some "https://x/f1";
     rec_instanceId := Some "i1" |}.

Definition tokenOnly : InstanceResult :=
  {| res_instanceToken := Some "t2"; res_instanceId := None;
     res_formUrl := None |}.

(** The library loads in time, the record arrives, the token is
    refreshed and the widget mounts. *)
Definition relaunch : list Event :=
  [ Connected;
    Settle 0 (Resolved RUnit) None;
    Settle 0 (Resolved (RSdk (Some vendorSdk))) None;
    WiredRecord (Some inProgressRecord) None;
    Settle 0 (Resolved (RInstance tokenOnly)) (Some WebformContainer) ].

Definition resumedWorld : World := run relaunch (initialWorld (Some "rec1")).



(** The widget [mount] builds from a working SDK. *)
Definition mountedWidget (sdk : Sdk) (el : Container) (u tok : Js.value)
  : Widget :=
  {| url := u; options := widgetOptions tok;
     destroy_is_function := instance_has_destroy sdk;
     observers := eventTypes; mountedIn := Some el; destroyed := false |}.

End WebformRelaunchSession.

(** A backend failure with a structured body that carries no message. *)
Definition bodyWithoutMessage : Js.Error :=
  {| Js.body := Some {| Js.body_message := None |};
     Js.message := Some "Request failed";
     Js.asString := "[object Object]" |}.

(** ** The selector: grouping the launchable items *)

From Stdlib Require Import NArith Ascii Sorted Permutation.

Module Conditions.

(** A field of a record as the wire delivers it: left out, null, or a
    text. *)
Inductive Field : Type :=
| Absent
| Null
| Text (s : string).

Definition truthy (f : Field) : bool :=
  match f with
  | Text s => negb (String.eqb s "")
  | Absent | Null => false
  end.

(** The property key a field becomes when it indexes an object. *)
Definition toPropertyKey (f : Field) : string :=
  match f with
  | Absent => "undefined"
  | Null => "null"
  | Text s => s
  end.

Record Condition : Type := mkCondition {
  Id : Field;
  Category__c : Field;
  Form_Id__c : Field;
  Webform_URL__c : Field
}.

(** An element of [groupedConditions]. *)
Record Group : Type := mkGroup {
  category : string;
  conditions : list Condition
}.

(** The accumulator [{}]: a plain object whose own properties, kept in
    the order they were created, hold arrays of conditions. *)
Definition Obj : Type := list (string * list Condition).

(** The members every plain object inherits from [Object.prototype]; each
    is a function, or for [__proto__] the prototype itself, so it is
    truthy and has no [push]. *)
Definition objectPrototypeKeys : list string :=
  [ "constructor"; "__defineGetter__"; "__defineSetter__"; "hasOwnProperty";
    "__lookupGetter__"; "__lookupSetter__"; "isPrototypeOf";
    "propertyIsEnumerable"; "toString"; "valueOf"; "__proto__";
    "toLocaleString" ].

Definition inherited (k : string) : bool :=
  existsb (String.eqb k) objectPrototypeKeys.

(** The own property [k] of the accumulator. *)
Fixpoint own (k : string) (o : Obj) : option (list Condition) :=
  match o with
  | [] => None
  | kv :: rest => if String.eqb k (fst kv) then Some (snd kv) else own k rest
  end.

(** [acc[k] = []] for a key that is not yet a property. *)
Definition define (k : string) (o : Obj) : Obj := o ++ [(k, [])].

(** [acc[k].push(c)] for an own property. *)
Definition push (k : string) (c : Condition) (o : Obj) : Obj :=
  List.map
    (fun kv => if String.eqb k (fst kv) then (fst kv, snd kv ++ [c]) else kv)
    o.

(** [if (!acc[cat]) acc[cat] = []; acc[cat].push(condition);] with [None]
    for the TypeError of calling [push] on an inherited member. *)
Definition collect (cat : string) (c : Condition) (acc : Obj) : option Obj :=
  match own cat acc with
  | Some _ => Some (push cat c acc)
  | None =>
      if inherited cat then None else Some (push cat c (define cat acc))
  end.

(** [data.reduce((acc, condition) => ..., {})] with the key each variant
    computes for a condition. *)
Definition groupBy (key : Condition -> string) (data : list Condition)
  : option Obj :=
  fold_left
    (fun acc c =>
       match acc with
       | Some o => collect (key c) c o
       | None => None
       end)
    data (Some []).

(** [condition.Category__c || 'Other'] *)
Definition categoryOrOther (c : Condition) : string :=
  if truthy (Category__c c) then toPropertyKey (Category__c c) else "Other".

(** [condition.Category__c] used as a key *)
Definition categoryKey (c : Condition) : string :=
  toPropertyKey (Category__c c).

(** *** Object.keys *)

Definition digit (a : Ascii.ascii) : option N :=
  let n := Ascii.N_of_ascii a in
  if (N.leb 48 n && N.leb n 57)%bool then Some (n - 48)%N else None.

Fixpoint decimal (s : string) (acc : N) : option N :=
  match s with
  | EmptyString => Some acc
  | String a rest =>
      match digit a with
      | Some d => decimal rest (acc * 10 + d)%N
      | None => None
      end
  end.

(** The array index a key denotes: a canonical decimal numeral below
    2^32 - 1. *)
Definition arrayIndex (k : string) : option N :=
  match k with
  | EmptyString => None
  | String a rest =>
      if (Ascii.eqb a "0"%char && negb (String.eqb rest ""))%bool then None
      else
        match decimal k 0 with
        | Some n => if N.ltb n 4294967295 then Some n else None
        | None => None
        end
  end.

Fixpoint insertIndex (x : N * string) (l : list (N * string))
  : list (N * string) :=
  match l with
  | [] => [x]
  | y :: rest =>
      if N.leb (fst x) (fst y) then x :: y :: rest
      else y :: insertIndex x rest
  end.

Definition sortIndices (l : list (N * string)) : list (N * string) :=
  fold_right insertIndex [] l.

Definition indexKeys (ks : list string) : list (N * string) :=
  flat_map
    (fun k => match arrayIndex k with
              | Some n => [(n, k)]
              | None => []
              end)
    ks.

Definition nameKeys (ks : list string) : list string :=
  List.filter
    (fun k => match arrayIndex k with
              | Some _ => false
              | None => true
              end)
    ks.

(** The order [Object.keys] lists own string keys in: array indices
    ascending, then the other keys as they were created. *)
Definition keysOrder (ks : list string) : list string :=
  List.map snd (sortIndices (indexKeys ks)) ++ nameKeys ks.

Definition keys (o : Obj) : list string := keysOrder (List.map fst o).

(** [Object.keys(grouped).map(category => ({ category, conditions:
    grouped[category] }))] *)
Definition groups (o : Obj) : list Group :=
  List.map
    (fun k => {| category := k;
                 conditions := match own k o with
                               | Some cs => cs
                               | None => []
                               end |})
    (keys o).

(** What calling a missing method raises; the text is the engine's. *)
Definition notAFunction : Js.Error :=
  {| Js.body := None; Js.message := Some "TypeError";
     Js.asString := "TypeError" |}.

(** The distinct elements of a list, each at its first occurrence. *)
Fixpoint firstOccurrences (ks : list string) : list string :=
  match ks with
  | [] => []
  | k :: rest =>
      k :: List.filter (fun j => negb (String.eqb k j)) (firstOccurrences rest)
  end.

(** The conditions of [data] whose key is [k], in the order of [data]. *)
Definition withKey (key : Condition -> string) (k : string)
    (data : list Condition) : list Condition :=
  List.filter (fun c => String.eqb k (key c)) data.

(** The object that holds, for each key in order of first occurrence,
    the conditions with that key. *)
Definition grouped (key : Condition -> string) (data : list Condition) : Obj :=
  List.map (fun k => (k, withKey key k data))
           (firstOccurrences (List.map key data)).

End Conditions.

(** betterWebform with its list of groups. *)
Module BetterWebformSelector.
Import Conditions.

Record View : Type := mkView {
  world : BetterWebform.World;
  groupedConditions : list Group
}.

Definition initialView : View :=
  {| world := BetterWebform.initialWorld; groupedConditions := [] |}.

(** [wiredConditions({ data, error })]; the second component is what the
    call throws, if anything. *)
Definition wiredConditions
    (data : option (list Condition)) (error : option Js.Error) (v : View)
  : View * option Js.Error :=
  match data with
  | Some d =>
      match groupBy categoryOrOther d with
      | Some grouped =>
          ({| world := world v; groupedConditions := groups grouped |}, None)
      | None => (v, Some notAFunction)
      end
  | None =>
      match error with
      | Some _ =>
          let w :=
            BetterWebform.log
              (console_error "[LWC] Error loading conditions:") (world v) in
          let w :=
            BetterWebform.upd
              (BetterWebform.set_errorMessage
                 (Some "Failed to load conditions")) w in
          ({| world := w; groupedConditions := groupedConditions v |}, None)
      | None => (v, None)
      end
  end.

End BetterWebformSelector.

(** docusignWebformIframe with its list of groups. *)
Module DocusignWebformIframeSelector.
Import Conditions.

Record View : Type := mkView {
  world : DocusignWebformIframe.World;
  groupedConditions : list Group
}.

Definition initialView : View :=
  {| world := DocusignWebformIframe.initialWorld; groupedConditions := [] |}.

(** The [if (error)] statement. *)
Definition wiredConditions_error
    (error : option Js.Error) (v : View) : View :=
  match error with
  | Some _ =>
      let w :=
        DocusignWebformIframe.log
          (console_error "Error loading conditions:") (world v) in
      let w :=
        DocusignWebformIframe.upd
          (DocusignWebformIframe.set_errorMessage
             (Some "Failed to load conditions")) w in
      {| world := w; groupedConditions := groupedConditions v |}
  | None => v
  end.

(** [wiredConditions({ data, error })]: the two [if] statements run one
    after the other unless the first throws. *)
Definition wiredConditions
    (data : option (list Condition)) (error : option Js.Error) (v : View)
  : View * option Js.Error :=
  match data with
  | Some d =>
      match groupBy categoryKey d with
      | Some grouped =>
          (wiredConditions_error
             error
             {| world := world v; groupedConditions := groups grouped |},
           None)
      | None => (v, Some notAFunction)
      end
  | None => (wiredConditions_error error v, None)
  end.

End DocusignWebformIframeSelector.

(** Lists of items the statements are tried on. *)
Module ConditionsSample.
Import Conditions.

Definition item (id : string) (cat : Field) : Condition :=
  {| Id := Text id; Category__c := cat; Form_Id__c := Text "f1";
     Webform_URL__c := Absent |}.

(** Two categories, one item without a category. *)
Definition clinic : list Condition :=
  [ item "c1" (Text "Knee"); item "c2" Absent; item "c3" (Text "Back");
    item "c4" (Text "Knee") ].

(** Categories that are array indices, out of numeric order. *)
Definition numbered : list Condition :=
  [ item "c1" (Text "Knee"); item "c2" (Text "10"); item "c3" (Text "2") ].

(** A category named like a member of [Object.prototype]. *)
Definition hostile : list Condition :=
  [ item "c1" (Text "Knee"); item "c2" (Text "constructor") ].

End ConditionsSample.

(** ** docusignApiDebug: creating a session by hand *)

Module DocusignApiDebug.

Record Component : Type := mkComponent {
  formId : Js.value;
  isLoading : bool;
  errorMessage : Js.value;
  instanceCreated : bool;
  instanceToken : Js.value;
  formUrl : Js.value;
  instanceId : Js.value
}.

Definition set_formId (v : Js.value) (c : Component) : Component :=
  {| formId := v; isLoading := isLoading c; errorMessage := errorMessage c;
     instanceCreated := instanceCreated c; instanceToken := instanceToken c;
     formUrl := formUrl c; instanceId := instanceId c |}.

Definition set_isLoading (v : bool) (c : Component) : Component :=
  {| formId := formId c; isLoading := v; errorMessage := errorMessage c;
     instanceCreated := instanceCreated c; instanceToken := instanceToken c;
     formUrl := formUrl c; instanceId := instanceId c |}.

Definition set_errorMessage (v : Js.value) (c : Component) : Component :=
  {| formId := formId c; isLoading := isLoading c; errorMessage := v;
     instanceCreated := instanceCreated c; instanceToken := instanceToken c;
     formUrl := formUrl c; instanceId := instanceId c |}.

Definition set_instanceCreated (v : bool) (c : Component) : Component :=
  {| formId := formId c; isLoading := isLoading c;
     errorMessage := errorMessage c; instanceCreated := v;
     instanceToken := instanceToken c; formUrl := formUrl c;
     instanceId := instanceId c |}.

Definition set_instanceToken (v : Js.value) (c : Component) : Component :=
  {| formId := formId c; isLoading := isLoading c;
     errorMessage := errorMessage c; instanceCreated := instanceCreated c;
     instanceToken := v; formUrl := formUrl c; instanceId := instanceId c |}.

Definition set_formUrl (v : Js.value) (c : Component) : Component :=
  {| formId := formId c; isLoading := isLoading c;
     errorMessage := errorMessage c; instanceCreated := instanceCreated c;
     instanceToken := instanceToken c; formUrl := v;
     instanceId := instanceId c |}.

Definition set_instanceId (v : Js.value) (c : Component) : Component :=
  {| formId := formId c; isLoading := isLoading c;
     errorMessage := errorMessage c; instanceCreated := instanceCreated c;
     instanceToken := instanceToken c; formUrl := formUrl c;
     instanceId := v |}.

Inductive Pending : Type :=
| AwaitCreateInstance.

Record World : Type := mkWorld {
  comp : Component;
  apex : list ApexCall;
  console : list ConsoleLine;
  pending : list Pending
}.

(** The field initialisers of the class, with the default test form. *)
Definition initialComponent : Component :=
  {| formId := Some "28086611-af1d-402c-8603-e284228af3e4";
     isLoading := false; errorMessage := None; instanceCreated := false;
     instanceToken := None; formUrl := None; instanceId := None |}.

Definition initialWorld : World :=
  {| comp := initialComponent; apex := []; console := []; pending := [] |}.

Definition upd (f : Component -> Component) (w : World) : World :=
  {| comp := f (comp w); apex := apex w; console := console w;
     pending := pending w |}.

Definition log (l : ConsoleLine) (w : World) : World :=
  {| comp := comp w; apex := apex w; console := console w ++ [l];
     pending := pending w |}.

Definition callApex (c : ApexCall) (w : World) : World :=
  {| comp := comp w; apex := apex w ++ [c]; console := console w;
     pending := pending w |}.

Definition await (p : Pending) (w : World) : World :=
  {| comp := comp w; apex := apex w; console := console w;
     pending := pending w ++ [p] |}.

Definition set_pending (ps : list Pending) (w : World) : World :=
  {| comp := comp w; apex := apex w; console := console w; pending := ps |}.

(** [handleFormIdChange(event)] with [event.target.value] *)
Definition handleFormIdChange (value : string) (w : World) : World :=
  upd (set_formId (Some value)) w.

(** handleCreateInstance up to its [await]. *)
Definition handleCreateInstance (w : World) : World :=
  if negb (Js.truthy (formId (comp w))) then
    upd (set_errorMessage (Some "Please enter a Form ID")) w
  else
    let w := upd (set_isLoading true) w in
    let w := upd (set_errorMessage None) w in
    let w := upd (set_instanceCreated false) w in
    let w := log (console_log "Creating instance for form ID:") w in
    await AwaitCreateInstance
          (callApex (createWebformInstance (formId (comp w))) w).

(** handleCreateInstance after its [await]; the [catch] block reads
    [error.body], which throws for a nullish reason. *)
Definition handleCreateInstance_settled (r : Settled) (w : World)
  : option World :=
  match r with
  | Resolved (RInstance result) =>
      let w := log (console_log "Result:") w in
      let w := upd (set_instanceToken (res_instanceToken result)) w in
      let w := upd (set_formUrl (res_formUrl result)) w in
      let w := upd (set_instanceId (res_instanceId result)) w in
      let w := upd (set_instanceCreated true) w in
      Some (upd (set_isLoading false) w)
  | Resolved _ => None
  | Rejected e =>
      let w := log (console_error "Error:") w in
      let w :=
        match e with
        | Js.Obj err =>
            upd (set_errorMessage
                   (match Js.body err with
                    | Some b => Js.body_message b
                    | None => Js.message err
                    end)) w
        | Js.Undefined | Js.Null => w
        end in
      Some (upd (set_isLoading false) w)
  end.

Definition handleReset (w : World) : World :=
  let w := upd (set_instanceCreated false) w in
  let w := upd (set_instanceToken None) w in
  let w := upd (set_formUrl None) w in
  let w := upd (set_instanceId None) w in
  upd (set_errorMessage None) w.

Inductive Event : Type :=
| FormIdChange (value : string)
| CreateInstance
| Reset
| Settle (k : nat) (r : Settled).

Definition step (e : Event) (w : World) : World :=
  match e with
  | FormIdChange value => handleFormIdChange value w
  | CreateInstance => handleCreateInstance w
  | Reset => handleReset w
  | Settle k r =>
      match pending w !! k with
      | Some AwaitCreateInstance =>
          match
            handleCreateInstance_settled
              r (set_pending (delete k (pending w)) w)
          with
          | Some w' => w'
          | None => w
          end
      | None => w
      end
  end.

Definition run (es : list Event) (w : World) : World :=
  fold_left (fun w e => step e w) es w.

End DocusignApiDebug.

(** ** Reachable worlds and event classes *)

Module WebformRelaunchReach.
Import WebformRelaunch.

(** Worlds the relaunch component can be in when it starts with the
    record id [rid]. *)
Inductive reachable (rid : Js.value) : World -> Prop :=
| reachable_initial : reachable rid (initialWorld rid)
| reachable_step e w : reachable rid w -> reachable rid (step e w).

(** The backend calls the relaunch component makes for the record
    [rid]: a token refresh, or a report of "Submitted" or "In Progress". *)
Definition ownCall (rid : Js.value) (c : ApexCall) : Prop :=
  c = refreshInstanceToken rid
  \/ c = updateWebformInstanceStatus rid "Submitted"
  \/ c = updateWebformInstanceStatus rid "In Progress".

(** The event is a widget event. *)
Definition notification (e : Event) : bool :=
  match e with
  | SdkEvent _ _ _ => true
  | _ => false
  end.

(** The library starts loading, the script and then the SDK resolve;
    [k] is the position of the promise awaited. *)
Definition load (k : nat) (sdk : option Sdk) : list Event :=
  [ Connected;
    Settle k (Resolved RUnit) None;
    Settle k (Resolved (RSdk sdk)) None ].

(** From [w] to [w'] the component kept its record id and made only
    calls of its own. *)
Definition onlyOwnCalls (w w' : World) : Prop :=
  recordId (comp w') = recordId (comp w)
  /\ exists l, apex w' = apex w ++ l
               /\ Forall (ownCall (recordId (comp w))) l.

(** The record ids the host page gives the component in the course of
    [es], beginning with the one held in [w]. *)
Definition recordIds (es : list Event) (w : World) : list Js.value :=
  recordId (comp w)
  :: flat_map (fun e => match e with
                        | SetRecordId rid => [rid]
                        | _ => []
                        end) es.

(** The event is not the host page writing the record id. *)
Definition keepsRecordId (e : Event) : bool :=
  match e with
  | SetRecordId _ => false
  | _ => true
  end.

(** A call the component makes for one of the record ids [rids]. *)
Definition ownCallFor (rids : list Js.value) (c : ApexCall) : Prop :=
  exists rid, In rid rids /\ ownCall rid c.



(** The world [w'] has the widgets and the held instance of [w]. *)
Definition same_widgets (w w' : World) : Prop :=
  widgets w' = widgets w
  /\ webformsInstance (comp w') = webformsInstance (comp w).

(** No widget that can be destroyed is alive. *)
Definition no_live_widget (w : World) : Prop :=
  forall i x, widgets w !! i = Some x ->
              destroy_is_function x = true -> destroyed x = true.

(** A live widget is the one the component holds. *)
Definition live_widget_held (w : World) : Prop :=
  forall i x, widgets w !! i = Some x ->
              destroy_is_function x = true -> destroyed x = false ->
              webformsInstance (comp w) = Some i.

End WebformRelaunchReach.

Module BetterWebformEvents.
Import BetterWebform.

(** The event is a notification from the widget or the window. *)
Definition notification (e : Event) : bool :=
  match e with
  | SdkEvent _ _ _ | WindowMessage _ => true
  | _ => false
  end.

(** The event is a window message whose "completed" [sessionEnd] passes
    the filter. *)
Definition completedEvent (e : Event) : bool :=
  match e with
  | WindowMessage evt =>
      BetterWebformSession.completed_message (FromWindow evt)
  | _ => false
  end.

(** A widget that can be destroyed and has not been. *)
Definition live (x : Widget) : Prop :=
  destroy_is_function x = true /\ destroyed x = false.

(** An SDK whose [mount] throws. *)
Definition brokenMountSdk : Sdk :=
  {| webforms_is_function := true; instance_has_destroy := true;
     mount_throws := Some (Js.new_Error "mount failed") |}.

(** The widget [initializeWebform] mounts. *)
Definition sessionWidget (sdk : Sdk) (el : Container) (u tok : Js.value)
  : Widget :=
  {| url := u; options := widgetOptions tok;
     destroy_is_function := instance_has_destroy sdk;
     observers := eventTypes; mountedIn := Some el; destroyed := false |}.

(** The four events of a launch whose promises are the last two
    suspended ones. *)
Definition launchEvents
    (k : nat) (formId dbqWebformId : Js.value) (ds : InstanceResult)
    (sfRecordId : Js.value) (container : option Container) : list Event :=
  [ ConditionClick formId dbqWebformId;
    Settle k (Resolved (RInstance ds));
    Settle k (Resolved (RRecordId sfRecordId));
    Rendered container ].

End BetterWebformEvents.

(** * Properties *)

(** ** Counting backend reports *)

Lemma count_reports_app status cs ds :
  count_reports status (cs ++ ds)
  = count_reports status cs + count_reports status ds.
Proof.
  unfold count_reports. rewrite List.filter_app, length_app. reflexivity.
Qed.

(** ** Widget store *)

(** Changing the widget that was created last. *)
Lemma alter_last {A} (f : A -> A) (l : list A) (x : A) :
  alter f (length l) (l ++ [x]) = l ++ [f x].
Proof. induction l as [|y l IH]; cbn; [reflexivity | now rewrite IH]. Qed.

(** ** betterWebform: the status observers *)

Section BetterWebformObservers.
Import BetterWebform BetterWebformSession.

(** What [updateStatus] does before it suspends, by the record id held. *)
Lemma updateStatus_with_record status w :
  Js.truthy (webformInstanceRecordId (comp w)) = true ->
  updateStatus status w
  = await AwaitUpdateStatus
      (callApex
         (updateWebformInstanceStatus (webformInstanceRecordId (comp w)) status)
         (log (console_log "[Status]") w)).
Proof. intros H. unfold updateStatus. cbn. rewrite H. reflexivity. Qed.

Lemma updateStatus_comp status w : comp (updateStatus status w) = comp w.
Proof.
  unfold updateStatus. cbn.
  destruct (Js.truthy (webformInstanceRecordId (comp w))); reflexivity.
Qed.

Lemma updateStatus_apex status w :
  apex (updateStatus status w)
  = apex w ++
    (if Js.truthy (webformInstanceRecordId (comp w))
     then [updateWebformInstanceStatus (webformInstanceRecordId (comp w)) status]
     else []).
Proof.
  unfold updateStatus. cbn.
  destruct (Js.truthy (webformInstanceRecordId (comp w))); cbn;
    [reflexivity | symmetry; apply app_nil_r].
Qed.

(** C10. With no tracking-record id held, [updateStatus] makes no backend
    call, suspends on nothing, and leaves every component field, the
    window listeners and the widgets as they were; it only writes its two
    console lines. *)
Theorem updateStatus_without_record_id status w :
  Js.truthy (webformInstanceRecordId (comp w)) = false ->
  updateStatus status w
  = set_console
      (console w ++
       [console_log "[Status]";
        console_error "[Apex] Cannot update status - no record ID available"])
      w
  /\ apex (updateStatus status w) = apex w
  /\ pending (updateStatus status w) = pending w
  /\ comp (updateStatus status w) = comp w
  /\ errorMessage (comp (updateStatus status w)) = errorMessage (comp w).
Proof.
  intros H. unfold updateStatus. cbn. rewrite H. cbn.
  unfold log, set_console. cbn. rewrite <- app_assoc. cbn. auto.
Qed.

Lemma updateStatus_without_record_id_witness :
  apex (updateStatus "Submitted" (handleBackToSelector sessionWorld))
  = apex (handleBackToSelector sessionWorld)
  /\ comp (updateStatus "Submitted" (handleBackToSelector sessionWorld))
     = comp (handleBackToSelector sessionWorld).
Proof.
  destruct (updateStatus_without_record_id
              "Submitted" (handleBackToSelector sessionWorld))
    as (_ & Ha & _ & Hc & _); [reflexivity | split; assumption].
Defined.

(** *** The filter of the fallback listener *)

Lemma accepted_data evt :
  accepted evt = true ->
  exists d, data_of evt = Some d
            /\ (Js.truthy (sender d) = false
                \/ Js.has allowedSenders (sender d) = true)
            /\ Js.has interesting (Js.orElse (eventType d) (type d)) = true.
Proof.
  unfold accepted. destruct (data_of evt) as [d|]; [|discriminate].
  intros H. apply andb_true_iff in H as [Hs Ht].
  exists d. split; [reflexivity|]. split; [|exact Ht].
  apply orb_true_iff in Hs as [Hs|Hs]; [left|right; exact Hs].
  now apply negb_true_iff in Hs.
Qed.

Lemma rejected_message_ignored evt w :
  accepted evt = false -> messageHandler_call evt w = w.
Proof.
  unfold accepted, messageHandler_call.
  destruct (data_of evt) as [d|]; [|reflexivity].
  destruct (Js.truthy (sender d)) eqn:Hs; cbn.
  - destruct (Js.has allowedSenders (sender d)); cbn; [|reflexivity].
    intros ->. now rewrite orb_true_r.
  - intros ->. now rewrite orb_true_r.
Qed.

(** C9, as the code has it.  A window message changes anything (and so
    leads to a status update) only if its sender is absent or on the
    allow-list and its type, [eventType] before [type], is one of the
    three interesting ones; every other message leaves the world as it
    was. *)
Theorem fallback_listener_filter evt w :
  (messageHandler_call evt w <> w ->
   exists d, data_of evt = Some d
             /\ (Js.truthy (sender d) = false
                 \/ Js.has allowedSenders (sender d) = true)
             /\ Js.has interesting (Js.orElse (eventType d) (type d)) = true)
  /\ (accepted evt = false -> messageHandler_call evt w = w).
Proof.
  split.
  - intros Hne. apply accepted_data.
    destruct (accepted evt) eqn:Ha; [reflexivity|].
    exfalso. apply Hne. now apply rejected_message_ignored.
  - apply rejected_message_ignored.
Qed.

Lemma fallback_listener_filter_witness :
  messageHandler_call
    (message (Some "intruder") (Some "submitted") None) sessionWorld
  = sessionWorld.
Proof.
  apply (fallback_listener_filter
           (message (Some "intruder") (Some "submitted") None) sessionWorld).
  reflexivity.
Defined.

(** C9 as stated fails: a message that names no sender at all is
    processed and reaches the backend. *)
Lemma senderless_message_is_processed :
  apex (messageHandler_call (message None (Some "submitted") None) sessionWorld)
  = apex sessionWorld
    ++ [updateWebformInstanceStatus (Some "rec1") "Submitted"]
  /\ Js.has allowedSenders None = false.
Proof. split; vm_compute; reflexivity. Qed.

(** *** sessionEnd and its subtype *)




(** *** One report per guard *)

Ltac observer_cases :=
  repeat match goal with
         | |- context [if ?b then _ else _] => destruct b eqn:?
         | |- context [match ?x with Some _ => _ | None => _ end] =>
             destruct x eqn:?
         end.

Ltac observer_step :=
  unfold deliver, sdkHandler, messageHandler_call, markInProgressOnce;
  cbn zeta; cbn [comp log set_console];
  match goal with
  | w : World |- _ =>
      destruct (_didReady (comp w)) eqn:?, (_didEnd (comp w)) eqn:?,
               (_didSubmit (comp w)) eqn:?
  end;
  cbn [negb orb andb]; observer_cases;
  rewrite ?updateStatus_apex, ?updateStatus_comp, ?count_reports_app;
  unfold count_reports, room; cbn;
  observer_cases; cbn; try lia; try congruence.

Lemma deliver_ready n w :
  count_reports "Ready" (apex (deliver n w))
  + room (_didReady (comp (deliver n w)))
  <= count_reports "Ready" (apex w) + room (_didReady (comp w)).
Proof. destruct n; observer_step. Qed.

Lemma deliver_in_progress n w :
  count_reports "In Progress" (apex (deliver n w))
  + room (_didEnd (comp (deliver n w)))
  <= count_reports "In Progress" (apex w) + room (_didEnd (comp w)).
Proof. destruct n; observer_step. Qed.

Lemma deliver_submitted n w :
  completed_message n = false ->
  count_reports "Submitted" (apex (deliver n w))
  + room (_didSubmit (comp (deliver n w)))
  <= count_reports "Submitted" (apex w) + room (_didSubmit (comp w)).
Proof.
  destruct n as [ty ev|evt]; intros Hc.
  - observer_step.
  - unfold completed_message, accepted in Hc.
    unfold deliver, messageHandler_call.
    destruct (data_of evt) as [d|]; [|lia].
    destruct (Js.truthy (sender d)); cbn in Hc |- *.
    + destruct (Js.has allowedSenders (sender d)); cbn in Hc |- *; [|lia].
      destruct (Js.has interesting (Js.orElse (eventType d) (type d)));
        cbn in Hc |- *; [|rewrite orb_true_r; lia].
      rewrite orb_false_r.
      destruct (Js.strictEq (Js.orElse (eventType d) (type d)) "sessionEnd");
        cbn in Hc; [rewrite Hc|]; observer_step.
    + destruct (Js.has interesting (Js.orElse (eventType d) (type d)));
        cbn in Hc |- *; [|rewrite orb_true_r; lia].
      rewrite orb_false_r.
      destruct (Js.strictEq (Js.orElse (eventType d) (type d)) "sessionEnd");
        cbn in Hc; [rewrite Hc|]; observer_step.
Qed.

(** Whatever the SDK and the window deliver, "Ready" and "In Progress"
    reach the backend at most once while their guards stay set. *)
Lemma ready_reported_at_most_once ns w :
  count_reports "Ready" (apex (deliverAll ns w))
  <= count_reports "Ready" (apex w) + room (_didReady (comp w)).
Proof.
  revert w. induction ns as [|n ns IH]; intros w; cbn; [lia|].
  specialize (IH (deliver n w)). pose proof (deliver_ready n w).
  unfold deliverAll in IH. lia.
Qed.

Lemma in_progress_reported_at_most_once ns w :
  count_reports "In Progress" (apex (deliverAll ns w))
  <= count_reports "In Progress" (apex w) + room (_didEnd (comp w)).
Proof.
  revert w. induction ns as [|n ns IH]; intros w; cbn; [lia|].
  specialize (IH (deliver n w)). pose proof (deliver_in_progress n w).
  unfold deliverAll in IH. lia.
Qed.

(** So is "Submitted", as long as no "completed" [sessionEnd] message is
    among the notifications. *)
Lemma submitted_reported_at_most_once ns w :
  forallb (fun n => negb (completed_message n)) ns = true ->
  count_reports "Submitted" (apex (deliverAll ns w))
  <= count_reports "Submitted" (apex w) + room (_didSubmit (comp w)).
Proof.
  revert w. induction ns as [|n ns IH]; intros w H; cbn in *; [lia|].
  apply andb_true_iff in H as [Hn H]. apply negb_true_iff in Hn.
  specialize (IH (deliver n w) H). pose proof (deliver_submitted n w Hn).
  unfold deliverAll in IH. lia.
Qed.

(** No notification clears a guard. *)
Lemma deliver_keeps_guards n w :
  (_didReady (comp w) = true -> _didReady (comp (deliver n w)) = true)
  /\ (_didSubmit (comp w) = true -> _didSubmit (comp (deliver n w)) = true)
  /\ (_didEnd (comp w) = true -> _didEnd (comp (deliver n w)) = true).
Proof. destruct n; repeat split; intros H; observer_step. Qed.

(** Creating a new session clears all three. *)
Lemma new_session_clears_guards ds sfRecordId w w' :
  handleConditionClick_record ds (Resolved (RRecordId sfRecordId)) w = Some w' ->
  _didReady (comp w') = false /\ _didSubmit (comp w') = false
  /\ _didEnd (comp w') = false.
Proof. cbn. intros [= <-]. cbn. auto. Qed.

(** C1 at its failing input: two "completed" [sessionEnd] messages in one
    session put "Submitted" on the backend twice, and no guard is set by
    either. *)
Theorem completed_messages_report_submitted_twice :
  let completed :=
    WindowMessage (message (Some "WebFormsPlayer") (Some "sessionEnd")
                           (Some "completed")) in
  let w := run [completed; completed] sessionWorld in
  apexSince sessionWorld w
  = [ updateWebformInstanceStatus (Some "rec1") "Submitted";
      updateWebformInstanceStatus (Some "rec1") "Submitted" ]
  /\ count_reports "Submitted" (apexSince sessionWorld w) = 2
  /\ _didSubmit (comp w) = false.
Proof. cbv zeta. repeat apply conj; vm_compute; reflexivity. Qed.

(** *** After submitted *)

(** With the submit guard set, a [sessionEnd] reports nothing, on
    either path, unless it is a "completed" message. *)
Lemma sessionEnd_after_submitted_is_silent n w :
  _didSubmit (comp w) = true ->
  completed_message n = false ->
  match n with
  | FromSdk ty _ => ty = "sessionEnd"
  | FromWindow evt =>
      exists d, data_of evt = Some d
                /\ Js.orElse (eventType d) (type d) = Some "sessionEnd"
  end ->
  apex (deliver n w) = apex w.
Proof.
  intros Hs Hc Hty. destruct n as [ty ev|evt].
  - subst ty. unfold deliver, sdkHandler, markInProgressOnce. cbn.
    rewrite Hs, orb_true_r. reflexivity.
  - destruct Hty as (d & Hd & Hty).
    unfold completed_message, accepted in Hc. rewrite Hd, Hty in Hc.
    unfold deliver, messageHandler_call, markInProgressOnce.
    rewrite Hd, Hty. cbn zeta.
    change (Js.has interesting (Some "sessionEnd")) with true in *.
    change (Js.truthy (Some "sessionEnd")) with true.
    change (Js.strictEq (Some "sessionEnd") "submitted") with false.
    change (Js.strictEq (Some "sessionEnd") "sessionEnd") with true in *.
    cbn [negb orb andb] in *. rewrite !andb_true_r in Hc.
    destruct (Js.truthy (sender d)); cbn in Hc |- *;
      [destruct (Js.has allowedSenders (sender d));
       cbn in Hc |- *; [|reflexivity]|];
      rewrite Hc, Hs, orb_true_r;
      destruct (Js.strictEq (sessionEndType_of d) "finishLater"
                || Js.strictEq (sessionEndType_of d) "finish_later");
      reflexivity.
Qed.

(** C2 at its failing input: after the SDK's [submitted] event has been
    handled, a "completed" [sessionEnd] message still writes to the
    backend. *)
Theorem completed_message_after_submitted_reports_again :
  let w1 :=
    step (SdkEvent 0 "submitted" {| payload_sessionEndType := None |})
         sessionWorld in
  let w2 :=
    step (WindowMessage (message (Some "WebFormsPlayer") (Some "sessionEnd")
                                 (Some "completed"))) w1 in
  _didSubmit (comp w1) = true
  /\ apexSince sessionWorld w1
     = [updateWebformInstanceStatus (Some "rec1") "Submitted"]
  /\ apexSince w1 w2
     = [updateWebformInstanceStatus (Some "rec1") "Submitted"].
Proof. cbv zeta. repeat apply conj; vm_compute; reflexivity. Qed.

End BetterWebformObservers.

(** ** betterWebform: teardown *)

Section BetterWebformTeardown.
Import BetterWebform BetterWebformSession.

Lemma same_handles_refl w : same_handles w w.
Proof. unfold same_handles. auto. Qed.

Lemma same_handles_trans w1 w2 w3 :
  same_handles w1 w2 -> same_handles w2 w3 -> same_handles w1 w3.
Proof.
  unfold same_handles. intros (a & b & c & d & e) (a' & b' & c' & d' & e').
  repeat split; congruence.
Qed.

Lemma consistent_same_handles w w' :
  same_handles w w' -> consistent w -> consistent w'.
Proof.
  intros (Hl & Hw & Hm & Hi & Hr) [I1 I2 I3]. split.
  - rewrite Hl, Hm. exact I1.
  - rewrite Hw, Hi. exact I2.
  - rewrite Hr, Hm. unfold no_active_widget. rewrite Hw. exact I3.
Qed.

Ltac handles := unfold same_handles; cbn; repeat split; reflexivity.

Lemma updateStatus_same_handles status w :
  same_handles w (updateStatus status w).
Proof.
  unfold updateStatus. cbn.
  destruct (Js.truthy (webformInstanceRecordId (comp w))); handles.
Qed.

Lemma markInProgressOnce_same_handles w :
  same_handles w (markInProgressOnce w).
Proof.
  unfold markInProgressOnce.
  destruct (_didEnd (comp w) || _didSubmit (comp w));
    [apply same_handles_refl|].
  eapply same_handles_trans; [|apply updateStatus_same_handles]. handles.
Qed.

Ltac via_updateStatus :=
  eapply same_handles_trans; [|apply updateStatus_same_handles]; handles.

Ltac via_markInProgressOnce :=
  eapply same_handles_trans; [|apply markInProgressOnce_same_handles];
  handles.

Lemma sdkHandler_same_handles ty ev w : same_handles w (sdkHandler ty ev w).
Proof.
  unfold sdkHandler. cbn zeta.
  repeat match goal with
         | |- context [if ?b then _ else _] => destruct b
         end;
    first [via_updateStatus | via_markInProgressOnce | handles].
Qed.

Lemma messageHandler_same_handles evt w :
  same_handles w (messageHandler_call evt w).
Proof.
  unfold messageHandler_call. destruct (data_of evt); cbn zeta;
    repeat match goal with
           | |- context [if ?b then _ else _] => destruct b
           end;
    first [ apply same_handles_refl | apply updateStatus_same_handles
          | apply markInProgressOnce_same_handles | via_updateStatus ].
Qed.

Lemma fold_same_handles {A} (f : World -> A -> World) xs :
  (forall w x, same_handles w (f w x)) ->
  forall w, same_handles w (fold_left f xs w).
Proof.
  intros Hf. induction xs as [|x xs IH]; intros w; cbn.
  - apply same_handles_refl.
  - eapply same_handles_trans; [apply Hf | apply IH].
Qed.

Lemma emit_same_handles wid ty ev w : same_handles w (emit wid ty ev w).
Proof.
  unfold emit. destruct (widgets w !! wid); [|apply same_handles_refl].
  apply fold_same_handles. intros w' x.
  destruct (String.eqb x ty);
    [apply sdkHandler_same_handles | apply same_handles_refl].
Qed.

Lemma postMessage_same_handles evt w : same_handles w (postMessage evt w).
Proof.
  unfold postMessage. apply fold_same_handles. intros w' _.
  apply messageHandler_same_handles.
Qed.

Lemma handleConditionClick_same_handles f r w :
  same_handles w (handleConditionClick f r w).
Proof.
  unfold handleConditionClick.
  repeat match goal with
         | |- context [if ?b then _ else _] => destruct b
         end; handles.
Qed.

Lemma continue_same_handles p r w w' :
  continue p r w = Some w' -> same_handles w w'.
Proof.
  destruct p; cbn; unfold connectedCallback_scriptLoaded,
    connectedCallback_sdkLoaded, handleConditionClick_instance,
    handleConditionClick_record, updateStatus_settled;
    destruct r as [[]|]; intros [= <-]; handles.
Qed.

(** *** The callbacks that touch the widget and the listener *)

(** What the [try] block of initializeWebform leaves behind when nothing
    was registered before: one new widget, held by the component, and one
    listener, the held closure. *)
Lemma initializeWebform_try_fresh sdk el u tok w :
  listeners w = [] ->
  let w' := initializeWebform_try sdk el u tok w in
  exists x,
    widgets w' = widgets w ++ [x]
    /\ webformsInstance (comp w') = Some (length (widgets w))
    /\ messageHandler (comp w') = Some (handlersCreated w)
    /\ listeners w' = [handlersCreated w]
    /\ hasRendered (comp w') = hasRendered (comp w).
Proof.
  intros Hl. unfold initializeWebform_try. cbn zeta.
  unfold eventTypes, addEventListener, on. cbn. rewrite Hl. cbn.
  rewrite !alter_last.
  destruct (mount_throws sdk); cbn; rewrite ?alter_last;
    eexists; repeat split; reflexivity.
Qed.

Lemma consistent_fresh w w' x :
  consistent w ->
  hasRendered (comp w) = false ->
  widgets w' = widgets w ++ [x] ->
  webformsInstance (comp w') = Some (length (widgets w)) ->
  (exists h, messageHandler (comp w') = Some h /\ listeners w' = [h]) ->
  hasRendered (comp w') = true ->
  consistent w'.
Proof.
  intros [I1 I2 I3] Hr Hw Hi (h & Hm & Hl) Hr'.
  destruct (I3 Hr) as [_ Hidle]. split.
  - rewrite Hl, Hm. reflexivity.
  - intros i y Hy Hdf Hd. rewrite Hw in Hy. rewrite Hi.
    destruct (decide (i < length (widgets w))) as [Hlt|Hge].
    + rewrite lookup_app_l in Hy by exact Hlt.
      rewrite (Hidle i y Hy Hdf) in Hd. discriminate.
    + apply lookup_lt_Some in Hy. rewrite length_app in Hy. cbn in Hy.
      f_equal. lia.
  - rewrite Hr'. discriminate.
Qed.

Lemma initializeWebform_consistent el u tok w0 w :
  consistent w0 ->
  hasRendered (comp w0) = false ->
  listeners w = listeners w0 ->
  widgets w = widgets w0 ->
  messageHandler (comp w) = messageHandler (comp w0) ->
  webformsInstance (comp w) = webformsInstance (comp w0) ->
  hasRendered (comp w) = true ->
  consistent (initializeWebform el u tok w).
Proof.
  intros Hc Hr Hl1 Hw1 Hm1 Hi1 Hr1.
  pose proof (unrendered_idle w0 Hc Hr) as [Hm _].
  pose proof (listeners_held w0 Hc) as Hl. rewrite Hm in Hl.
  rewrite Hl in Hl1. rewrite Hm in Hm1.
  unfold initializeWebform. cbn zeta.
  set (w1 := log _ (log _ w)).
  assert (H1 : listeners w1 = [] /\ widgets w1 = widgets w0
               /\ hasRendered (comp w1) = true
               /\ docusignSDK (comp w1) = docusignSDK (comp w)
               /\ messageHandler (comp w1) = None
               /\ webformsInstance (comp w1) = webformsInstance (comp w0))
    by (subst w1; cbn; repeat split; auto).
  clearbody w1. destruct H1 as (Hl2 & Hw2 & Hr2 & Hs2 & Hm2 & Hi2).
  assert (Hcatch : forall e, consistent (initializeWebform_catch e w1)).
  { intros e. destruct Hc as [I1 I2 I3]. split.
    - cbn. rewrite Hl2, Hm2. reflexivity.
    - cbn. rewrite Hw2, Hi2. exact I2.
    - cbn. rewrite Hr2. discriminate. }
  rewrite Hs2. destruct (docusignSDK (comp w)) as [sdk|]; [|apply Hcatch].
  destruct (webforms_is_function sdk); [|apply Hcatch].
  destruct (initializeWebform_try_fresh sdk el u tok w1 Hl2)
    as (x & Hw' & Hi' & Hm' & Hl' & Hr').
  eapply (consistent_fresh w0 _ x Hc Hr).
  - rewrite Hw', Hw2. reflexivity.
  - rewrite Hi', Hw2. reflexivity.
  - eexists. split; [exact Hm' | exact Hl'].
  - rewrite Hr'. exact Hr2.
Qed.

Lemma renderedCallback_consistent container w :
  consistent w -> consistent (renderedCallback container w).
Proof.
  intros Hc. unfold renderedCallback. cbn zeta.
  destruct (Js.truthy (pendingFormUrl (comp w))
            && Js.truthy (pendingInstanceToken (comp w))
            && negb (hasRendered (comp w)) && negb (showSelector (comp w)))
    eqn:Hgo; [|exact Hc].
  apply andb_true_iff in Hgo as [Hgo _].
  apply andb_true_iff in Hgo as [_ Hr]. apply negb_true_iff in Hr.
  destruct container as [el|].
  - apply (initializeWebform_consistent el _ _ w); auto.
  - destruct Hc as [I1 I2 I3]. split; cbn; [exact I1 | exact I2 | discriminate].
Qed.

(** The teardown that handleBackToSelector and disconnectedCallback
    share: afterwards no listener is registered, every destroyable widget
    is destroyed, and the closure reference is dropped. *)
Lemma disconnectedCallback_releases w :
  consistent w ->
  no_listener (disconnectedCallback w)
  /\ no_active_widget (disconnectedCallback w)
  /\ messageHandler (comp (disconnectedCallback w)) = None
  /\ webformsInstance (comp (disconnectedCallback w))
     = webformsInstance (comp w)
  /\ hasRendered (comp (disconnectedCallback w)) = hasRendered (comp w).
Proof.
  intros [I1 I2 I3]. unfold disconnectedCallback. cbn zeta.
  set (w1 := match messageHandler (comp w) with
             | Some h => upd (set_messageHandler None) (removeEventListener h w)
             | None => w
             end).
  assert (H1 : listeners w1 = [] /\ widgets w1 = widgets w
               /\ messageHandler (comp w1) = None
               /\ webformsInstance (comp w1) = webformsInstance (comp w)
               /\ hasRendered (comp w1) = hasRendered (comp w)).
  { subst w1. destruct (messageHandler (comp w)) as [h|] eqn:Hm.
    - cbn. rewrite I1. cbn. rewrite Nat.eqb_refl. cbn. repeat split; auto.
    - repeat split; auto. }
  destruct H1 as (Hl1 & Hw1 & Hm1 & Hi1 & Hr1).
  rewrite Hi1. unfold no_listener, no_active_widget.
  destruct (webformsInstance (comp w)) as [wid|] eqn:Hi.
  - unfold has_destroy. rewrite Hw1.
    destruct (widgets w !! wid) as [x0|] eqn:Hx0.
    + destruct (destroy_is_function x0) eqn:Hdf0.
      * cbn. rewrite Hw1. repeat split; auto.
        intros i x Hx Hdf.
        destruct (decide (wid = i)) as [->|Hne].
        -- rewrite list_lookup_alter_eq, Hx0 in Hx. cbn in Hx.
           injection Hx as <-. reflexivity.
        -- rewrite list_lookup_alter_ne in Hx by exact Hne.
           destruct (destroyed x) eqn:Hd; [reflexivity|].
           specialize (I2 i x Hx Hdf Hd). congruence.
      * repeat split; auto. rewrite Hw1. intros i x Hx Hdf.
        destruct (destroyed x) eqn:Hd; [reflexivity|].
        specialize (I2 i x Hx Hdf Hd).
        assert (i = wid) by congruence. subst i. congruence.
    + repeat split; auto. rewrite Hw1. intros i x Hx Hdf.
      destruct (destroyed x) eqn:Hd; [reflexivity|].
      specialize (I2 i x Hx Hdf Hd).
      assert (i = wid) by congruence. subst i. congruence.
  - repeat split; auto. rewrite Hw1. intros i x Hx Hdf.
    destruct (destroyed x) eqn:Hd; [reflexivity|].
    specialize (I2 i x Hx Hdf Hd). discriminate.
Qed.

(** handleBackToSelector is that teardown followed by the field resets. *)
Lemma handleBackToSelector_order w :
  handleBackToSelector w = upd resetSelection (disconnectedCallback w).
Proof. reflexivity. Qed.

Lemma disconnectedCallback_consistent w :
  consistent w -> consistent (disconnectedCallback w).
Proof.
  intros Hc. pose proof (disconnectedCallback_releases w Hc)
    as (Hl & Hw & Hm & Hi & Hr).
  split.
  - rewrite Hm. exact Hl.
  - intros i x Hx Hdf Hd. rewrite (Hw i x Hx Hdf) in Hd. discriminate.
  - intros _. split; assumption.
Qed.

Lemma handleBackToSelector_consistent w :
  consistent w -> consistent (handleBackToSelector w).
Proof.
  intros Hc. rewrite handleBackToSelector_order.
  pose proof (disconnectedCallback_releases w Hc)
    as (Hl & Hw & Hm & Hi & Hr).
  split; cbn.
  - rewrite Hm. exact Hl.
  - intros i x Hx Hdf Hd. rewrite (Hw i x Hx Hdf) in Hd. discriminate.
  - intros _. split; assumption.
Qed.

Lemma initial_consistent : consistent initialWorld.
Proof.
  split; cbn; [reflexivity | | ].
  - intros i x Hx. discriminate Hx.
  - intros _. split; [reflexivity|]. intros i x Hx. discriminate Hx.
Qed.

Lemma step_consistent e w : consistent w -> consistent (step e w).
Proof.
  intros Hc. destruct e; cbn [step].
  - eapply consistent_same_handles; [|exact Hc]. handles.
  - now apply disconnectedCallback_consistent.
  - now apply renderedCallback_consistent.
  - eapply consistent_same_handles;
      [apply handleConditionClick_same_handles | exact Hc].
  - now apply handleBackToSelector_consistent.
  - eapply consistent_same_handles; [apply emit_same_handles | exact Hc].
  - eapply consistent_same_handles; [apply postMessage_same_handles | exact Hc].
  - destruct (pending w !! k) as [p|]; [|exact Hc].
    destruct (continue p r (set_pending (delete k (pending w)) w))
      as [w'|] eqn:Hk; [|exact Hc].
    apply continue_same_handles in Hk.
    eapply consistent_same_handles; [|exact Hc].
    eapply same_handles_trans; [|exact Hk]. handles.
Qed.

Lemma reachable_consistent w : reachable w -> consistent w.
Proof.
  induction 1 as [|e w _ IH]; [apply initial_consistent|].
  now apply step_consistent.
Qed.

Lemma reachable_run es w : reachable w -> reachable (run es w).
Proof.
  revert w. induction es as [|e es IH]; intros w Hw; cbn; [exact Hw|].
  apply IH. now constructor.
Qed.

(** C7. In every world the component can reach, returning to the selector
    or disposing the component leaves no message listener registered and
    no destroyable widget alive: the held listener has been removed and
    [destroy()] has been called on the held instance.  In
    handleBackToSelector these calls come first and the field resets
    follow, so the resets act on the world the teardown left. *)
Theorem teardown_releases_widget_and_listener w :
  reachable w ->
  (no_listener (handleBackToSelector w)
   /\ no_active_widget (handleBackToSelector w)
   /\ messageHandler (comp (handleBackToSelector w)) = None
   /\ webformsInstance (comp (handleBackToSelector w)) = None
   /\ showSelector (comp (handleBackToSelector w)) = true
   /\ handleBackToSelector w = upd resetSelection (disconnectedCallback w))
  /\ (no_listener (disconnectedCallback w)
      /\ no_active_widget (disconnectedCallback w)
      /\ messageHandler (comp (disconnectedCallback w)) = None)
  /\ (forall h, messageHandler (comp w) = Some h ->
                ~ In h (listeners (disconnectedCallback w)))
  /\ (forall wid x, webformsInstance (comp w) = Some wid ->
                    widgets w !! wid = Some x ->
                    destroy_is_function x = true ->
                    widgets (disconnectedCallback w) !! wid
                    = Some (set_destroyed x)).
Proof.
  intros Hr. pose proof (reachable_consistent w Hr) as Hc.
  pose proof (disconnectedCallback_releases w Hc)
    as (Hl & Hw & Hm & Hi & Hh).
  split; [|split; [|split]].
  - rewrite handleBackToSelector_order. cbn. repeat split; auto.
  - auto.
  - intros h _. rewrite Hl. intros [].
  - intros wid x Hwid Hx Hdf.
    assert (Hsame : widgets (match messageHandler (comp w) with
                             | Some h => upd (set_messageHandler None)
                                             (removeEventListener h w)
                             | None => w
                             end) = widgets w
                    /\ webformsInstance
                         (comp (match messageHandler (comp w) with
                                | Some h => upd (set_messageHandler None)
                                                (removeEventListener h w)
                                | None => w
                                end)) = Some wid)
      by (destruct (messageHandler (comp w)); cbn; auto).
    destruct Hsame as [Hws His].
    unfold disconnectedCallback. cbn zeta. rewrite His.
    unfold has_destroy. rewrite Hws, Hx, Hdf. cbn. rewrite Hws.
    rewrite list_lookup_alter_eq, Hx. reflexivity.
Qed.

Lemma teardown_releases_widget_and_listener_witness :
  no_listener (handleBackToSelector sessionWorld)
  /\ no_active_widget (handleBackToSelector sessionWorld).
Proof.
  destruct (teardown_releases_widget_and_listener sessionWorld)
    as ((Hl & Hw & _) & _).
  - unfold sessionWorld. apply reachable_run. constructor.
  - split; assumption.
Defined.

End BetterWebformTeardown.

(** ** Failures of backend calls *)

Section BackendFailures.

Lemma orElse_truthy a b : Js.truthy b = true -> Js.truthy (Js.orElse a b) = true.
Proof.
  intros Hb. unfold Js.orElse. destruct (Js.truthy a) eqn:Ha; assumption.
Qed.

Lemma orElse_chain a b c :
  Js.orElse (Js.orElse a b) c
  = if Js.truthy a then a else if Js.truthy b then b else c.
Proof.
  unfold Js.orElse. destruct (Js.truthy a) eqn:Ha; [now rewrite Ha|].
  reflexivity.
Qed.

(** C5, as the code has it.  A failed status update is logged with
    [console.error] (betterWebform writes a block of lines that names the
    failure, webformRelaunch one line) and sets [errorMessage] to a
    non-empty text.  In betterWebform nothing else changes: the view
    flag, the held widget and listener, the widgets and the listeners are
    as before.  In webformRelaunch the widget is not touched either, but
    the container is rendered only while no error message is set, so
    [canRender] turns false. *)
Theorem failed_status_update_keeps_widget
    (e : Js.thrown) (w : BetterWebform.World) (v : WebformRelaunch.World) :
  (let w' := BetterWebform.updateStatus_settled (Rejected e) w in
   (exists m, Js.truthy m = true
              /\ BetterWebform.comp w'
                 = BetterWebform.set_errorMessage m (BetterWebform.comp w))
   /\ BetterWebform.showSelector (BetterWebform.comp w')
      = BetterWebform.showSelector (BetterWebform.comp w)
   /\ BetterWebform.webformsInstance (BetterWebform.comp w')
      = BetterWebform.webformsInstance (BetterWebform.comp w)
   /\ BetterWebform.messageHandler (BetterWebform.comp w')
      = BetterWebform.messageHandler (BetterWebform.comp w)
   /\ BetterWebform.listeners w' = BetterWebform.listeners w
   /\ BetterWebform.widgets w' = BetterWebform.widgets w
   /\ BetterWebform.apex w' = BetterWebform.apex w
   /\ BetterWebform.pending w' = BetterWebform.pending w
   /\ (exists l,
          BetterWebform.console w' = BetterWebform.console w ++ l
          /\ In (console_error "[Apex] ERROR UPDATING STATUS") l
          /\ forall line, In line l -> exists tag, line = console_error tag))
  /\ (let v' := WebformRelaunch.updateStatus_settled (Rejected e) v in
      (exists m, Js.truthy m = true
                 /\ WebformRelaunch.comp v'
                    = WebformRelaunch.set_errorMessage
                        m (WebformRelaunch.comp v))
      /\ WebformRelaunch.webformsInstance (WebformRelaunch.comp v')
         = WebformRelaunch.webformsInstance (WebformRelaunch.comp v)
      /\ WebformRelaunch.widgets v' = WebformRelaunch.widgets v
      /\ WebformRelaunch.apex v' = WebformRelaunch.apex v
      /\ WebformRelaunch.pending v' = WebformRelaunch.pending v
      /\ WebformRelaunch.console v'
         = WebformRelaunch.console v
           ++ [console_error "Failed to update status"]
      /\ WebformRelaunch.canRender (WebformRelaunch.comp v') = false).
Proof.
  assert (Ht : Js.truthy
                 (Js.orElse (Js.orElse (Js.body_message_of e) (Js.message_of e))
                            (Some "Failed to update status")) = true)
    by (apply orElse_truthy; reflexivity).
  split; cbn zeta.
  - repeat apply conj; try reflexivity.
    + eexists. split; [exact Ht|reflexivity].
    + exists BetterWebform.updateStatus_errorLines. repeat apply conj.
      * cbn. now rewrite <- !app_assoc.
      * right. left. reflexivity.
      * intros line Hin. cbn in Hin.
        repeat (destruct Hin as [<- | Hin]; [eexists; reflexivity|]).
        destruct Hin.
  - repeat apply conj; try reflexivity.
    + eexists. split; [exact Ht|reflexivity].
    + unfold WebformRelaunch.canRender. cbn. rewrite Ht. reflexivity.
Qed.

(** C5 as stated fails in webformRelaunch: the session is mounted and its
    container rendered; the [submitted] report is rejected by the backend;
    the widget is still there, but the container is no longer rendered. *)
Lemma relaunch_status_failure_hides_container :
  let failure :=
    {| Js.body := None; Js.message := Some "Network error";
       Js.asString := "Error: Network error" |} in
  let v := WebformRelaunchSession.resumedWorld in
  let v' :=
    WebformRelaunch.run
      [ WebformRelaunch.SdkEvent 0 "submitted"
          {| payload_sessionEndType := None |};
        WebformRelaunch.Settle 0 (Rejected (Js.Obj failure)) None ] v in
  WebformRelaunch.canRender (WebformRelaunch.comp v) = true
  /\ WebformRelaunch.apex v'
     = WebformRelaunch.apex v
       ++ [updateWebformInstanceStatus (Some "rec1") "Submitted"]
  /\ WebformRelaunch.widgets v' = WebformRelaunch.widgets v
  /\ WebformRelaunch.canRender (WebformRelaunch.comp v') = false.
Proof. cbv zeta. repeat apply conj; vm_compute; reflexivity. Qed.

(** C6, as the code has it.  When the promise of a launch call is
    rejected, the view flag is left as it was, the loading indicator
    stops and no further backend call is made.  betterWebform shows the
    structured [body.message] if it is non-empty, else the generic
    [message] if it is non-empty, else "Unexpected error".  The simplest
    variant chooses by the presence of [body]: with a body it shows
    [body.message], whatever that is, and without one [message]. *)
Theorem launch_failure_stays_in_selector :
  (forall k p e w,
      BetterWebform.pending w !! k = Some p ->
      BetterWebformSession.launching p = true ->
      let w' := BetterWebform.step (BetterWebform.Settle k (Rejected e)) w in
      BetterWebform.errorMessage (BetterWebform.comp w')
      = (if Js.truthy (Js.body_message_of e) then Js.body_message_of e
         else if Js.truthy (Js.message_of e) then Js.message_of e
              else Some "Unexpected error")
      /\ BetterWebform.showSelector (BetterWebform.comp w')
         = BetterWebform.showSelector (BetterWebform.comp w)
      /\ BetterWebform.isLoading (BetterWebform.comp w') = false
      /\ BetterWebform.apex w' = BetterWebform.apex w)
  /\ (forall k p err w,
         DocusignWebformIframe.pending w !! k = Some p ->
         let w' :=
           DocusignWebformIframe.step
             (DocusignWebformIframe.Settle k (Rejected (Js.Obj err))) w in
         DocusignWebformIframe.errorMessage (DocusignWebformIframe.comp w')
         = match Js.body err with
           | Some b => Js.body_message b
           | None => Js.message err
           end
         /\ DocusignWebformIframe.showSelector (DocusignWebformIframe.comp w')
            = DocusignWebformIframe.showSelector
                (DocusignWebformIframe.comp w)
         /\ DocusignWebformIframe.isLoading (DocusignWebformIframe.comp w')
            = false
         /\ DocusignWebformIframe.apex w' = DocusignWebformIframe.apex w).
Proof.
  split.
  - intros k p e w Hp Hl. cbn zeta. cbn [BetterWebform.step]. rewrite Hp.
    destruct p; try discriminate Hl; cbn; rewrite orElse_chain; auto.
  - intros k p err w Hp. cbn zeta. cbn [DocusignWebformIframe.step].
    rewrite Hp. destruct p; cbn; auto.
Qed.

Lemma launch_failure_stays_in_selector_witness :
  let w :=
    BetterWebform.run
      [ BetterWebform.Connected;
        BetterWebform.Settle 0 (Resolved RUnit);
        BetterWebform.Settle
          0 (Resolved (RSdk (Some BetterWebformSession.vendorSdk)));
        BetterWebform.ConditionClick (Some "f1") (Some "c1") ]
      BetterWebform.initialWorld in
  let w' :=
    BetterWebform.step
      (BetterWebform.Settle 0 (Rejected (Js.Obj bodyWithoutMessage))) w in
  BetterWebform.errorMessage (BetterWebform.comp w') = Some "Request failed"
  /\ BetterWebform.showSelector (BetterWebform.comp w') = true
  /\ BetterWebform.isLoading (BetterWebform.comp w') = false.
Proof.
  cbn zeta.
  destruct (proj1 launch_failure_stays_in_selector
              0 (BetterWebform.AwaitCreateInstance (Some "f1") (Some "c1"))
              (Js.Obj bodyWithoutMessage)
              (BetterWebform.run
                 [ BetterWebform.Connected;
                   BetterWebform.Settle 0 (Resolved RUnit);
                   BetterWebform.Settle
                     0 (Resolved (RSdk (Some BetterWebformSession.vendorSdk)));
                   BetterWebform.ConditionClick (Some "f1") (Some "c1") ]
                 BetterWebform.initialWorld))
    as (He & Hs & Hl & _); [vm_compute; reflexivity | reflexivity |].
  repeat apply conj.
  - rewrite He. vm_compute. reflexivity.
  - rewrite Hs. vm_compute. reflexivity.
  - exact Hl.
Defined.

(** C6 as stated fails in the simplest variant: the session service
    rejects with a body that has no message; the error has a generic
    message, yet the component shows none. *)
Lemma iframe_launch_failure_shows_no_message :
  let w :=
    DocusignWebformIframe.run
      [ DocusignWebformIframe.ConditionClick (Some "f1") (Some "c1");
        DocusignWebformIframe.Settle 0 (Rejected (Js.Obj bodyWithoutMessage)) ]
      DocusignWebformIframe.initialWorld in
  DocusignWebformIframe.apex w = [createWebformInstance (Some "f1")]
  /\ Js.message bodyWithoutMessage = Some "Request failed"
  /\ DocusignWebformIframe.errorMessage (DocusignWebformIframe.comp w) = None
  /\ DocusignWebformIframe.showSelector (DocusignWebformIframe.comp w) = true.
Proof. cbv zeta. repeat apply conj; vm_compute; reflexivity. Qed.

End BackendFailures.

(** ** webformRelaunch *)

Section WebformRelaunchFacts.
Import WebformRelaunch WebformRelaunchSession WebformRelaunchReach.

Lemma mount_with_working_sdk sdk el u tok w :
  ds (comp w) = Some sdk ->
  webforms_is_function sdk = true ->
  mount_throws sdk = None ->
  mount el u tok w
  = (set_widgets
       (widgets w ++ [mountedWidget sdk el u tok])
       (upd (fun c =>
               set_webformsInstance
                 (Some (length (widgets w)))
                 (set_didSubmit false (set_didEnd false c))) w),
     None).
Proof.
  intros Hds Hf Hm. unfold mount. cbn zeta. cbn. rewrite Hds, Hf, Hm.
  unfold on. cbn. rewrite !alter_last. reflexivity.
Qed.

(** [resume()] after a successful refresh, with the container rendered
    and a working SDK. *)
Lemma resume_refreshed_mounts sdk refreshed w :
  ds (comp w) = Some sdk ->
  webforms_is_function sdk = true ->
  mount_throws sdk = None ->
  Js.truthy (res_instanceToken refreshed) = true ->
  let w' := resume_refreshed refreshed (Some WebformContainer) w in
  let u := Js.orElse (res_formUrl refreshed) (formUrl (comp w)) in
  instanceToken (comp w') = res_instanceToken refreshed
  /\ formUrl (comp w') = u
  /\ instanceId (comp w')
     = Js.orElse (res_instanceId refreshed) (instanceId (comp w))
  /\ isLoading (comp w') = false
  /\ errorMessage (comp w') = errorMessage (comp w)
  /\ sdkLoadTimeoutId (comp w') = sdkLoadTimeoutId (comp w)
  /\ timers w' = timers w
  /\ apex w' = apex w
  /\ webformsInstance (comp w') = Some (length (widgets w))
  /\ widgets w' !! length (widgets w)
     = Some (mountedWidget sdk WebformContainer u
                           (res_instanceToken refreshed)).
Proof.
  intros Hds Hf Hm Htok. cbn zeta. unfold resume_refreshed. cbn zeta.
  cbn [comp upd set_comp instanceToken set_instanceToken set_formUrl
       set_instanceId formUrl instanceId webformsInstance].
  rewrite Htok. cbn [negb].
  set (w1 := upd _ (upd _ (upd _ w))).
  assert (H1 : ds (comp w1) = Some sdk /\ widgets w1 = widgets w)
    by (subst w1; cbn; auto).
  destruct H1 as [Hds1 Hw1].
  destruct (webformsInstance (comp w)) as [wid|].
  - destruct (has_destroy wid w1).
    + rewrite mount_with_working_sdk with (sdk := sdk) by (cbn; auto).
      subst w1. cbn. rewrite length_alter.
      repeat apply conj; try reflexivity.
      apply list_lookup_middle. now rewrite length_alter.
    + rewrite mount_with_working_sdk with (sdk := sdk) by (cbn; auto).
      subst w1. cbn. repeat apply conj; try reflexivity.
      now apply list_lookup_middle.
  - rewrite mount_with_working_sdk with (sdk := sdk) by (cbn; auto).
    subst w1. cbn. repeat apply conj; try reflexivity.
    now apply list_lookup_middle.
Qed.

Lemma resumed_fields caller w :
  comp (resumed caller w)
  = match caller with
    | FromConnected => comp (connectedCallback_finally w)
    | _ => comp w
    end
  /\ widgets (resumed caller w) = widgets w
  /\ apex (resumed caller w) = apex w
  /\ instanceToken (comp (resumed caller w)) = instanceToken (comp w)
  /\ formUrl (comp (resumed caller w)) = formUrl (comp w)
  /\ instanceId (comp (resumed caller w)) = instanceId (comp w)
  /\ isLoading (comp (resumed caller w)) = isLoading (comp w)
  /\ errorMessage (comp (resumed caller w)) = errorMessage (comp w)
  /\ webformsInstance (comp (resumed caller w)) = webformsInstance (comp w).
Proof.
  destruct caller; cbn; repeat apply conj; try reflexivity;
    unfold connectedCallback_finally;
    destruct (sdkLoadTimeoutId (comp w)) as [id|]; try reflexivity;
    destruct (Nat.eqb id 0); reflexivity.
Qed.

(** C8. When the token refresh of a resume resolves and the SDK and the
    container are there, the widget is mounted with the refreshed token.
    A refresh that omits the form URL or the instance id leaves the value
    loaded from the record in place, and the widget gets the record's form
    URL; a refresh that includes one (a non-empty string) replaces the
    stored value with it. *)
Theorem refresh_keeps_or_replaces_record_fields k caller sdk refreshed w :
  pending w !! k = Some (AwaitRefresh caller) ->
  ds (comp w) = Some sdk ->
  webforms_is_function sdk = true ->
  mount_throws sdk = None ->
  Js.truthy (res_instanceToken refreshed) = true ->
  let w' :=
    step (Settle k (Resolved (RInstance refreshed)) (Some WebformContainer))
         w in
  instanceToken (comp w') = res_instanceToken refreshed
  /\ (res_formUrl refreshed = None -> formUrl (comp w') = formUrl (comp w))
  /\ (res_instanceId refreshed = None ->
      instanceId (comp w') = instanceId (comp w))
  /\ (Js.truthy (res_formUrl refreshed) = true ->
      formUrl (comp w') = res_formUrl refreshed)
  /\ (Js.truthy (res_instanceId refreshed) = true ->
      instanceId (comp w') = res_instanceId refreshed)
  /\ isLoading (comp w') = false
  /\ exists wid x,
       webformsInstance (comp w') = Some wid
       /\ widgets w' !! wid = Some x
       /\ url x = formUrl (comp w')
       /\ opt_instanceToken (options x) = res_instanceToken refreshed
       /\ mountedIn x = Some WebformContainer
       /\ destroyed x = false.
Proof.
  intros Hp Hds Hf Hm Htok. cbn zeta. cbn [step]. rewrite Hp.
  cbn [continue resume_settled].
  set (w0 := set_pending (delete k (pending w)) w).
  pose proof (resume_refreshed_mounts sdk refreshed w0 Hds Hf Hm Htok) as H.
  cbn zeta in H.
  destruct H as (Ht & Hu & Hi & Hl & _ & _ & _ & _ & Hwid & Hx).
  pose proof (resumed_fields
                caller (resume_refreshed refreshed (Some WebformContainer) w0))
    as (_ & Hw' & _ & Ht' & Hu' & Hi' & Hl' & _ & Hwid').
  rewrite Ht', Hu', Hi', Hl', Hwid', Hw'.
  change (formUrl (comp w0)) with (formUrl (comp w)) in *.
  change (instanceId (comp w0)) with (instanceId (comp w)) in *.
  change (widgets w0) with (widgets w) in *.
  repeat apply conj.
  - exact Ht.
  - intros Hn. rewrite Hu, Hn. reflexivity.
  - intros Hn. rewrite Hi, Hn. reflexivity.
  - intros Hy. rewrite Hu. unfold Js.orElse. now rewrite Hy.
  - intros Hy. rewrite Hi. unfold Js.orElse. now rewrite Hy.
  - exact Hl.
  - eexists _, _. split; [exact Hwid|]. split; [exact Hx|].
    cbn. rewrite Hu. auto.
Qed.

Lemma refresh_keeps_or_replaces_record_fields_witness :
  let w :=
    run [ Connected;
          Settle 0 (Resolved RUnit) None;
          Settle 0 (Resolved (RSdk (Some vendorSdk))) None;
          WiredRecord (Some inProgressRecord) None ]
        (initialWorld (Some "rec1")) in
  let w' :=
    step (Settle 0 (Resolved (RInstance tokenOnly)) (Some WebformContainer))
         w in
  instanceToken (comp w') = Some "t2"
  /\ formUrl (comp w') = Some "https://x/f1"
  /\ instanceId (comp w') = Some "i1".
Proof.
  cbn zeta.
  destruct (refresh_keeps_or_replaces_record_fields
              0 FromWire vendorSdk tokenOnly
              (run [ Connected;
                     Settle 0 (Resolved RUnit) None;
                     Settle 0 (Resolved (RSdk (Some vendorSdk))) None;
                     WiredRecord (Some inProgressRecord) None ]
                   (initialWorld (Some "rec1"))))
    as (Ht & Hu & Hi & _); try (vm_compute; reflexivity).
  repeat apply conj.
  - exact Ht.
  - rewrite Hu by reflexivity. vm_compute. reflexivity.
  - rewrite Hi by reflexivity. vm_compute. reflexivity.
Defined.

(** *** The clock and the deadlines *)














(** *** The load timeout *)

Lemma clearTimeout_removes id w : ~ In id (timers (clearTimeout id w)).
Proof.
  unfold clearTimeout. cbn. intros Hin. apply List.filter_In in Hin as [_ Hne].
  rewrite Nat.eqb_refl in Hne. discriminate.
Qed.




(** *** The observers of the relaunch variant *)

(** Once the submit guard is set, a [sessionEnd] event reports nothing,
    whatever its payload. *)
Lemma relaunch_sessionEnd_after_submitted payload w :
  _didSubmit (comp w) = true ->
  apex (sdkHandler "sessionEnd" payload w) = apex w.
Proof.
  intros Hs. unfold sdkHandler, markInProgressOnce. cbn.
  rewrite Hs, orb_true_r. reflexivity.
Qed.

(** The [submitted] observer sets the guard. *)
Lemma relaunch_submitted_sets_guard payload w :
  _didSubmit (comp (sdkHandler "submitted" payload w)) = true.
Proof.
  unfold sdkHandler. cbn.
  destruct (_didSubmit (comp w)) eqn:Hs; cbn; [exact Hs | reflexivity].
Qed.

(** One report per guard, whatever the widget emits. *)
Lemma relaunch_handler_submitted n w :
  count_reports "Submitted" (apex (sdkHandler (fst n) (snd n) w))
  + room (_didSubmit (comp (sdkHandler (fst n) (snd n) w)))
  <= count_reports "Submitted" (apex w) + room (_didSubmit (comp w)).
Proof.
  unfold sdkHandler, markInProgressOnce, updateStatus. cbn.
  destruct (_didSubmit (comp w)) eqn:Hs, (_didEnd (comp w)) eqn:He;
    destruct (String.eqb (fst n) "submitted"),
             (String.eqb (fst n) "sessionEnd");
    cbn; rewrite ?Hs, ?He; unfold count_reports, room; cbn;
    rewrite ?List.filter_app, ?length_app; cbn; lia.
Qed.

Lemma relaunch_handler_in_progress n w :
  count_reports "In Progress" (apex (sdkHandler (fst n) (snd n) w))
  + room (_didEnd (comp (sdkHandler (fst n) (snd n) w)))
  <= count_reports "In Progress" (apex w) + room (_didEnd (comp w)).
Proof.
  unfold sdkHandler, markInProgressOnce, updateStatus. cbn.
  destruct (_didSubmit (comp w)) eqn:Hs, (_didEnd (comp w)) eqn:He;
    destruct (String.eqb (fst n) "submitted"),
             (String.eqb (fst n) "sessionEnd");
    cbn; rewrite ?Hs, ?He; unfold count_reports, room; cbn;
    rewrite ?List.filter_app, ?length_app; cbn; lia.
Qed.

Lemma relaunch_reports_at_most_once ns w :
  count_reports "Submitted" (apex (deliverAll ns w))
  <= count_reports "Submitted" (apex w) + room (_didSubmit (comp w))
  /\ count_reports "In Progress" (apex (deliverAll ns w))
     <= count_reports "In Progress" (apex w) + room (_didEnd (comp w)).
Proof.
  revert w. induction ns as [|n ns IH]; intros w; cbn; [lia|].
  destruct (IH (sdkHandler (fst n) (snd n) w)) as [IHs IHe].
  pose proof (relaunch_handler_submitted n w).
  pose proof (relaunch_handler_in_progress n w).
  unfold deliverAll in IHs, IHe. lia.
Qed.

End WebformRelaunchFacts.

(** ** Grouping the launchable items *)

Section GroupingFacts.
Import Conditions.

Lemma eqb_comm (a b : string) : String.eqb a b = String.eqb b a.
Proof. apply String.eqb_sym. Qed.

(** *** First occurrences *)

Lemma firstOccurrences_In k ks : In k (firstOccurrences ks) <-> In k ks.
Proof.
  induction ks as [|a ks IH]; cbn; [tauto|].
  rewrite List.filter_In, IH. split.
  - intros [->|[H _]]; auto.
  - intros [->|H]; [auto|].
    destruct (String.eqb a k) eqn:E.
    + apply String.eqb_eq in E. auto.
    + right. split; [exact H | reflexivity].
Qed.

Lemma firstOccurrences_NoDup ks : List.NoDup (firstOccurrences ks).
Proof.
  induction ks as [|a ks IH]; cbn; constructor.
  - rewrite List.filter_In. intros [_ H]. now rewrite String.eqb_refl in H.
  - now apply List.NoDup_filter.
Qed.

Lemma filter_absent k (l : list string) :
  ~ In k l -> List.filter (fun j => negb (String.eqb k j)) l = l.
Proof.
  induction l as [|a l IH]; cbn; [reflexivity|]. intros H.
  destruct (String.eqb k a) eqn:E.
  - apply String.eqb_eq in E. subst. tauto.
  - cbn. rewrite IH; tauto.
Qed.

Lemma firstOccurrences_snoc ks k :
  firstOccurrences (ks ++ [k])
  = if existsb (String.eqb k) ks then firstOccurrences ks
    else firstOccurrences ks ++ [k].
Proof.
  induction ks as [|a ks IH]; cbn; [reflexivity|].
  rewrite IH. destruct (String.eqb k a) eqn:E; cbn.
  - apply String.eqb_eq in E. subst a.
    destruct (existsb (String.eqb k) ks); [reflexivity|].
    rewrite List.filter_app. cbn. rewrite String.eqb_refl. cbn.
    now rewrite app_nil_r.
  - destruct (existsb (String.eqb k) ks); [reflexivity|].
    rewrite List.filter_app. cbn. rewrite eqb_comm, E. reflexivity.
Qed.

Lemma filter_none {A} (f : A -> bool) (l : list A) :
  (forall x, In x l -> f x = false) -> List.filter f l = [].
Proof.
  induction l as [|a l IH]; cbn; [reflexivity|]. intros H.
  rewrite (H a) by auto. apply IH. auto.
Qed.

Lemma existsb_eqb_In k (ks : list string) :
  existsb (String.eqb k) ks = true <-> In k ks.
Proof.
  rewrite List.existsb_exists. split.
  - intros (x & Hx & E). apply String.eqb_eq in E. now subst.
  - intros H. exists k. split; [exact H | apply String.eqb_refl].
Qed.

Lemma existsb_firstOccurrences k ks :
  existsb (String.eqb k) (firstOccurrences ks) = existsb (String.eqb k) ks.
Proof.
  destruct (existsb (String.eqb k) ks) eqn:E.
  - apply (proj2 (existsb_eqb_In _ _)), (proj2 (firstOccurrences_In _ _)),
      (proj1 (existsb_eqb_In _ _)), E.
  - destruct (existsb (String.eqb k) (firstOccurrences ks)) eqn:F;
      [|reflexivity].
    apply (proj1 (existsb_eqb_In _ _)) in F.
    apply (proj1 (firstOccurrences_In _ _)) in F.
    apply (proj2 (existsb_eqb_In _ _)) in F. congruence.
Qed.

(** *** The accumulator in closed form *)

Lemma own_tabulated (f : string -> list Condition) k ks :
  own k (List.map (fun j => (j, f j)) ks)
  = if existsb (String.eqb k) ks then Some (f k) else None.
Proof.
  induction ks as [|a ks IH]; cbn; [reflexivity|].
  destruct (String.eqb k a) eqn:E; cbn; [|exact IH].
  apply String.eqb_eq in E. now subst.
Qed.

Lemma withKey_snoc key k data c :
  withKey key k (data ++ [c])
  = withKey key k data ++ (if String.eqb k (key c) then [c] else []).
Proof. unfold withKey. rewrite List.filter_app. reflexivity. Qed.

Lemma groupBy_snoc key data c :
  groupBy key (data ++ [c])
  = match groupBy key data with
    | Some o => collect (key c) c o
    | None => None
    end.
Proof. unfold groupBy. rewrite fold_left_app. reflexivity. Qed.

Lemma push_grouped key data c :
  push (key c) c
       (List.map (fun k => (k, withKey key k data))
                 (firstOccurrences (List.map key data)))
  = List.map (fun k => (k, withKey key k (data ++ [c])))
             (firstOccurrences (List.map key data)).
Proof.
  unfold push. rewrite List.map_map. apply List.map_ext. intros k. cbn.
  rewrite withKey_snoc, (eqb_comm (key c) k).
  destruct (String.eqb k (key c)); [reflexivity | now rewrite app_nil_r].
Qed.

Lemma collect_grouped key data c :
  collect (key c) c (grouped key data)
  = if inherited (key c) && negb (existsb (String.eqb (key c)) (List.map key data))
    then None
    else Some (grouped key (data ++ [c])).
Proof.
  unfold collect, grouped. rewrite own_tabulated.
  rewrite existsb_firstOccurrences.
  rewrite List.map_app. cbn [List.map]. rewrite firstOccurrences_snoc.
  destruct (existsb (String.eqb (key c)) (List.map key data)) eqn:E.
  - rewrite andb_false_r. f_equal. apply push_grouped.
  - rewrite andb_true_r. destruct (inherited (key c)); [reflexivity|].
    f_equal. unfold define, push.
    rewrite List.map_app, List.map_app. f_equal.
    + fold (push (key c) c
                 (List.map (fun k => (k, withKey key k data))
                           (firstOccurrences (List.map key data)))).
      apply push_grouped.
    + cbn. rewrite String.eqb_refl. cbn. f_equal. f_equal.
      rewrite withKey_snoc, String.eqb_refl.
      assert (Hn : withKey key (key c) data = []).
      { unfold withKey. apply filter_none. intros x Hx.
        destruct (String.eqb (key c) (key x)) eqn:Ex; [|reflexivity].
        apply String.eqb_eq in Ex.
        assert (Hin : In (key c) (List.map key data))
          by (rewrite Ex; now apply List.in_map).
        apply existsb_eqb_In in Hin. congruence. }
      now rewrite Hn.
Qed.

(** The reducer either fails, when some key names an inherited member, or
    builds the object [grouped]. *)
Lemma groupBy_closed_form key data :
  groupBy key data
  = if existsb inherited (List.map key data) then None
    else Some (grouped key data).
Proof.
  induction data as [|c data IH] using rev_ind; [reflexivity|].
  rewrite groupBy_snoc, IH, List.map_app, List.existsb_app. cbn [List.map existsb].
  rewrite orb_false_r.
  destruct (existsb inherited (List.map key data)) eqn:Hp; [reflexivity|].
  cbn [orb]. rewrite collect_grouped.
  destruct (inherited (key c)) eqn:Hi; cbn [andb]; [|reflexivity].
  destruct (existsb (String.eqb (key c)) (List.map key data)) eqn:E;
    [|reflexivity].
  exfalso. apply existsb_eqb_In in E.
  assert (Hex : existsb inherited (List.map key data) = true)
    by (apply List.existsb_exists; eauto).
  congruence.
Qed.

(** *** Object.keys *)

Lemma insertIndex_Permutation x l : Permutation (insertIndex x l) (x :: l).
Proof.
  induction l as [|y l IH]; cbn; [reflexivity|].
  destruct (N.leb (fst x) (fst y)); [reflexivity|].
  rewrite IH. apply perm_swap.
Qed.

Lemma sortIndices_Permutation l : Permutation (sortIndices l) l.
Proof.
  induction l as [|x l IH]; cbn; [reflexivity|].
  rewrite insertIndex_Permutation. now apply perm_skip.
Qed.

Lemma insertIndex_sorted x l :
  StronglySorted (fun a b => (fst a <= fst b)%N) l ->
  StronglySorted (fun a b => (fst a <= fst b)%N) (insertIndex x l).
Proof.
  induction 1 as [|y l Hs IH Hy]; cbn.
  - constructor; constructor.
  - destruct (N.leb (fst x) (fst y)) eqn:E.
    + apply N.leb_le in E. constructor; [constructor; assumption|].
      constructor; [exact E|].
      eapply List.Forall_impl; [|exact Hy]. intros a Ha. cbn in *. lia.
    + apply N.leb_gt in E. constructor; [exact IH|].
      rewrite (insertIndex_Permutation x l).
      constructor; [lia | exact Hy].
Qed.

Lemma sortIndices_sorted l :
  StronglySorted (fun a b => (fst a <= fst b)%N) (sortIndices l).
Proof.
  induction l as [|x l IH]; cbn; [constructor|].
  now apply insertIndex_sorted.
Qed.

Lemma indexKeys_sound ks n k :
  In (n, k) (indexKeys ks) -> In k ks /\ arrayIndex k = Some n.
Proof.
  unfold indexKeys. rewrite List.in_flat_map. intros (j & Hj & Hin).
  destruct (arrayIndex j) as [m|] eqn:E; [|contradiction].
  destruct Hin as [[= <- <-]|[]]. auto.
Qed.

Lemma keys_split_Permutation ks :
  Permutation (List.map snd (indexKeys ks) ++ nameKeys ks) ks.
Proof.
  induction ks as [|k ks IH]; cbn; [reflexivity|].
  destruct (arrayIndex k); cbn.
  - now apply perm_skip.
  - symmetry. apply Permutation_cons_app. now symmetry.
Qed.

Lemma keysOrder_Permutation ks : Permutation (keysOrder ks) ks.
Proof.
  unfold keysOrder. rewrite sortIndices_Permutation.
  apply keys_split_Permutation.
Qed.

Lemma keysOrder_names ks :
  (forall k, In k ks -> arrayIndex k = None) -> keysOrder ks = ks.
Proof.
  intros H. unfold keysOrder.
  assert (Hi : indexKeys ks = [] /\ nameKeys ks = ks).
  { induction ks as [|k ks IH]; [auto|].
    destruct IH as [Hi Hn]; [intros j Hj; apply H; now right|].
    unfold indexKeys, nameKeys in *. cbn.
    rewrite (H k) by (left; reflexivity). cbn. rewrite Hi, Hn. auto. }
  destruct Hi as [-> ->]. reflexivity.
Qed.

(** *** The groups *)

Lemma groups_grouped key data :
  groups (grouped key data)
  = List.map (fun k => {| category := k; conditions := withKey key k data |})
             (keysOrder (firstOccurrences (List.map key data))).
Proof.
  unfold groups, keys, grouped. rewrite List.map_map. cbn [fst].
  rewrite List.map_id. apply List.map_ext_in. intros k Hk.
  rewrite own_tabulated.
  rewrite (keysOrder_Permutation _) in Hk.
  apply (proj2 (existsb_eqb_In _ _)) in Hk. now rewrite Hk.
Qed.

Lemma withKey_In key k data c :
  In c (withKey key k data) <-> In c data /\ key c = k.
Proof.
  unfold withKey. rewrite List.filter_In, String.eqb_eq. intuition congruence.
Qed.

(** Collecting by distinct keys that cover the data loses and repeats
    nothing. *)
Lemma concat_withKey_Permutation key ks data :
  List.NoDup ks ->
  (forall c, In c data -> In (key c) ks) ->
  Permutation (concat (List.map (fun k => withKey key k data) ks)) data.
Proof.
  intros Hnd. induction data as [|c data IH]; intros Hcov.
  - clear Hnd Hcov. cbn.
    induction ks as [|k ks IHk]; cbn; [reflexivity | exact IHk].
  - destruct (List.in_split (key c) ks) as (l1 & l2 & ->);
      [apply Hcov; now left|].
    apply List.NoDup_remove in Hnd as [Hnd Hnot].
    assert (Hother : forall l, (forall k, In k l -> k <> key c) ->
              List.map (fun k => withKey key k (c :: data)) l
              = List.map (fun k => withKey key k data) l).
    { intros l Hl. apply List.map_ext_in. intros k Hk. unfold withKey. cbn.
      destruct (String.eqb k (key c)) eqn:E; [|reflexivity].
      apply String.eqb_eq in E. now apply Hl in Hk. }
    rewrite List.map_app. cbn [List.map].
    rewrite (Hother l1), (Hother l2).
    2: { intros k Hk ->. apply Hnot. apply List.in_or_app. now right. }
    2: { intros k Hk ->. apply Hnot. apply List.in_or_app. now left. }
    rewrite concat_app. cbn [concat].
    unfold withKey at 2. cbn [List.filter]. rewrite String.eqb_refl.
    fold (withKey key (key c) data).
    rewrite <- app_comm_cons, <- Permutation_middle.
    apply perm_skip.
    specialize (IH ltac:(intros c' Hc'; apply Hcov; now right)).
    rewrite List.map_app, concat_app in IH. exact IH.
Qed.

(** What both variants' groupings have in common, for the key each
    computes. *)
Lemma groups_partition key data :
  let gs := groups (grouped key data) in
  List.NoDup (List.map category gs)
  /\ (forall g, In g gs ->
                conditions g = withKey key (category g) data
                /\ conditions g <> [])
  /\ (forall c, In c data ->
                exists g, In g gs /\ category g = key c /\ In c (conditions g))
  /\ Permutation (concat (List.map conditions gs)) data.
Proof.
  cbn zeta. rewrite groups_grouped.
  set (ks := keysOrder (firstOccurrences (List.map key data))).
  assert (Hperm : Permutation ks (firstOccurrences (List.map key data)))
    by apply keysOrder_Permutation.
  assert (Hnd : List.NoDup ks).
  { eapply Permutation_NoDup; [symmetry; exact Hperm|].
    apply firstOccurrences_NoDup. }
  assert (Hin : forall k, In k ks <-> In k (List.map key data)).
  { intros k. split; intros H.
    - apply (proj1 (firstOccurrences_In _ _)).
      eapply Permutation_in; [exact Hperm | exact H].
    - eapply Permutation_in; [symmetry; exact Hperm|].
      now apply (proj2 (firstOccurrences_In _ _)). }
  repeat apply conj.
  - rewrite List.map_map. cbn. now rewrite List.map_id.
  - intros g Hg. apply List.in_map_iff in Hg as (k & <- & Hk). cbn.
    split; [reflexivity|].
    apply Hin, List.in_map_iff in Hk as (c & Hc & Hcin).
    intros Hnil. assert (Hc' : In c (withKey key k data))
      by (apply withKey_In; auto).
    rewrite Hnil in Hc'. contradiction.
  - intros c Hc. exists {| category := key c;
                          conditions := withKey key (key c) data |}.
    repeat apply conj; [|reflexivity|].
    + apply List.in_map_iff. exists (key c). split; [reflexivity|].
      apply Hin. now apply List.in_map.
    + cbn. apply withKey_In. auto.
  - rewrite List.map_map. cbn.
    apply concat_withKey_Permutation; [exact Hnd|].
    intros c Hc. apply Hin. now apply List.in_map.
Qed.

Lemma groupBy_ext key1 key2 data :
  (forall c, In c data -> key1 c = key2 c) ->
  groupBy key1 data = groupBy key2 data.
Proof.
  induction data as [|c data IH] using rev_ind; intros H; [reflexivity|].
  rewrite !groupBy_snoc, IH, (H c).
  - reflexivity.
  - apply List.in_or_app. right. now left.
  - intros x Hx. apply H. apply List.in_or_app. now left.
Qed.

Lemma StronglySorted_map {A B} (R : B -> B -> Prop) (f : A -> B) l :
  StronglySorted (fun a b => R (f a) (f b)) l ->
  StronglySorted R (List.map f l).
Proof.
  induction 1 as [|a l Hs IH Ha]; cbn; constructor; [exact IH|].
  apply List.Forall_map. exact Ha.
Qed.

(** X1. betterWebform: when no category names an inherited member, the
    wire's data is split into one group per category, "Other" standing for
    a missing or empty one.  The categories are distinct, each group holds
    exactly the items of its category in the order they arrived and is
    never empty, every item is in the group of its category, and the
    groups together hold each item once.  The error banner is not
    touched. *)
Theorem wiredConditions_groups_every_item data error v :
  existsb inherited (List.map categoryOrOther data) = false ->
  let r := BetterWebformSelector.wiredConditions (Some data) error v in
  let gs := BetterWebformSelector.groupedConditions (fst r) in
  snd r = None
  /\ BetterWebformSelector.world (fst r) = BetterWebformSelector.world v
  /\ List.NoDup (List.map category gs)
  /\ (forall g, In g gs ->
                conditions g = withKey categoryOrOther (category g) data
                /\ conditions g <> [])
  /\ (forall c, In c data ->
                exists g, In g gs /\ category g = categoryOrOther c
                          /\ In c (conditions g))
  /\ Permutation (concat (List.map conditions gs)) data.
Proof.
  intros H. cbn zeta. unfold BetterWebformSelector.wiredConditions.
  rewrite groupBy_closed_form, H. cbn [fst snd].
  split; [reflexivity|]. split; [reflexivity|].
  apply (groups_partition categoryOrOther data).
Qed.

Lemma wiredConditions_groups_every_item_witness :
  List.map category
    (BetterWebformSelector.groupedConditions
       (fst (BetterWebformSelector.wiredConditions
               (Some ConditionsSample.clinic) None
               BetterWebformSelector.initialView)))
  = ["Knee"; "Other"; "Back"]
  /\ Permutation
       (concat
          (List.map conditions
             (BetterWebformSelector.groupedConditions
                (fst (BetterWebformSelector.wiredConditions
                        (Some ConditionsSample.clinic) None
                        BetterWebformSelector.initialView)))))
       ConditionsSample.clinic.
Proof.
  split; [vm_compute; reflexivity|].
  apply (wiredConditions_groups_every_item
           ConditionsSample.clinic None BetterWebformSelector.initialView).
  vm_compute. reflexivity.
Defined.

(** X2. docusignWebformIframe: the same partition, with the category
    itself as the key, so that items without a category are grouped under
    "undefined" or "null" and items with an empty one under the empty
    key. *)
Theorem iframe_wiredConditions_groups_every_item data error v :
  existsb inherited (List.map categoryKey data) = false ->
  let r := DocusignWebformIframeSelector.wiredConditions (Some data) error v in
  let gs := DocusignWebformIframeSelector.groupedConditions (fst r) in
  snd r = None
  /\ List.NoDup (List.map category gs)
  /\ (forall g, In g gs ->
                conditions g = withKey categoryKey (category g) data
                /\ conditions g <> [])
  /\ (forall c, In c data ->
                exists g, In g gs
                          /\ category g = toPropertyKey (Category__c c)
                          /\ In c (conditions g))
  /\ Permutation (concat (List.map conditions gs)) data.
Proof.
  intros H. cbn zeta. unfold DocusignWebformIframeSelector.wiredConditions.
  rewrite groupBy_closed_form, H. cbn [fst snd].
  split; [reflexivity|].
  replace (DocusignWebformIframeSelector.groupedConditions
             (DocusignWebformIframeSelector.wiredConditions_error
                error
                {| DocusignWebformIframeSelector.world :=
                     DocusignWebformIframeSelector.world v;
                   DocusignWebformIframeSelector.groupedConditions :=
                     groups (grouped categoryKey data) |}))
    with (groups (grouped categoryKey data))
    by (destruct error; reflexivity).
  apply (groups_partition categoryKey data).
Qed.

Lemma iframe_wiredConditions_groups_every_item_witness :
  List.map category
    (DocusignWebformIframeSelector.groupedConditions
       (fst (DocusignWebformIframeSelector.wiredConditions
               (Some ConditionsSample.clinic) None
               DocusignWebformIframeSelector.initialView)))
  = ["Knee"; "undefined"; "Back"]
  /\ Permutation
       (concat
          (List.map conditions
             (DocusignWebformIframeSelector.groupedConditions
                (fst (DocusignWebformIframeSelector.wiredConditions
                        (Some ConditionsSample.clinic) None
                        DocusignWebformIframeSelector.initialView)))))
       ConditionsSample.clinic.
Proof.
  split; [vm_compute; reflexivity|].
  apply (iframe_wiredConditions_groups_every_item
           ConditionsSample.clinic None
           DocusignWebformIframeSelector.initialView).
  vm_compute. reflexivity.
Defined.

(** X3. betterWebform: the groups are listed with the categories that are
    array indices first, in ascending numeric order, followed by all other
    categories in the order in which each first occurs in the data.  When
    no category is an array index the list is in first-occurrence
    order. *)
Theorem wiredConditions_group_order data error v :
  existsb inherited (List.map categoryOrOther data) = false ->
  let gs :=
    BetterWebformSelector.groupedConditions
      (fst (BetterWebformSelector.wiredConditions (Some data) error v)) in
  let seen := firstOccurrences (List.map categoryOrOther data) in
  (exists numeric ns,
      List.map category gs = numeric ++ nameKeys seen
      /\ List.map arrayIndex numeric = List.map Some ns
      /\ StronglySorted N.le ns)
  /\ ((forall c, In c data -> arrayIndex (categoryOrOther c) = None) ->
      List.map category gs = seen).
Proof.
  intros H. cbn zeta. unfold BetterWebformSelector.wiredConditions.
  rewrite groupBy_closed_form, H. cbn [fst BetterWebformSelector.groupedConditions].
  rewrite groups_grouped, List.map_map. cbn [category]. rewrite List.map_id.
  split.
  - set (seen := firstOccurrences (List.map categoryOrOther data)).
    exists (List.map snd (sortIndices (indexKeys seen))),
           (List.map fst (sortIndices (indexKeys seen))).
    split; [reflexivity|]. split.
    + rewrite !List.map_map. apply List.map_ext_in. intros [n k] Hin.
      cbn. eapply Permutation_in in Hin; [|apply sortIndices_Permutation].
      now apply indexKeys_sound in Hin.
    + apply StronglySorted_map. apply sortIndices_sorted.
  - intros Hn. apply keysOrder_names. intros k Hk.
    apply firstOccurrences_In, List.in_map_iff in Hk as (c & <- & Hc).
    now apply Hn.
Qed.

Lemma wiredConditions_group_order_witness :
  List.map category
    (BetterWebformSelector.groupedConditions
       (fst (BetterWebformSelector.wiredConditions
               (Some ConditionsSample.clinic) None
               BetterWebformSelector.initialView)))
  = firstOccurrences (List.map categoryOrOther ConditionsSample.clinic).
Proof.
  apply (wiredConditions_group_order
           ConditionsSample.clinic None BetterWebformSelector.initialView).
  - vm_compute. reflexivity.
  - intros c Hc. cbn in Hc.
    destruct Hc as [<-|[<-|[<-|[<-|[]]]]]; vm_compute; reflexivity.
Defined.

(** X4. In both variants a category that names a member every object
    inherits ("constructor", "toString", "__proto__", ...) makes the
    grouping throw: the list shown and the error banner stay as they
    were. *)
Theorem wiredConditions_inherited_category_throws data error k :
  inherited k = true ->
  (In k (List.map categoryOrOther data) ->
   forall v, BetterWebformSelector.wiredConditions (Some data) error v
             = (v, Some notAFunction))
  /\ (In k (List.map categoryKey data) ->
      forall v, DocusignWebformIframeSelector.wiredConditions
                  (Some data) error v
                = (v, Some notAFunction)).
Proof.
  intros Hk. split; intros Hin v.
  - unfold BetterWebformSelector.wiredConditions.
    rewrite groupBy_closed_form.
    replace (existsb inherited (List.map categoryOrOther data)) with true;
      [reflexivity|].
    symmetry. apply List.existsb_exists. eauto.
  - unfold DocusignWebformIframeSelector.wiredConditions.
    rewrite groupBy_closed_form.
    replace (existsb inherited (List.map categoryKey data)) with true;
      [reflexivity|].
    symmetry. apply List.existsb_exists. eauto.
Qed.

Lemma wiredConditions_inherited_category_throws_witness :
  BetterWebformSelector.wiredConditions
    (Some ConditionsSample.hostile) None BetterWebformSelector.initialView
  = (BetterWebformSelector.initialView, Some notAFunction).
Proof.
  apply (proj1 (wiredConditions_inherited_category_throws
                  ConditionsSample.hostile None "constructor" eq_refl)).
  vm_compute. right. left. reflexivity.
Defined.

(** X5. When every item has a non-empty category the two variants build
    the same list of groups, and one throws exactly when the other
    does. *)
Theorem variants_group_alike data error vb vi :
  (forall c, In c data -> truthy (Category__c c) = true) ->
  let rb := BetterWebformSelector.wiredConditions (Some data) error vb in
  let ri := DocusignWebformIframeSelector.wiredConditions (Some data) error vi in
  snd rb = snd ri
  /\ (snd rb = None ->
      BetterWebformSelector.groupedConditions (fst rb)
      = DocusignWebformIframeSelector.groupedConditions (fst ri)).
Proof.
  intros H. cbn zeta.
  unfold BetterWebformSelector.wiredConditions,
    DocusignWebformIframeSelector.wiredConditions.
  rewrite (groupBy_ext categoryOrOther categoryKey data).
  - destruct (groupBy categoryKey data) as [o|]; cbn.
    + split; [reflexivity|]. intros _. destruct error; reflexivity.
    + split; [reflexivity | discriminate].
  - intros c Hc. unfold categoryOrOther, categoryKey. now rewrite (H c Hc).
Qed.

Lemma variants_group_alike_witness :
  BetterWebformSelector.groupedConditions
    (fst (BetterWebformSelector.wiredConditions
            (Some ConditionsSample.numbered) None
            BetterWebformSelector.initialView))
  = DocusignWebformIframeSelector.groupedConditions
      (fst (DocusignWebformIframeSelector.wiredConditions
              (Some ConditionsSample.numbered) None
              DocusignWebformIframeSelector.initialView)).
Proof.
  apply (variants_group_alike
           ConditionsSample.numbered None BetterWebformSelector.initialView
           DocusignWebformIframeSelector.initialView).
  - intros c Hc. cbn in Hc.
    destruct Hc as [<-|[<-|[<-|[]]]]; reflexivity.
  - vm_compute. reflexivity.
Defined.

(** X6. A wire error without data keeps the list that is shown and sets
    the banner, in both variants.  When data and an error arrive
    together, betterWebform replaces the list and leaves the banner
    alone, while docusignWebformIframe replaces the list and sets the
    banner too. *)
Theorem wire_error_keeps_the_list e data vb vi :
  (let r := BetterWebformSelector.wiredConditions None (Some e) vb in
   snd r = None
   /\ BetterWebformSelector.groupedConditions (fst r)
      = BetterWebformSelector.groupedConditions vb
   /\ BetterWebform.errorMessage
        (BetterWebform.comp (BetterWebformSelector.world (fst r)))
      = Some "Failed to load conditions")
  /\ (let r := DocusignWebformIframeSelector.wiredConditions None (Some e) vi in
      snd r = None
      /\ DocusignWebformIframeSelector.groupedConditions (fst r)
         = DocusignWebformIframeSelector.groupedConditions vi
      /\ DocusignWebformIframe.errorMessage
           (DocusignWebformIframe.comp
              (DocusignWebformIframeSelector.world (fst r)))
         = Some "Failed to load conditions")
  /\ (let r := BetterWebformSelector.wiredConditions (Some data) (Some e) vb in
      BetterWebform.errorMessage
        (BetterWebform.comp (BetterWebformSelector.world (fst r)))
      = BetterWebform.errorMessage
          (BetterWebform.comp (BetterWebformSelector.world vb)))
  /\ (let r :=
        DocusignWebformIframeSelector.wiredConditions (Some data) (Some e) vi in
      snd r = None ->
      DocusignWebformIframe.errorMessage
        (DocusignWebformIframe.comp
           (DocusignWebformIframeSelector.world (fst r)))
      = Some "Failed to load conditions").
Proof.
  repeat apply conj; cbn zeta; try reflexivity.
  - unfold BetterWebformSelector.wiredConditions.
    destruct (groupBy categoryOrOther data); reflexivity.
  - unfold DocusignWebformIframeSelector.wiredConditions.
    destruct (groupBy categoryKey data); [reflexivity | discriminate].
Qed.

Lemma wire_error_keeps_the_list_witness :
  BetterWebformSelector.groupedConditions
    (fst (BetterWebformSelector.wiredConditions
            None (Some bodyWithoutMessage)
            (fst (BetterWebformSelector.wiredConditions
                    (Some ConditionsSample.clinic) None
                    BetterWebformSelector.initialView))))
  = BetterWebformSelector.groupedConditions
      (fst (BetterWebformSelector.wiredConditions
              (Some ConditionsSample.clinic) None
              BetterWebformSelector.initialView)).
Proof.
  apply (wire_error_keeps_the_list
           bodyWithoutMessage []
           (fst (BetterWebformSelector.wiredConditions
                   (Some ConditionsSample.clinic) None
                   BetterWebformSelector.initialView))
           DocusignWebformIframeSelector.initialView).
Defined.

End GroupingFacts.

(** ** betterWebform: launching and rendering *)

Section BetterWebformLaunch.
Import BetterWebform BetterWebformSession BetterWebformEvents.

(** Settling the promise that was suspended last runs its continuation
    on the world without it. *)
Lemma step_settle_last k p r w :
  k = length (pending w) ->
  step (Settle k r) (await p w)
  = match continue p r w with
    | Some w' => w'
    | None => await p w
    end.
Proof.
  intros ->. cbn [step]. unfold await at 1 2. cbn [pending set_pending].
  rewrite (list_lookup_middle (pending w) [] p _ eq_refl).
  rewrite delete_middle, app_nil_r.
  replace (set_pending (pending w) (await p w)) with w
    by (destruct w; reflexivity).
  reflexivity.
Qed.

Lemma initializeWebform_hasRendered el u tok w :
  hasRendered (comp (initializeWebform el u tok w)) = hasRendered (comp w).
Proof.
  unfold initializeWebform, initializeWebform_try, initializeWebform_catch,
    addEventListener, on. cbn.
  destruct (docusignSDK (comp w)) as [sdk|]; [|reflexivity].
  destruct (webforms_is_function sdk); [|reflexivity].
  cbn. destruct (existsb _ _), (mount_throws sdk); reflexivity.
Qed.

(** X7. renderedCallback initialises a session once: a second render,
    whatever the template query returns, changes nothing.  In particular a
    first render that found no container, or whose initialisation failed,
    is not retried. *)
Theorem renderedCallback_runs_once c1 c2 w :
  renderedCallback c2 (renderedCallback c1 w) = renderedCallback c1 w.
Proof.
  unfold renderedCallback at 2 3. cbn zeta.
  destruct (Js.truthy (pendingFormUrl (comp w))
            && Js.truthy (pendingInstanceToken (comp w))
            && negb (hasRendered (comp w)) && negb (showSelector (comp w)))
    eqn:Hgo.
  - assert (Hr : forall w', hasRendered (comp w') = true ->
                            renderedCallback c2 w' = w').
    { intros w' Hr. unfold renderedCallback. cbn zeta. rewrite Hr.
      cbn [negb]. now rewrite andb_false_r. }
    destruct c1 as [el|]; apply Hr.
    + rewrite initializeWebform_hasRendered. reflexivity.
    + reflexivity.
  - unfold renderedCallback. cbn zeta. now rewrite Hgo.
Qed.

(** X8. handleConditionClick calls the session service only when the
    library is loaded and the clicked item carries both a form id and a
    record id.  Otherwise it makes no call and suspends on nothing, the
    view stays where it was, and the banner says why. *)
Theorem handleConditionClick_calls_only_when_ready formId dbqWebformId w :
  let w' := handleConditionClick formId dbqWebformId w in
  let ready :=
    docusignLoaded (comp w) && Js.truthy formId && Js.truthy dbqWebformId in
  apex w'
  = (if ready then apex w ++ [createWebformInstance formId] else apex w)
  /\ pending w'
     = (if ready
        then pending w ++ [AwaitCreateInstance formId dbqWebformId]
        else pending w)
  /\ showSelector (comp w') = showSelector (comp w)
  /\ (docusignLoaded (comp w) = false ->
      errorMessage (comp w')
      = Some "DocuSign library not loaded yet. Please try again in a moment."
      /\ isLoading (comp w') = isLoading (comp w))
  /\ (docusignLoaded (comp w) = true -> ready = false ->
      errorMessage (comp w') = Some "Missing form information"
      /\ isLoading (comp w') = false)
  /\ (ready = true ->
      errorMessage (comp w') = None /\ isLoading (comp w') = true).
Proof.
  cbn zeta. unfold handleConditionClick.
  destruct (docusignLoaded (comp w)); cbn;
    destruct (Js.truthy formId), (Js.truthy dbqWebformId); cbn;
    repeat match goal with
           | |- _ /\ _ => split
           | |- _ -> _ => intros
           end; try reflexivity; try discriminate.
Qed.

Lemma handleConditionClick_calls_only_when_ready_witness :
  errorMessage (comp (handleConditionClick (Some "f1") (Some "c1") initialWorld))
  = Some "DocuSign library not loaded yet. Please try again in a moment."
  /\ apex (handleConditionClick (Some "f1") (Some "c1") initialWorld) = [].
Proof.
  destruct (handleConditionClick_calls_only_when_ready
              (Some "f1") (Some "c1") initialWorld)
    as (Ha & _ & _ & Hnot & _).
  split; [apply Hnot; reflexivity | exact Ha].
Defined.

(** The first three events of a launch: the two backend calls are made
    and the session is stored, nothing is created yet. *)
Lemma launch_until_render w formId dbqWebformId ds sfRecordId :
  docusignLoaded (comp w) = true ->
  Js.truthy formId = true ->
  Js.truthy dbqWebformId = true ->
  let w3 :=
    step (Settle (length (pending w)) (Resolved (RRecordId sfRecordId)))
      (step (Settle (length (pending w)) (Resolved (RInstance ds)))
         (step (ConditionClick formId dbqWebformId) w)) in
  comp w3
  = set_didReady false
      (set_didSubmit false
         (set_didEnd false
            (set_isLoading false
               (set_showSelector false
                  (set_pendingInstanceToken (res_instanceToken ds)
                     (set_pendingFormUrl (res_formUrl ds)
                        (set_webformInstanceRecordId sfRecordId
                           (set_currentFormId formId
                              (set_instanceId (res_instanceId ds)
                                 (set_instanceToken (res_instanceToken ds)
                                    (set_errorMessage None
                                       (set_isLoading true (comp w)))))))))))))
  /\ widgets w3 = widgets w /\ listeners w3 = listeners w
  /\ handlersCreated w3 = handlersCreated w
  /\ pending w3 = pending w
  /\ apex w3
     = apex w ++
       [ createWebformInstance formId;
         createWebformInstanceRecord
           (res_instanceToken ds) (res_instanceId ds) (res_formUrl ds)
           dbqWebformId ].
Proof.
  intros Hl Hfi Hdb. cbn zeta.
  assert (H1 : step (ConditionClick formId dbqWebformId) w
               = await (AwaitCreateInstance formId dbqWebformId)
                   (callApex (createWebformInstance formId)
                      (log (console_log
                              "[LWC] Creating web form instance for form:")
                         (upd (set_errorMessage None)
                            (upd (set_isLoading true) w))))).
  { cbn [step]. unfold handleConditionClick. rewrite Hl. cbn [negb].
    cbn zeta. rewrite Hfi, Hdb. reflexivity. }
  rewrite H1. clear H1.
  rewrite step_settle_last by reflexivity.
  cbn [continue handleConditionClick_instance].
  rewrite step_settle_last by reflexivity.
  cbn [continue handleConditionClick_record].
  cbn. rewrite <- app_assoc. repeat apply conj; reflexivity.
Qed.

(** A render that passes the guard with a working SDK and a container. *)
Lemma render_mounts_pending_session w sdk el :
  docusignSDK (comp w) = Some sdk ->
  webforms_is_function sdk = true ->
  mount_throws sdk = None ->
  hasRendered (comp w) = false ->
  showSelector (comp w) = false ->
  Js.truthy (pendingFormUrl (comp w)) = true ->
  Js.truthy (pendingInstanceToken (comp w)) = true ->
  let w' := step (Rendered (Some el)) w in
  comp w'
  = set_messageHandler (Some (handlersCreated w))
      (set_webformsInstance (Some (length (widgets w)))
         (set_hasRendered true (comp w)))
  /\ widgets w'
     = widgets w
       ++ [sessionWidget sdk el (pendingFormUrl (comp w))
                         (pendingInstanceToken (comp w))]
  /\ In (handlersCreated w) (listeners w')
  /\ apex w' = apex w /\ pending w' = pending w.
Proof.
  intros Hs Hf Hm Hr Hsh Hu Ht. cbn zeta. cbn [step].
  unfold renderedCallback. cbn zeta. rewrite Hu, Ht, Hr, Hsh. cbn [negb andb].
  unfold initializeWebform. cbn zeta.
  cbn [comp log upd set_comp set_console docusignSDK set_hasRendered
       pendingFormUrl pendingInstanceToken].
  rewrite Hs, Hf.
  unfold initializeWebform_try. cbn zeta. rewrite Hm.
  unfold eventTypes, on, addEventListener. cbn. rewrite !alter_last. cbn.
  destruct (existsb (Nat.eqb (handlersCreated w)) (listeners w)) eqn:He; cbn;
    rewrite ?alter_last; repeat apply conj; try reflexivity.
  - apply List.existsb_exists in He as (h & Hin & E).
    apply Nat.eqb_eq in E. now subst.
  - apply List.in_or_app. right. now left.
Qed.

(** A render that passes the guard but finds no container. *)
Lemma render_without_container w :
  hasRendered (comp w) = false ->
  showSelector (comp w) = false ->
  Js.truthy (pendingFormUrl (comp w)) = true ->
  Js.truthy (pendingInstanceToken (comp w)) = true ->
  step (Rendered None) w
  = log (console_error "[LWC] Container not found in renderedCallback")
        (upd (set_hasRendered true) w).
Proof.
  intros Hr Hsh Hu Ht. cbn [step]. unfold renderedCallback. cbn zeta.
  rewrite Hu, Ht, Hr, Hsh. reflexivity.
Qed.

(** X9. A launch end to end.  With the library loaded and nothing
    rendered yet, clicking an item, the session service resolving with
    [ds], the record creation resolving with [sfRecordId] and the view
    rendering its container make exactly two backend calls, in that order
    and with the session's own token, id and URL, and mount one new widget
    on the session's form URL with the session's token.  The widget and
    the listener are created at the render, not before. *)
Theorem launch_mounts_the_created_session
    w sdk formId dbqWebformId ds sfRecordId el :
  docusignLoaded (comp w) = true ->
  docusignSDK (comp w) = Some sdk ->
  webforms_is_function sdk = true ->
  mount_throws sdk = None ->
  hasRendered (comp w) = false ->
  Js.truthy formId = true ->
  Js.truthy dbqWebformId = true ->
  Js.truthy (res_formUrl ds) = true ->
  Js.truthy (res_instanceToken ds) = true ->
  let k := length (pending w) in
  let before :=
    run (launchEvents k formId dbqWebformId ds sfRecordId None) w in
  let w' :=
    run (launchEvents k formId dbqWebformId ds sfRecordId (Some el)) w in
  apex w'
  = apex w ++
    [ createWebformInstance formId;
      createWebformInstanceRecord
        (res_instanceToken ds) (res_instanceId ds) (res_formUrl ds)
        dbqWebformId ]
  /\ showSelector (comp w') = false
  /\ isLoading (comp w') = false
  /\ errorMessage (comp w') = None
  /\ webformInstanceRecordId (comp w') = sfRecordId
  /\ (_didReady (comp w') = false /\ _didSubmit (comp w') = false
      /\ _didEnd (comp w') = false)
  /\ widgets w'
     = widgets w
       ++ [sessionWidget sdk el (res_formUrl ds) (res_instanceToken ds)]
  /\ webformsInstance (comp w') = Some (length (widgets w))
  /\ messageHandler (comp w') = Some (handlersCreated w)
  /\ In (handlersCreated w) (listeners w')
  /\ pending w' = pending w
  /\ widgets before = widgets w
  /\ listeners before = listeners w.
Proof.
  intros Hl Hs Hf Hm Hr Hfi Hdb Hu Ht. cbn zeta.
  unfold run, launchEvents. cbn [fold_left].
  pose proof (launch_until_render w formId dbqWebformId ds sfRecordId
                Hl Hfi Hdb) as H3.
  cbn zeta in H3.
  set (w3 := step (Settle (length (pending w)) (Resolved (RRecordId sfRecordId)))
               _) in *.
  clearbody w3. destruct H3 as (Hc3 & Hw3 & Hl3 & Hh3 & Hp3 & Ha3).
  assert (Hg : docusignSDK (comp w3) = Some sdk
               /\ hasRendered (comp w3) = false
               /\ showSelector (comp w3) = false
               /\ pendingFormUrl (comp w3) = res_formUrl ds
               /\ pendingInstanceToken (comp w3) = res_instanceToken ds)
    by (rewrite Hc3; cbn; auto).
  destruct Hg as (Hs3 & Hr3 & Hsh3 & Hu3 & Ht3).
  rewrite (render_without_container w3)
    by (rewrite ?Hu3, ?Ht3; assumption).
  pose proof (render_mounts_pending_session w3 sdk el Hs3 Hf Hm Hr3 Hsh3)
    as Hmount.
  rewrite Hu3, Ht3 in Hmount. specialize (Hmount Hu Ht). cbn zeta in Hmount.
  destruct Hmount as (Hc & Hw & Hin & Ha & Hp).
  rewrite Hc, Hw, Ha, Hp, Hc3, Hw3, Ha3, Hp3.
  rewrite Hh3 in Hin |- *.
  cbn [log upd set_comp set_console widgets listeners].
  rewrite Hw3, Hl3.
  repeat apply conj; try reflexivity. exact Hin.
Qed.

Lemma launch_mounts_the_created_session_witness :
  let w :=
    run [ Connected;
          Settle 0 (Resolved RUnit);
          Settle 0 (Resolved (RSdk (Some vendorSdk))) ] initialWorld in
  widgets
    (run (launchEvents 0 (Some "f1") (Some "c1") created (Some "rec1")
                       (Some WebformContainer)) w)
  = [sessionWidget vendorSdk WebformContainer
                   (Some "https://x/f1") (Some "t1")].
Proof.
  cbn zeta.
  destruct (launch_mounts_the_created_session
              (run [ Connected;
                     Settle 0 (Resolved RUnit);
                     Settle 0 (Resolved (RSdk (Some vendorSdk))) ]
                   initialWorld)
              vendorSdk (Some "f1") (Some "c1") created (Some "rec1")
              WebformContainer)
    as (_ & _ & _ & _ & _ & _ & Hw & _);
    [vm_compute; reflexivity .. | exact Hw].
Defined.

(** X10. In every world the component can reach at most one widget is
    alive and at most one message listener is registered, and they are
    the instance and the closure the component holds. *)
Theorem reachable_holds_one_widget_and_listener w :
  reachable w ->
  (forall i j x y,
      widgets w !! i = Some x -> widgets w !! j = Some y ->
      live x -> live y -> i = j)
  /\ (forall i x, widgets w !! i = Some x -> live x ->
                  webformsInstance (comp w) = Some i)
  /\ length (listeners w) <= 1
  /\ (forall h, In h (listeners w) -> messageHandler (comp w) = Some h).
Proof.
  intros Hr. destruct (reachable_consistent w Hr) as [I1 I2 I3].
  repeat apply conj.
  - intros i j x y Hx Hy [Hxf Hxd] [Hyf Hyd].
    pose proof (I2 i x Hx Hxf Hxd) as Hi.
    pose proof (I2 j y Hy Hyf Hyd) as Hj.
    congruence.
  - intros i x Hx [Hxf Hxd]. now apply (I2 i x).
  - rewrite I1. destruct (messageHandler (comp w)); cbn; lia.
  - intros h Hh. rewrite I1 in Hh.
    destruct (messageHandler (comp w)) as [h'|]; [|contradiction].
    destruct Hh as [->|[]]. reflexivity.
Qed.

Lemma reachable_holds_one_widget_and_listener_witness :
  length (listeners sessionWorld) <= 1.
Proof.
  apply (reachable_holds_one_widget_and_listener sessionWorld).
  unfold sessionWorld. apply reachable_run. constructor.
Defined.

(** *** Notifications through the event loop *)

Lemma fold_left_bounded {A} (measure : World -> nat)
    (f : World -> A -> World) xs :
  (forall w x, measure (f w x) <= measure w) ->
  forall w, measure (fold_left f xs w) <= measure w.
Proof.
  intros Hf. induction xs as [|x xs IH]; intros w; cbn; [lia|].
  specialize (IH (f w x)). specialize (Hf w x). lia.
Qed.

Lemma notification_bounded (measure : World -> nat) e w :
  notification e = true ->
  (forall n w', (forall evt, e = WindowMessage evt -> n = FromWindow evt) ->
                (forall wid ty ev, e = SdkEvent wid ty ev ->
                                   exists ty' ev', n = FromSdk ty' ev') ->
                measure (deliver n w') <= measure w') ->
  measure (step e w) <= measure w.
Proof.
  intros Hn Hd.
  destruct e as [| | | | |wid ty ev|evt|]; try discriminate Hn; cbn [step].
  - unfold emit. destruct (widgets w !! wid); [|lia].
    apply fold_left_bounded. intros w' ty'.
    destruct (String.eqb ty' ty); [|lia].
    apply (Hd (FromSdk ty' ev) w'); [discriminate|]. eauto.
  - unfold postMessage. apply fold_left_bounded. intros w' _.
    apply (Hd (FromWindow evt) w'); [|discriminate].
    now intros evt' [= <-].
Qed.

(** X11. Whatever the widget emits and the window delivers, to however
    many observers and listeners, "Ready" and "In Progress" reach the
    backend at most once while their guards are not cleared, and so does
    "Submitted" as long as no accepted "completed" [sessionEnd] message
    is among the events. *)
Theorem notifications_report_once_per_guard es w :
  forallb notification es = true ->
  count_reports "Ready" (apex (run es w))
  <= count_reports "Ready" (apex w) + room (_didReady (comp w))
  /\ count_reports "In Progress" (apex (run es w))
     <= count_reports "In Progress" (apex w) + room (_didEnd (comp w))
  /\ (forallb (fun e => negb (completedEvent e)) es = true ->
      count_reports "Submitted" (apex (run es w))
      <= count_reports "Submitted" (apex w) + room (_didSubmit (comp w))).
Proof.
  revert w. induction es as [|e es IH]; intros w Hn; cbn [run fold_left].
  - repeat apply conj; intros; lia.
  - cbn in Hn. apply andb_true_iff in Hn as [He Hn].
    destruct (IH (step e w) Hn) as (IHr & IHe & IHs).
    fold (run es (step e w)).
    assert (Hr : count_reports "Ready" (apex (step e w))
                 + room (_didReady (comp (step e w)))
                 <= count_reports "Ready" (apex w) + room (_didReady (comp w))).
    { apply (notification_bounded
               (fun w => count_reports "Ready" (apex w)
                         + room (_didReady (comp w))) e w He).
      intros n w' _ _. apply deliver_ready. }
    assert (Hp : count_reports "In Progress" (apex (step e w))
                 + room (_didEnd (comp (step e w)))
                 <= count_reports "In Progress" (apex w)
                    + room (_didEnd (comp w))).
    { apply (notification_bounded
               (fun w => count_reports "In Progress" (apex w)
                         + room (_didEnd (comp w))) e w He).
      intros n w' _ _. apply deliver_in_progress. }
    repeat apply conj; [lia | lia |].
    intros Hc. cbn in Hc. apply andb_true_iff in Hc as [Hce Hc].
    apply negb_true_iff in Hce. specialize (IHs Hc).
    assert (Hs : count_reports "Submitted" (apex (step e w))
                 + room (_didSubmit (comp (step e w)))
                 <= count_reports "Submitted" (apex w)
                    + room (_didSubmit (comp w))).
    { apply (notification_bounded
               (fun w => count_reports "Submitted" (apex w)
                         + room (_didSubmit (comp w))) e w He).
      intros n w' Hwin Hsdk. apply deliver_submitted.
      destruct e as [| | | | |wid ty ev|evt|]; try discriminate He.
      - destruct (Hsdk wid ty ev eq_refl) as (ty' & ev' & ->). reflexivity.
      - rewrite (Hwin evt eq_refl). exact Hce. }
    lia.
Qed.

Lemma notifications_report_once_per_guard_witness :
  count_reports "Ready"
    (apex (run [ SdkEvent 0 "ready" {| payload_sessionEndType := None |};
                 WindowMessage (message None (Some "ready") None);
                 SdkEvent 0 "ready" {| payload_sessionEndType := None |} ]
               sessionWorld))
  <= count_reports "Ready" (apex sessionWorld)
     + room (_didReady (comp sessionWorld)).
Proof.
  apply (notifications_report_once_per_guard
           [ SdkEvent 0 "ready" {| payload_sessionEndType := None |};
             WindowMessage (message None (Some "ready") None);
             SdkEvent 0 "ready" {| payload_sessionEndType := None |} ]
           sessionWorld).
  reflexivity.
Defined.

Lemma deliver_without_record n w :
  Js.truthy (webformInstanceRecordId (comp w)) = false ->
  apex (deliver n w) = apex w
  /\ webformInstanceRecordId (comp (deliver n w))
     = webformInstanceRecordId (comp w).
Proof.
  intros Hr.
  assert (Hu : forall st f,
             webformInstanceRecordId (f (comp w))
             = webformInstanceRecordId (comp w) ->
             apex (updateStatus st (upd f w)) = apex w
             /\ webformInstanceRecordId (comp (updateStatus st (upd f w)))
                = webformInstanceRecordId (comp w)).
  { intros st f Hf. rewrite updateStatus_apex, updateStatus_comp. cbn.
    rewrite Hf, Hr. split; [apply app_nil_r | reflexivity]. }
  assert (Hu0 : forall st,
             apex (updateStatus st w) = apex w
             /\ webformInstanceRecordId (comp (updateStatus st w))
                = webformInstanceRecordId (comp w)).
  { intros st. rewrite updateStatus_apex, updateStatus_comp, Hr.
    split; [apply app_nil_r | reflexivity]. }
  assert (Hlog : forall st f l,
             webformInstanceRecordId (f (comp w))
             = webformInstanceRecordId (comp w) ->
             apex (updateStatus st (upd f (log l w))) = apex w
             /\ webformInstanceRecordId
                  (comp (updateStatus st (upd f (log l w))))
                = webformInstanceRecordId (comp w)).
  { intros st f l Hf. rewrite updateStatus_apex, updateStatus_comp. cbn.
    rewrite Hf, Hr. split; [apply app_nil_r | reflexivity]. }
  destruct n as [ty ev|evt].
  - unfold deliver, sdkHandler, markInProgressOnce. cbn zeta.
    cbn [comp log set_console].
    repeat match goal with
           | |- context [if ?b then _ else _] => destruct b
           end; try (split; reflexivity); apply Hlog; reflexivity.
  - unfold deliver, messageHandler_call, markInProgressOnce.
    destruct (data_of evt); [|split; reflexivity]. cbn zeta.
    repeat match goal with
           | |- context [if ?b then _ else _] => destruct b
           end; try (split; reflexivity);
      first [apply Hu0 | apply Hu; reflexivity].
Qed.

(** X12. While no tracking-record id is held, no widget event and no
    window message leads to a backend call.  This is the state
    handleBackToSelector leaves, so events of a session that was left
    cannot write to the backend. *)
Theorem notifications_without_record_are_silent es w :
  forallb notification es = true ->
  (Js.truthy (webformInstanceRecordId (comp w)) = false ->
   apex (run es w) = apex w)
  /\ apex (run es (handleBackToSelector w)) = apex w.
Proof.
  intros Hn.
  assert (Hgen : forall w0,
             Js.truthy (webformInstanceRecordId (comp w0)) = false ->
             apex (run es w0) = apex w0
             /\ webformInstanceRecordId (comp (run es w0))
                = webformInstanceRecordId (comp w0)).
  { clear w. induction es as [|e es IH]; intros w Hr; [split; reflexivity|].
    cbn in Hn. apply andb_true_iff in Hn as [He Hn].
    cbn [run fold_left]. fold (run es (step e w)).
    assert (Hstep : apex (step e w) = apex w
                    /\ webformInstanceRecordId (comp (step e w))
                       = webformInstanceRecordId (comp w)).
    { destruct e as [| | | | |wid ty ev|evt|]; try discriminate He; cbn [step].
      - unfold emit. destruct (widgets w !! wid); [|split; reflexivity].
        generalize (observers w0). intros obs. revert w Hr.
        induction obs as [|o obs IHo]; intros w Hr; cbn;
          [split; reflexivity|].
        destruct (String.eqb o ty).
        + destruct (deliver_without_record (FromSdk o ev) w Hr) as [Ha Hc].
          cbn [deliver] in Ha, Hc.
          destruct (IHo (sdkHandler o ev w)) as [Ha' Hc'];
            [now rewrite Hc|]. split; congruence.
        + now apply IHo.
      - unfold postMessage. generalize (listeners w). intros ls.
        revert w Hr. induction ls as [|l ls IHl]; intros w Hr; cbn;
          [split; reflexivity|].
        destruct (deliver_without_record (FromWindow evt) w Hr) as [Ha Hc].
        cbn [deliver] in Ha, Hc.
        destruct (IHl (messageHandler_call evt w)) as [Ha' Hc'];
          [now rewrite Hc|]. split; congruence. }
    destruct Hstep as [Ha Hc].
    destruct (IH Hn (step e w)) as [Ha' Hc']; [now rewrite Hc|].
    split; congruence. }
  split.
  - intros Hr. now apply Hgen.
  - destruct (Hgen (handleBackToSelector w)) as [Ha _]; [reflexivity|].
    rewrite Ha. rewrite handleBackToSelector_order. cbn.
    unfold disconnectedCallback. cbn zeta.
    destruct (messageHandler (comp w)); cbn;
      destruct (webformsInstance (comp w)); cbn; try reflexivity;
      match goal with
      | |- context [if ?b then _ else _] => destruct b
      end; reflexivity.
Qed.

Lemma notifications_without_record_are_silent_witness :
  apex (run [ SdkEvent 0 "submitted" {| payload_sessionEndType := None |};
              WindowMessage
                (message (Some "WebFormsPlayer") (Some "sessionEnd")
                         (Some "completed")) ]
            (handleBackToSelector sessionWorld))
  = apex sessionWorld.
Proof.
  apply (notifications_without_record_are_silent
           [ SdkEvent 0 "submitted" {| payload_sessionEndType := None |};
             WindowMessage
               (message (Some "WebFormsPlayer") (Some "sessionEnd")
                        (Some "completed")) ]
           sessionWorld).
  reflexivity.
Defined.

(** X13. When initializeWebform fails the view goes back to the selector
    and the banner names the failure.  Without a usable SDK nothing is
    created.  When the widget's [mount] throws, the widget that was just
    created stays alive and held and the listener stays registered. *)
Theorem initializeWebform_failure_returns_to_selector el u tok w :
  (docusignSDK (comp w) = None
   \/ (exists sdk, docusignSDK (comp w) = Some sdk
                   /\ webforms_is_function sdk = false) ->
   let w' := initializeWebform el u tok w in
   showSelector (comp w') = true
   /\ errorMessage (comp w')
      = Some "Failed to initialize webform: DocuSign SDK not properly initialized"
   /\ widgets w' = widgets w /\ listeners w' = listeners w
   /\ webformsInstance (comp w') = webformsInstance (comp w)
   /\ messageHandler (comp w') = messageHandler (comp w)
   /\ apex w' = apex w)
  /\ (forall sdk e,
         docusignSDK (comp w) = Some sdk ->
         webforms_is_function sdk = true ->
         mount_throws sdk = Some e ->
         let w' := initializeWebform el u tok w in
         showSelector (comp w') = true
         /\ errorMessage (comp w')
            = Some (String.append "Failed to initialize webform: "
                                  (Js.message_or_self (Js.Obj e)))
         /\ (exists x, widgets w' = widgets w ++ [x]
                       /\ destroyed x = false /\ mountedIn x = None
                       /\ url x = u)
         /\ webformsInstance (comp w') = Some (length (widgets w))
         /\ messageHandler (comp w') = Some (handlersCreated w)
         /\ In (handlersCreated w) (listeners w')
         /\ apex w' = apex w).
Proof.
  split.
  - intros H. cbn zeta. unfold initializeWebform. cbn zeta.
    cbn [comp log upd set_comp set_console docusignSDK].
    destruct H as [->|(sdk & -> & ->)]; cbn; repeat apply conj; reflexivity.
  - intros sdk e Hs Hf Hm. cbn zeta. unfold initializeWebform. cbn zeta.
    cbn [comp log upd set_comp set_console docusignSDK].
    rewrite Hs, Hf. unfold initializeWebform_try. cbn zeta. rewrite Hm.
    unfold eventTypes, on, addEventListener. cbn. rewrite !alter_last.
    destruct (existsb (Nat.eqb (handlersCreated w)) (listeners w)) eqn:He;
      cbn; repeat apply conj; try reflexivity;
      try (eexists; repeat apply conj; reflexivity).
    + apply List.existsb_exists in He as (h & Hin & E).
      apply Nat.eqb_eq in E. now subst.
    + apply List.in_or_app. right. now left.
Qed.

Lemma initializeWebform_failure_returns_to_selector_witness :
  showSelector
    (comp (initializeWebform WebformContainer (Some "https://x/f1")
                             (Some "t1") initialWorld))
  = true.
Proof.
  apply (proj1 (initializeWebform_failure_returns_to_selector
                  WebformContainer (Some "https://x/f1") (Some "t1")
                  initialWorld)).
  left. reflexivity.
Defined.

End BetterWebformLaunch.

(** ** webformRelaunch: the record, the retry and the load *)

Section WebformRelaunchMore.
Import WebformRelaunch WebformRelaunchSession WebformRelaunchReach.

Lemma relaunch_settle_last k p r container w :
  k = length (pending w) ->
  step (Settle k r container) (await p w)
  = match continue p r container w with
    | Some w' => w'
    | None => await p w
    end.
Proof.
  intros ->. cbn [step]. unfold await at 1 2. cbn [pending set_pending].
  rewrite (list_lookup_middle (pending w) [] p _ eq_refl).
  rewrite delete_middle, app_nil_r.
  replace (set_pending (pending w) (await p w)) with w
    by (destruct w; reflexivity).
  reflexivity.
Qed.

(** X14. A record whose status is not "In Progress" is stored and the
    loading indicator stops; no token is requested, nothing is mounted,
    the container is not rendered, and the static "not in progress" state
    shows exactly when no error message is set. *)
Theorem wiredRecord_other_status_mounts_nothing d w :
  Js.strictEq (rec_status d) "In Progress" = false ->
  let w' := wiredRecord (Some d) None w in
  status (comp w') = rec_status d
  /\ isLoading (comp w') = false
  /\ apex w' = apex w /\ pending w' = pending w /\ widgets w' = widgets w
  /\ pendingResume (comp w') = pendingResume (comp w)
  /\ canRender (comp w') = false
  /\ showNotInProgress (comp w') = negb (Js.truthy (errorMessage (comp w))).
Proof.
  intros H. cbn zeta. unfold wiredRecord. cbn zeta.
  cbn [comp upd set_comp status set_status set_formUrl set_instanceId].
  rewrite H. unfold canRender, showNotInProgress. cbn. rewrite H.
  rewrite andb_false_r, andb_true_r. repeat apply conj; reflexivity.
Qed.

Lemma wiredRecord_other_status_mounts_nothing_witness :
  showNotInProgress
    (comp (wiredRecord
             (Some {| rec_status := Some "Submitted";
                      rec_formUrl := Some "https://x/f1";
                      rec_instanceId := Some "i1" |})
             None (initialWorld (Some "rec1"))))
  = true.
Proof.
  destruct (wiredRecord_other_status_mounts_nothing
              {| rec_status := Some "Submitted";
                 rec_formUrl := Some "https://x/f1";
                 rec_instanceId := Some "i1" |}
              (initialWorld (Some "rec1")))
    as (_ & _ & _ & _ & _ & _ & _ & Hs); [reflexivity|].
  rewrite Hs. reflexivity.
Defined.

(** X15. resume asks the backend for a fresh token only when the SDK is
    loaded and the record has both a form URL and an instance id.  Before
    the SDK is loaded it only notes that a resume is pending and keeps the
    loading indicator on; with a field missing it stops with an error.  In
    no case does it touch the widgets. *)
Theorem resume_refreshes_only_when_ready caller w :
  let w' := resume caller w in
  let ready :=
    sdkLoaded (comp w) && Js.truthy (formUrl (comp w))
    && Js.truthy (instanceId (comp w)) in
  apex w'
  = (if ready then apex w ++ [refreshInstanceToken (recordId (comp w))]
     else apex w)
  /\ widgets w' = widgets w
  /\ webformsInstance (comp w') = webformsInstance (comp w)
  /\ (sdkLoaded (comp w) = false ->
      pendingResume (comp w') = true /\ isLoading (comp w') = true
      /\ errorMessage (comp w') = None)
  /\ (sdkLoaded (comp w) = true -> ready = false ->
      errorMessage (comp w')
      = Some "Missing form URL or Instance ID on the record"
      /\ isLoading (comp w') = false)
  /\ (ready = true ->
      pending w' = pending w ++ [AwaitRefresh caller]
      /\ isLoading (comp w') = true /\ errorMessage (comp w') = None).
Proof.
  cbn zeta. unfold resume. cbn zeta.
  cbn [comp upd set_comp sdkLoaded formUrl instanceId set_isLoading
       set_errorMessage].
  destruct (sdkLoaded (comp w)); cbn [negb andb].
  - destruct (Js.truthy (formUrl (comp w))),
             (Js.truthy (instanceId (comp w))); cbn [negb orb andb];
      try (destruct (resumed_fields
                       caller
                       (resume_catch
                          (Js.Obj (Js.new_Error
                                     "Missing form URL or Instance ID on the record"))
                          (upd (set_errorMessage None)
                               (upd (set_isLoading true) w))))
            as (_ & Hw & Ha & _ & _ & _ & Hl & He & Hi);
           rewrite Hw, Ha, Hl, He, Hi);
      repeat match goal with
             | |- _ /\ _ => split
             | |- _ -> _ => intros
             end; try reflexivity; try discriminate.
  - destruct (resumed_fields
                caller
                (upd (set_pendingResume true)
                     (upd (set_errorMessage None)
                          (upd (set_isLoading true) w))))
      as (Hc & Hw & Ha & _ & _ & _ & Hl & He & Hi).
    rewrite Hw, Ha, Hl, He, Hi.
    repeat match goal with
           | |- _ /\ _ => split
           | |- _ -> _ => intros
           end; try reflexivity; try discriminate.
    rewrite Hc. destruct caller; try reflexivity.
    unfold connectedCallback_finally. cbn.
    destruct (sdkLoadTimeoutId (comp w)) as [id|]; [|reflexivity].
    destruct (Nat.eqb id 0); reflexivity.
Qed.

(** X16. A resume that fails after the refresh was requested, because
    the backend rejects it, because it returns no token, or because the
    container is not in the template, leaves the widgets and the held
    instance as they were, stops the loading indicator and sets an error,
    which hides the container. *)
Theorem failed_refresh_keeps_the_widget k caller container w :
  pending w !! k = Some (AwaitRefresh caller) ->
  (forall e,
      let w' := step (Settle k (Rejected e) container) w in
      widgets w' = widgets w
      /\ webformsInstance (comp w') = webformsInstance (comp w)
      /\ apex w' = apex w
      /\ isLoading (comp w') = false
      /\ errorMessage (comp w')
         = Js.orElse (Js.orElse (Js.body_message_of e) (Js.message_of e))
                     (Some "Unexpected error resuming webform")
      /\ canRender (comp w') = false)
  /\ (forall refreshed,
         Js.truthy (res_instanceToken refreshed) = false ->
         let w' :=
           step (Settle k (Resolved (RInstance refreshed)) container) w in
         widgets w' = widgets w
         /\ webformsInstance (comp w') = webformsInstance (comp w)
         /\ apex w' = apex w
         /\ isLoading (comp w') = false
         /\ errorMessage (comp w')
            = Some "Failed to obtain a fresh instance token"
         /\ canRender (comp w') = false)
  /\ (forall refreshed,
         Js.truthy (res_instanceToken refreshed) = true ->
         let w' := step (Settle k (Resolved (RInstance refreshed)) None) w in
         widgets w' = widgets w
         /\ webformsInstance (comp w') = webformsInstance (comp w)
         /\ apex w' = apex w
         /\ isLoading (comp w') = false
         /\ errorMessage (comp w') = Some "Container not found"
         /\ canRender (comp w') = false).
Proof.
  intros Hp.
  assert (Hcatch : forall e w0,
             widgets w0 = widgets w -> apex w0 = apex w ->
             webformsInstance (comp w0) = webformsInstance (comp w) ->
             let w' := resumed caller (resume_catch e w0) in
             widgets w' = widgets w
             /\ webformsInstance (comp w') = webformsInstance (comp w)
             /\ apex w' = apex w
             /\ isLoading (comp w') = false
             /\ errorMessage (comp w')
                = Js.orElse (Js.orElse (Js.body_message_of e) (Js.message_of e))
                            (Some "Unexpected error resuming webform")
             /\ canRender (comp w') = false).
  { intros e w0 Hw Ha Hi. cbn zeta.
    destruct (resumed_fields caller (resume_catch e w0))
      as (Hc & Hw' & Ha' & _ & _ & _ & Hl & He & Hi').
    assert (Hcr : canRender (comp (resumed caller (resume_catch e w0)))
                  = false).
    { unfold canRender. rewrite He. cbn.
      rewrite (orElse_truthy _ (Some "Unexpected error resuming webform"))
        by reflexivity.
      reflexivity. }
    rewrite Hw', Ha', Hl, He, Hi', Hcr. cbn.
    repeat apply conj; auto. }
  repeat apply conj.
  - intros e. cbn zeta. cbn [step]. rewrite Hp.
    cbn [continue resume_settled]. apply Hcatch; reflexivity.
  - intros refreshed Ht. cbn zeta. cbn [step]. rewrite Hp.
    cbn [continue resume_settled]. unfold resume_refreshed. cbn zeta.
    cbn [comp upd set_comp instanceToken set_instanceToken set_formUrl
         set_instanceId].
    rewrite Ht. cbn [negb].
    apply (Hcatch (Js.Obj (Js.new_Error
                             "Failed to obtain a fresh instance token")));
      reflexivity.
  - intros refreshed Ht. cbn zeta. cbn [step]. rewrite Hp.
    cbn [continue resume_settled]. unfold resume_refreshed. cbn zeta.
    cbn [comp upd set_comp instanceToken set_instanceToken set_formUrl
         set_instanceId].
    rewrite Ht. cbn [negb].
    apply (Hcatch (Js.Obj (Js.new_Error "Container not found")));
      reflexivity.
Qed.

Lemma failed_refresh_keeps_the_widget_witness :
  let w := step Reload resumedWorld in
  widgets (step (Settle 0 (Rejected Js.Null) (Some WebformContainer)) w)
  = widgets w.
Proof.
  cbn zeta.
  apply (proj1 (failed_refresh_keeps_the_widget
                  0 FromReload (Some WebformContainer)
                  (step Reload resumedWorld) ltac:(vm_compute; reflexivity))
               Js.Null).
Defined.

Lemma resume_refreshes_only_when_ready_witness :
  apex (resume FromReload resumedWorld)
  = apex resumedWorld ++ [refreshInstanceToken (Some "rec1")].
Proof.
  destruct (resume_refreshes_only_when_ready FromReload resumedWorld)
    as (Ha & _).
  rewrite Ha. vm_compute. reflexivity.
Defined.

(** *** The load timer *)

Lemma finally_disarms id w :
  sdkLoadTimeoutId (comp w) = Some id ->
  id <> 0 ->
  connectedCallback_finally w
  = upd (set_sdkLoadTimeoutId None) (clearTimeout id w).
Proof.
  intros Hid Hne. unfold connectedCallback_finally. rewrite Hid.
  destruct (Nat.eqb id 0) eqn:E; [|reflexivity].
  apply Nat.eqb_eq in E. contradiction.
Qed.

(** X17. When the script and the SDK load in turn and no resume is
    pending, the SDK is stored, the timer that was started is cleared and
    forgotten, and its firing afterwards changes nothing; the error
    message and the loading indicator are as before the load. *)
Theorem timely_load_disarms_the_timer sdk w :
  pendingResume (comp w) = false ->
  let id := S (timersCreated w) in
  let w' := run (load (length (pending w)) sdk) w in
  sdkLoaded (comp w') = true
  /\ ds (comp w') = sdk
  /\ sdkLoadTimeoutId (comp w') = None
  /\ ~ In id (timers w')
  /\ step (TimerFires id) w' = w'
  /\ errorMessage (comp w') = errorMessage (comp w)
  /\ isLoading (comp w') = isLoading (comp w)
  /\ apex w' = apex w /\ pending w' = pending w.
Proof.
  intros Hn. cbn zeta. unfold run, load. cbn [fold_left].
  change (step Connected w) with (connectedCallback w).
  unfold connectedCallback, setTimeout. cbv beta iota zeta.
  rewrite relaunch_settle_last by reflexivity.
  cbn [continue connectedCallback_scriptLoaded].
  rewrite relaunch_settle_last by reflexivity.
  cbn [continue connectedCallback_sdkLoaded]. cbn zeta.
  set (w2 := upd (set_sdkLoaded true) _).
  assert (H2 : pendingResume (comp w2) = false
               /\ sdkLoadTimeoutId (comp w2) = Some (S (timersCreated w)))
    by (subst w2; cbn; auto).
  destruct H2 as [Hn2 Hid2]. rewrite Hn2.
  rewrite (finally_disarms (S (timersCreated w))) by (auto; congruence).
  set (w' := upd (set_sdkLoadTimeoutId None) _).
  assert (Hnot : ~ In (S (timersCreated w)) (timers w')).
  { subst w'. cbn [timers upd set_comp]. apply clearTimeout_removes. }
  repeat apply conj; try (subst w' w2; reflexivity); [exact Hnot|].
  cbn [step]. unfold fire.
  destruct (existsb (Nat.eqb (S (timersCreated w))) (timers w')) eqn:E;
    [|reflexivity].
  exfalso. apply Hnot. apply List.existsb_exists in E as (t & Hin & Et).
  apply Nat.eqb_eq in Et. now subst.
Qed.

Lemma timely_load_disarms_the_timer_witness :
  sdkLoadTimeoutId
    (comp (run (load 0 (Some vendorSdk)) (initialWorld (Some "rec1"))))
  = None.
Proof.
  apply (timely_load_disarms_the_timer
           (Some vendorSdk) (initialWorld (Some "rec1"))).
  reflexivity.
Defined.

(** X18. When loading the script or the SDK fails, the banner says so
    with the error's message, or with the reason itself when it has none
    ("null" and "undefined" for the nullish ones); the loading indicator
    stops, the timer is cleared and forgotten, and the SDK stays marked
    as it was. *)
Theorem failed_load_reports_and_disarms k p e id w :
  pending w !! k = Some p ->
  p = AwaitLoadScript \/ p = AwaitLoadDocuSign ->
  sdkLoadTimeoutId (comp w) = Some id ->
  id <> 0 ->
  let w' := step (Settle k (Rejected e) None) w in
  errorMessage (comp w')
  = Some (String.append
            "Failed to load DocuSign SDK: "
            match e with
            | Js.Undefined => "undefined"
            | Js.Null => "null"
            | Js.Obj err =>
                if Js.truthy (Js.message err)
                then match Js.message err with
                     | Some m => m
                     | None => ""
                     end
                else Js.asString err
            end)
  /\ isLoading (comp w') = false
  /\ sdkLoaded (comp w') = sdkLoaded (comp w)
  /\ sdkLoadTimeoutId (comp w') = None
  /\ ~ In id (timers w')
  /\ apex w' = apex w /\ widgets w' = widgets w.
Proof.
  intros Hp Hk Hid Hne. cbn zeta. cbn [step]. rewrite Hp.
  assert (Hc : continue p (Rejected e) None
                        (set_pending (delete k (pending w)) w)
               = Some (connectedCallback_finally
                         (connectedCallback_catch
                            e (set_pending (delete k (pending w)) w))))
    by (destruct Hk as [-> | ->]; reflexivity).
  rewrite Hc. rewrite (finally_disarms id) by (cbn; assumption).
  repeat apply conj; try reflexivity.
  - cbn. do 2 f_equal. destruct e as [| |err]; try reflexivity.
    unfold Js.message_or_self, Js.truthy.
    destruct (Js.message err) as [m|]; [|reflexivity].
    destruct (String.eqb m ""); reflexivity.
  - cbn [timers upd set_comp]. apply clearTimeout_removes.
Qed.

Lemma failed_load_reports_and_disarms_witness :
  errorMessage
    (comp (step (Settle 0 (Rejected Js.Null) None)
                (step Connected (initialWorld (Some "rec1")))))
  = Some "Failed to load DocuSign SDK: null".
Proof.
  apply (failed_load_reports_and_disarms
           0 AwaitLoadScript Js.Null 1
           (step Connected (initialWorld (Some "rec1"))));
    [reflexivity | left; reflexivity | reflexivity | discriminate].
Defined.

(** *** One live widget *)

Lemma same_widgets_refl w : same_widgets w w.
Proof. split; reflexivity. Qed.

Lemma same_widgets_trans w1 w2 w3 :
  same_widgets w1 w2 -> same_widgets w2 w3 -> same_widgets w1 w3.
Proof. intros [a b] [c d]. split; congruence. Qed.

Lemma held_same_widgets w w' :
  same_widgets w w' -> live_widget_held w -> live_widget_held w'.
Proof.
  intros [Hw Hi] H i x. rewrite Hw, Hi. apply H.
Qed.

Ltac frame := split; reflexivity.

Lemma finally_same_widgets w : same_widgets w (connectedCallback_finally w).
Proof.
  unfold connectedCallback_finally.
  destruct (sdkLoadTimeoutId (comp w)) as [id|]; [|frame].
  destruct (Nat.eqb id 0); frame.
Qed.

Lemma resumed_same_widgets caller w : same_widgets w (resumed caller w).
Proof.
  destruct caller; cbn; [apply finally_same_widgets | frame | frame].
Qed.

Lemma resume_same_widgets caller w : same_widgets w (resume caller w).
Proof.
  unfold resume. cbn zeta.
  repeat match goal with
         | |- context [if ?b then _ else _] => destruct b
         end;
    try (eapply same_widgets_trans; [|apply resumed_same_widgets]); frame.
Qed.

Lemma relaunch_updateStatus_same_widgets st w :
  same_widgets w (updateStatus st w).
Proof. frame. Qed.

Lemma relaunch_sdkHandler_same_widgets evt payload w :
  same_widgets w (sdkHandler evt payload w).
Proof.
  unfold sdkHandler, markInProgressOnce. cbn zeta.
  repeat match goal with
         | |- context [if ?b then _ else _] => destruct b
         end; frame.
Qed.

Lemma relaunch_emit_same_widgets wid evt payload w :
  same_widgets w (emit wid evt payload w).
Proof.
  unfold emit. destruct (widgets w !! wid) as [x|]; [|frame].
  generalize (observers x). intros obs. revert w.
  induction obs as [|o obs IH]; intros w; cbn; [frame|].
  eapply same_widgets_trans; [|apply IH].
  destruct (String.eqb o evt); [apply relaunch_sdkHandler_same_widgets|frame].
Qed.

(** [mount] either creates nothing or appends one widget and holds it. *)
Lemma mount_widgets el u tok w :
  same_widgets w (fst (mount el u tok w))
  \/ (exists x, widgets (fst (mount el u tok w)) = widgets w ++ [x])
     /\ webformsInstance (comp (fst (mount el u tok w)))
        = Some (length (widgets w)).
Proof.
  unfold mount. cbn zeta.
  cbn [comp upd set_comp ds set_didEnd set_didSubmit].
  destruct (ds (comp w)) as [sdk|]; [|left; frame].
  destruct (webforms_is_function sdk); [|left; frame].
  right. unfold eventTypes, on. cbn. rewrite !alter_last.
  destruct (mount_throws sdk); cbn; rewrite ?alter_last;
    (split; [eexists; reflexivity | reflexivity]).
Qed.

Lemma held_after_mount el u tok w :
  no_live_widget w -> live_widget_held (fst (mount el u tok w)).
Proof.
  intros Hn. destruct (mount_widgets el u tok w) as [[Hw Hi]|[(x & Hw) Hi]].
  - intros i y Hy Hf Hd. rewrite Hw in Hy.
    rewrite (Hn i y Hy Hf) in Hd. discriminate.
  - intros i y Hy Hf Hd. rewrite Hi. rewrite Hw in Hy.
    destruct (decide (i < length (widgets w))) as [Hlt|Hge].
    + rewrite lookup_app_l in Hy by exact Hlt.
      rewrite (Hn i y Hy Hf) in Hd. discriminate.
    + apply lookup_lt_Some in Hy. rewrite length_app in Hy. cbn in Hy.
      f_equal. lia.
Qed.

Lemma resume_refreshed_held refreshed container w :
  live_widget_held w ->
  live_widget_held (resume_refreshed refreshed container w).
Proof.
  intros H. unfold resume_refreshed. cbn zeta.
  set (w0 := upd _ (upd _ (upd _ w))).
  assert (H0 : same_widgets w w0) by (subst w0; frame).
  assert (Hh0 : live_widget_held w0) by (eapply held_same_widgets; eauto).
  clearbody w0. clear H H0 w.
  destruct (negb (Js.truthy (instanceToken (comp w0)))).
  { eapply held_same_widgets; [|exact Hh0]. frame. }
  destruct container as [el|].
  2: { eapply held_same_widgets; [|exact Hh0]. frame. }
  set (w1 := match webformsInstance (comp w0) with
             | Some wid =>
                 if has_destroy wid w0
                 then upd (set_webformsInstance None) (destroy wid w0)
                 else w0
             | None => w0
             end).
  assert (Hn : no_live_widget w1).
  { subst w1. intros i x Hx Hf.
    destruct (destroyed x) eqn:Hd; [reflexivity|]. exfalso.
    destruct (webformsInstance (comp w0)) as [wid|] eqn:Hi.
    - unfold has_destroy in Hx.
      destruct (widgets w0 !! wid) as [x0|] eqn:Hx0.
      + destruct (destroy_is_function x0) eqn:Hf0.
        * cbn in Hx. destruct (decide (wid = i)) as [->|Hne].
          -- rewrite list_lookup_alter_eq, Hx0 in Hx. cbn in Hx.
             injection Hx as <-. discriminate Hd.
          -- rewrite list_lookup_alter_ne in Hx by exact Hne.
             pose proof (Hh0 i x Hx Hf Hd). congruence.
        * pose proof (Hh0 i x Hx Hf Hd) as Hi'.
          assert (i = wid) by congruence. subst i. congruence.
      + pose proof (Hh0 i x Hx Hf Hd) as Hi'.
        assert (i = wid) by congruence. subst i. congruence.
    - pose proof (Hh0 i x Hx Hf Hd). congruence. }
  clearbody w1.
  pose proof (held_after_mount el (formUrl (comp w1)) (instanceToken (comp w1))
                               w1 Hn) as Hm.
  destruct (mount el (formUrl (comp w1)) (instanceToken (comp w1)) w1)
    as [w2 [e|]]; cbn [fst] in Hm;
    (eapply held_same_widgets; [|exact Hm]); frame.
Qed.

Lemma relaunch_step_held e w :
  live_widget_held w -> live_widget_held (step e w).
Proof.
  intros H. destruct e; cbn [step].
  - eapply held_same_widgets; [|exact H]. frame.
  - eapply held_same_widgets; [|exact H]. unfold wiredRecord.
    destruct wireError; [frame|]. destruct wireData; [|frame]. cbn zeta.
    repeat match goal with
           | |- context [if ?b then _ else _] => destruct b
           end; try frame.
    eapply same_widgets_trans; [|apply resume_same_widgets]. frame.
  - eapply held_same_widgets; [|exact H]. apply resume_same_widgets.
  - eapply held_same_widgets; [|exact H]. unfold fire, sdkLoadTimeout.
    repeat match goal with
           | |- context [if ?b then _ else _] => destruct b
           end; frame.
  - eapply held_same_widgets; [|exact H]. apply relaunch_emit_same_widgets.
  - destruct (pending w !! k) as [p|]; [|exact H].
    set (w0 := set_pending (delete k (pending w)) w).
    assert (H0 : live_widget_held w0)
      by (eapply held_same_widgets; [|exact H]; frame).
    clearbody w0.
    destruct p; cbn [continue].
    + eapply held_same_widgets; [|exact H0].
      unfold connectedCallback_scriptLoaded. destruct r; [frame|].
      eapply same_widgets_trans; [|apply finally_same_widgets]. frame.
    + unfold connectedCallback_sdkLoaded.
      destruct r as [[| sdk | |]|e]; try exact H.
      * cbn zeta.
        destruct (pendingResume
                    (comp (upd (set_sdkLoaded true) (upd (set_ds sdk) w0)))).
        -- eapply held_same_widgets; [|exact H0].
           eapply same_widgets_trans; [|apply resume_same_widgets]. frame.
        -- eapply held_same_widgets; [|exact H0].
           eapply same_widgets_trans; [|apply finally_same_widgets]. frame.
      * eapply held_same_widgets; [|exact H0].
        eapply same_widgets_trans; [|apply finally_same_widgets]. frame.
    + unfold resume_settled. destruct r as [[| | refreshed |]|e]; try exact H.
      * eapply held_same_widgets; [apply resumed_same_widgets|].
        now apply resume_refreshed_held.
      * eapply held_same_widgets; [|exact H0].
        eapply same_widgets_trans; [|apply resumed_same_widgets]. frame.
    + eapply held_same_widgets; [|exact H0]. destruct r; frame.
  - eapply held_same_widgets; [|exact H]. frame.
  - eapply held_same_widgets; [|exact H]. frame.
Qed.

(** X19. In every world the relaunch component can reach, at most one
    widget is alive, and it is the instance the component holds: a retry
    destroys the previous widget before it mounts the next. *)
Theorem relaunch_holds_one_widget rid w :
  reachable rid w ->
  live_widget_held w
  /\ (forall i j x y,
         widgets w !! i = Some x -> widgets w !! j = Some y ->
         destroy_is_function x = true -> destroyed x = false ->
         destroy_is_function y = true -> destroyed y = false ->
         i = j).
Proof.
  intros Hr.
  assert (H : live_widget_held w).
  { induction Hr as [|e w _ IH].
    - intros i x Hx. discriminate Hx.
    - now apply relaunch_step_held. }
  split; [exact H|].
  intros i j x y Hx Hy Hxf Hxd Hyf Hyd.
  pose proof (H i x Hx Hxf Hxd). pose proof (H j y Hy Hyf Hyd). congruence.
Qed.

Lemma relaunch_reachable_run rid es w :
  reachable rid w -> reachable rid (run es w).
Proof.
  revert w. induction es as [|e es IH]; intros w Hw; cbn; [exact Hw|].
  apply IH. now constructor.
Qed.

Lemma relaunch_holds_one_widget_witness :
  live_widget_held
    (run [ Reload;
           Settle 0 (Resolved (RInstance tokenOnly)) (Some WebformContainer) ]
         resumedWorld).
Proof.
  apply (relaunch_holds_one_widget (Some "rec1")).
  apply relaunch_reachable_run. unfold resumedWorld.
  apply relaunch_reachable_run. constructor.
Defined.

(** *** What the relaunch component calls *)

Lemma own_refl w : onlyOwnCalls w w.
Proof.
  split; [reflexivity|]. exists []. split; [symmetry; apply app_nil_r|].
  constructor.
Qed.

Lemma own_trans w1 w2 w3 :
  onlyOwnCalls w1 w2 -> onlyOwnCalls w2 w3 -> onlyOwnCalls w1 w3.
Proof.
  intros [Hr (l & Ha & Hl)] [Hr' (l' & Ha' & Hl')]. split; [congruence|].
  exists (l ++ l'). split.
  - rewrite Ha', Ha. now rewrite app_assoc.
  - apply List.Forall_app. split; [exact Hl|]. now rewrite <- Hr.
Qed.

Lemma own_quiet w w' :
  recordId (comp w') = recordId (comp w) -> apex w' = apex w ->
  onlyOwnCalls w w'.
Proof.
  intros Hr Ha. split; [exact Hr|]. exists [].
  split; [rewrite Ha; symmetry; apply app_nil_r | constructor].
Qed.

Lemma own_one w w' c :
  recordId (comp w') = recordId (comp w) -> apex w' = apex w ++ [c] ->
  ownCall (recordId (comp w)) c ->
  onlyOwnCalls w w'.
Proof.
  intros Hr Ha Hc. split; [exact Hr|]. exists [c]. split; [exact Ha|].
  constructor; [exact Hc | constructor].
Qed.

Ltac quiet := apply own_quiet; reflexivity.

Lemma own_finally w : onlyOwnCalls w (connectedCallback_finally w).
Proof.
  unfold connectedCallback_finally.
  destruct (sdkLoadTimeoutId (comp w)) as [id|]; [|quiet].
  destruct (Nat.eqb id 0); quiet.
Qed.

Lemma own_resumed caller w : onlyOwnCalls w (resumed caller w).
Proof. destruct caller; cbn; [apply own_finally | quiet | quiet]. Qed.

Lemma own_resume caller w : onlyOwnCalls w (resume caller w).
Proof.
  unfold resume. cbn zeta.
  destruct (negb (sdkLoaded
                    (comp (upd (set_errorMessage None)
                               (upd (set_isLoading true) w))))).
  { eapply own_trans; [|apply own_resumed]. quiet. }
  destruct (negb (Js.truthy _) || negb (Js.truthy _)).
  { eapply own_trans; [|apply own_resumed]. quiet. }
  eapply own_one; [reflexivity | reflexivity |]. left. reflexivity.
Qed.

Lemma own_sdkHandler evt payload w : onlyOwnCalls w (sdkHandler evt payload w).
Proof.
  unfold sdkHandler, markInProgressOnce, updateStatus. cbn zeta.
  repeat match goal with
         | |- context [if ?b then _ else _] => destruct b
         end; try quiet;
    (eapply own_one; [reflexivity | reflexivity |]).
  - right. left. reflexivity.
  - right. right. reflexivity.
Qed.

Lemma own_emit wid evt payload w : onlyOwnCalls w (emit wid evt payload w).
Proof.
  unfold emit. destruct (widgets w !! wid) as [x|]; [|apply own_refl].
  generalize (observers x). intros obs. revert w.
  induction obs as [|o obs IH]; intros w; cbn; [apply own_refl|].
  eapply own_trans; [|apply IH].
  destruct (String.eqb o evt); [apply own_sdkHandler | apply own_refl].
Qed.

Lemma mount_quiet el u tok w :
  recordId (comp (fst (mount el u tok w))) = recordId (comp w)
  /\ apex (fst (mount el u tok w)) = apex w.
Proof.
  unfold mount. cbn zeta.
  cbn [comp upd set_comp ds set_didEnd set_didSubmit].
  destruct (ds (comp w)) as [sdk|]; [|split; reflexivity].
  destruct (webforms_is_function sdk); [|split; reflexivity].
  destruct (mount_throws sdk); split; reflexivity.
Qed.

Lemma own_resume_refreshed refreshed container w :
  onlyOwnCalls w (resume_refreshed refreshed container w).
Proof.
  unfold resume_refreshed. cbn zeta.
  set (w0 := upd _ (upd _ (upd _ w))).
  assert (H0 : recordId (comp w0) = recordId (comp w) /\ apex w0 = apex w)
    by (subst w0; split; reflexivity).
  clearbody w0. destruct H0 as [Hr0 Ha0].
  apply own_quiet.
  - rewrite <- Hr0.
    destruct (negb (Js.truthy (instanceToken (comp w0)))); [reflexivity|].
    destruct container as [el|]; [|reflexivity].
    set (w1 := match webformsInstance (comp w0) with
               | Some wid =>
                   if has_destroy wid w0
                   then upd (set_webformsInstance None) (destroy wid w0)
                   else w0
               | None => w0
               end).
    assert (H1 : recordId (comp w1) = recordId (comp w0)).
    { subst w1. destruct (webformsInstance (comp w0)) as [wid|];
        [destruct (has_destroy wid w0)|]; reflexivity. }
    clearbody w1. rewrite <- H1.
    pose proof (proj1 (mount_quiet el (formUrl (comp w1))
                                   (instanceToken (comp w1)) w1)) as Hm.
    destruct (mount el (formUrl (comp w1)) (instanceToken (comp w1)) w1)
      as [w2 [e|]]; cbn [fst] in Hm; rewrite <- Hm; reflexivity.
  - rewrite <- Ha0.
    destruct (negb (Js.truthy (instanceToken (comp w0)))); [reflexivity|].
    destruct container as [el|]; [|reflexivity].
    set (w1 := match webformsInstance (comp w0) with
               | Some wid =>
                   if has_destroy wid w0
                   then upd (set_webformsInstance None) (destroy wid w0)
                   else w0
               | None => w0
               end).
    assert (H1 : apex w1 = apex w0).
    { subst w1. destruct (webformsInstance (comp w0)) as [wid|];
        [destruct (has_destroy wid w0)|]; reflexivity. }
    clearbody w1. rewrite <- H1.
    pose proof (proj2 (mount_quiet el (formUrl (comp w1))
                                   (instanceToken (comp w1)) w1)) as Hm.
    destruct (mount el (formUrl (comp w1)) (instanceToken (comp w1)) w1)
      as [w2 [e|]]; cbn [fst] in Hm; rewrite <- Hm; reflexivity.
Qed.

Lemma own_step e w : keepsRecordId e = true -> onlyOwnCalls w (step e w).
Proof.
  intros Hk. destruct e; cbn [step]; [| | | | | | quiet | discriminate Hk].
  - quiet.
  - unfold wiredRecord. destruct wireError; [quiet|].
    destruct wireData; [|quiet]. cbn zeta.
    repeat match goal with
           | |- context [if ?b then _ else _] => destruct b
           end; try quiet.
    eapply own_trans; [|apply own_resume]. quiet.
  - apply own_resume.
  - unfold fire, sdkLoadTimeout.
    repeat match goal with
           | |- context [if ?b then _ else _] => destruct b
           end; quiet.
  - apply own_emit.
  - destruct (pending w !! k) as [p|]; [|apply own_refl].
    set (w0 := set_pending (delete k (pending w)) w).
    assert (H0 : onlyOwnCalls w w0) by (subst w0; quiet).
    clearbody w0.
    destruct p; cbn [continue].
    + eapply own_trans; [exact H0|].
      unfold connectedCallback_scriptLoaded. destruct r; [quiet|].
      eapply own_trans; [|apply own_finally]. quiet.
    + unfold connectedCallback_sdkLoaded.
      destruct r as [[| sdk | |]|e]; try apply own_refl.
      * cbn zeta.
        destruct (pendingResume
                    (comp (upd (set_sdkLoaded true) (upd (set_ds sdk) w0))));
          (eapply own_trans; [exact H0|]).
        -- eapply own_trans; [|apply own_resume]. quiet.
        -- eapply own_trans; [|apply own_finally]. quiet.
      * eapply own_trans; [exact H0|].
        eapply own_trans; [|apply own_finally]. quiet.
    + unfold resume_settled.
      destruct r as [[| | refreshed |]|e]; try apply own_refl;
        (eapply own_trans; [exact H0|]).
      * eapply own_trans; [apply own_resume_refreshed | apply own_resumed].
      * eapply own_trans; [|apply own_resumed]. quiet.
    + eapply own_trans; [exact H0|]. destruct r; quiet.
Qed.

Lemma own_run es w :
  forallb keepsRecordId es = true -> onlyOwnCalls w (run es w).
Proof.
  revert w. induction es as [|e es IH]; intros w Hk; cbn; [apply own_refl|].
  cbn in Hk. apply andb_prop in Hk as [He Hes].
  eapply own_trans; [apply own_step, He | apply IH, Hes].
Qed.

(** The calls of one step carry the record id held when it begins. *)
Lemma step_calls e w :
  exists l, apex (step e w) = apex w ++ l
            /\ Forall (ownCall (recordId (comp w))) l.
Proof.
  destruct (keepsRecordId e) eqn:Hk.
  - exact (proj2 (own_step e w Hk)).
  - destruct e; try discriminate Hk. exists []. split; [|constructor].
    cbn. symmetry. apply app_nil_r.
Qed.

Lemma step_recordId e w :
  In (recordId (comp (step e w))) (recordIds [e] w).
Proof.
  destruct (keepsRecordId e) eqn:Hk.
  - left. symmetry. exact (proj1 (own_step e w Hk)).
  - destruct e; try discriminate Hk. right. left. reflexivity.
Qed.

Lemma recordIds_cons e es w rid :
  In rid (recordIds es (step e w)) -> In rid (recordIds (e :: es) w).
Proof.
  unfold recordIds. intros [H | H].
  - rewrite <- H. pose proof (step_recordId e w) as [Hs | Hs].
    + left. exact Hs.
    + right. cbn [flat_map]. apply List.in_or_app. left.
      unfold recordIds in Hs. cbn [flat_map] in Hs.
      rewrite app_nil_r in Hs. exact Hs.
  - right. cbn [flat_map]. apply List.in_or_app. right. exact H.
Qed.

Lemma run_calls es w :
  exists l, apex (run es w) = apex w ++ l
            /\ Forall (ownCallFor (recordIds es w)) l.
Proof.
  revert w. induction es as [|e es IH]; intros w; cbn [run fold_left].
  - exists []. split; [symmetry; apply app_nil_r | constructor].
  - destruct (step_calls e w) as (l1 & Ha1 & Hl1).
    destruct (IH (step e w)) as (l2 & Ha2 & Hl2).
    exists (l1 ++ l2). split.
    + unfold run in Ha2. rewrite Ha2, Ha1. now rewrite app_assoc.
    + apply List.Forall_app. split.
      * eapply List.Forall_impl; [|exact Hl1]. intros c Hc.
        exists (recordId (comp w)). split; [left; reflexivity | exact Hc].
      * eapply List.Forall_impl; [|exact Hl2]. intros c (rid & Hin & Hc).
        exists rid. split; [now apply recordIds_cons | exact Hc].
Qed.

Lemma count_reports_own rids st l :
  Forall (ownCallFor rids) l ->
  st <> "Submitted" -> st <> "In Progress" ->
  count_reports st l = 0.
Proof.
  intros Hl Hs Hp. unfold count_reports.
  induction Hl as [|c l Hc _ IH]; [reflexivity|]. cbn [List.filter].
  destruct Hc as (rid & _ & [-> | [-> | ->]]); cbn [reports]; [exact IH | |].
  - destruct (String.eqb "Submitted" st) eqn:E; [|exact IH].
    apply String.eqb_eq in E. congruence.
  - destruct (String.eqb "In Progress" st) eqn:E; [|exact IH].
    apply String.eqb_eq in E. congruence.
Qed.

(** X20. Every backend call the relaunch component makes is a token
    refresh or a report of "Submitted" or "In Progress", and it is made
    for the record id the component holds when the event that causes it
    begins: the id it started with or one the host page has written
    since.  It never reports "Ready" and never creates a session or a
    record.  As long as the host page does not write the record id, the
    id stays and every call is for that record. *)
Theorem relaunch_calls_only_for_its_record es w :
  (exists l, apex (run es w) = apex w ++ l
             /\ Forall (ownCallFor (recordIds es w)) l)
  /\ count_reports "Ready" (apex (run es w)) = count_reports "Ready" (apex w)
  /\ (forall e, exists l, apex (step e w) = apex w ++ l
                          /\ Forall (ownCall (recordId (comp w))) l)
  /\ (forallb keepsRecordId es = true -> onlyOwnCalls w (run es w)).
Proof.
  repeat apply conj.
  - apply run_calls.
  - destruct (run_calls es w) as (l & Ha & Hl). rewrite Ha.
    unfold count_reports. rewrite List.filter_app, length_app.
    fold (count_reports "Ready" l).
    rewrite (count_reports_own (recordIds es w)) by (auto; discriminate).
    lia.
  - intros e. apply step_calls.
  - apply own_run.
Qed.

Lemma relaunch_calls_only_for_its_record_witness :
  onlyOwnCalls
    resumedWorld
    (run [ SdkEvent 0 "submitted" {| payload_sessionEndType := None |};
           Elapse 1000;
           SdkEvent 0 "sessionEnd" {| payload_sessionEndType := None |} ]
         resumedWorld).
Proof.
  apply (relaunch_calls_only_for_its_record
           [ SdkEvent 0 "submitted" {| payload_sessionEndType := None |};
             Elapse 1000;
             SdkEvent 0 "sessionEnd" {| payload_sessionEndType := None |} ]
           resumedWorld).
  reflexivity.
Defined.

(** X21. In a mounted relaunch session, however often the widget emits
    its events, "Submitted" and "In Progress" are each reported at most
    once, and [mount] starts every session with both guards clear. *)
Theorem relaunch_session_reports_once es w :
  forallb notification es = true ->
  count_reports "Submitted" (apex (run es w))
  <= count_reports "Submitted" (apex w) + room (_didSubmit (comp w))
  /\ count_reports "In Progress" (apex (run es w))
     <= count_reports "In Progress" (apex w) + room (_didEnd (comp w))
  /\ (forall el u tok w0,
         _didSubmit (comp (fst (mount el u tok w0))) = false
         /\ _didEnd (comp (fst (mount el u tok w0))) = false).
Proof.
  intros Hn. repeat apply conj.
  - revert w. induction es as [|e es IH]; intros w; cbn [run fold_left];
      [lia|].
    cbn in Hn. apply andb_true_iff in Hn as [He Hn].
    specialize (IH Hn (step e w)). fold (run es (step e w)).
    enough (count_reports "Submitted" (apex (step e w))
            + room (_didSubmit (comp (step e w)))
            <= count_reports "Submitted" (apex w)
               + room (_didSubmit (comp w))) by lia.
    destruct e; try discriminate He. cbn [step]. unfold emit.
    destruct (widgets w !! wid) as [x|]; [|lia].
    generalize (observers x). intros obs. clear IH. revert w.
    induction obs as [|o obs IHo]; intros w; cbn; [lia|].
    specialize (IHo (if String.eqb o evt then sdkHandler o payload w else w)).
    destruct (String.eqb o evt); [|exact IHo].
    pose proof (relaunch_handler_submitted (o, payload) w) as Hh.
    cbn [fst snd] in Hh. lia.
  - revert w. induction es as [|e es IH]; intros w; cbn [run fold_left];
      [lia|].
    cbn in Hn. apply andb_true_iff in Hn as [He Hn].
    specialize (IH Hn (step e w)). fold (run es (step e w)).
    enough (count_reports "In Progress" (apex (step e w))
            + room (_didEnd (comp (step e w)))
            <= count_reports "In Progress" (apex w)
               + room (_didEnd (comp w))) by lia.
    destruct e; try discriminate He. cbn [step]. unfold emit.
    destruct (widgets w !! wid) as [x|]; [|lia].
    generalize (observers x). intros obs. clear IH. revert w.
    induction obs as [|o obs IHo]; intros w; cbn; [lia|].
    specialize (IHo (if String.eqb o evt then sdkHandler o payload w else w)).
    destruct (String.eqb o evt); [|exact IHo].
    pose proof (relaunch_handler_in_progress (o, payload) w) as Hh.
    cbn [fst snd] in Hh. lia.
  - intros el u tok w0. unfold mount. cbn zeta.
    cbn [comp upd set_comp ds set_didEnd set_didSubmit].
    destruct (ds (comp w0)) as [sdk|]; [|split; reflexivity].
    destruct (webforms_is_function sdk); [|split; reflexivity].
    destruct (mount_throws sdk); split; reflexivity.
Qed.

Lemma relaunch_session_reports_once_witness :
  count_reports "Submitted"
    (apex (run [ SdkEvent 0 "submitted" {| payload_sessionEndType := None |};
                 SdkEvent 0 "submitted" {| payload_sessionEndType := None |} ]
               resumedWorld))
  <= count_reports "Submitted" (apex resumedWorld)
     + room (_didSubmit (comp resumedWorld)).
Proof.
  apply (relaunch_session_reports_once
           [ SdkEvent 0 "submitted" {| payload_sessionEndType := None |};
             SdkEvent 0 "submitted" {| payload_sessionEndType := None |} ]
           resumedWorld).
  reflexivity.
Defined.

End WebformRelaunchMore.

(** ** docusignWebformIframe: launching without an SDK *)

Section DocusignWebformIframeFacts.
Import DocusignWebformIframe.

Lemma iframe_settle_last k p r w :
  k = length (pending w) ->
  step (Settle k r) (await p w)
  = match continue p r w with
    | Some w' => w'
    | None => await p w
    end.
Proof.
  intros ->. cbn [step]. unfold await at 1 2. cbn [pending set_pending].
  rewrite (list_lookup_middle (pending w) [] p _ eq_refl).
  rewrite delete_middle, app_nil_r.
  replace (set_pending (pending w) (await p w)) with w
    by (destruct w; reflexivity).
  reflexivity.
Qed.

(** X22. docusignWebformIframe: a click calls the session service only
    when the item carries a form id and a record id; a missing form id is
    reported before a missing record id, the loading indicator is off
    again and the view stays where it was. *)
Theorem iframe_click_calls_only_with_ids formId dbqWebformId w :
  let w' := handleConditionClick formId dbqWebformId w in
  let ready := Js.truthy formId && Js.truthy dbqWebformId in
  apex w'
  = (if ready then apex w ++ [createWebformInstance formId] else apex w)
  /\ pending w'
     = (if ready
        then pending w ++ [AwaitCreateInstance formId dbqWebformId]
        else pending w)
  /\ showSelector (comp w') = showSelector (comp w)
  /\ (Js.truthy formId = false ->
      errorMessage (comp w') = Some "Form ID not found for this condition"
      /\ isLoading (comp w') = false)
  /\ (Js.truthy formId = true -> Js.truthy dbqWebformId = false ->
      errorMessage (comp w') = Some "DBQ Webform record ID not found"
      /\ isLoading (comp w') = false)
  /\ (ready = true ->
      errorMessage (comp w') = None /\ isLoading (comp w') = true).
Proof.
  cbn zeta. unfold handleConditionClick. cbn zeta.
  destruct (Js.truthy formId), (Js.truthy dbqWebformId); cbn;
    repeat match goal with
           | |- _ /\ _ => split
           | |- _ -> _ => intros
           end; try reflexivity; try discriminate.
Qed.

Lemma iframe_click_calls_only_with_ids_witness :
  errorMessage (comp (handleConditionClick None (Some "c1") initialWorld))
  = Some "Form ID not found for this condition".
Proof.
  apply (iframe_click_calls_only_with_ids None (Some "c1") initialWorld).
  reflexivity.
Defined.

(** X23. docusignWebformIframe, a launch end to end and back: the click,
    the session and the record make exactly two backend calls with the
    session's values, store them and show the embedded view with the
    session's URL; handleBackToSelector then shows the selector again and
    forgets the URL, the token, the ids and the record. *)
Theorem iframe_launch_and_back formId dbqWebformId result sfRecordId w :
  Js.truthy formId = true ->
  Js.truthy dbqWebformId = true ->
  let k := length (pending w) in
  let w' :=
    run [ ConditionClick formId dbqWebformId;
          Settle k (Resolved (RInstance result));
          Settle k (Resolved (RRecordId sfRecordId)) ] w in
  (apex w'
   = apex w ++
     [ createWebformInstance formId;
       createWebformInstanceRecord
         (res_instanceToken result) (res_instanceId result)
         (res_formUrl result) dbqWebformId ]
   /\ comp w'
      = {| selectedUrl := res_formUrl result; showSelector := false;
           isLoading := false; errorMessage := None;
           instanceToken := res_instanceToken result;
           instanceId := res_instanceId result;
           currentFormId := formId;
           webformInstanceRecordId := sfRecordId |}
   /\ pending w' = pending w)
  /\ comp (step BackToSelector w')
     = {| selectedUrl := None; showSelector := true;
          isLoading := false; errorMessage := None;
          instanceToken := None; instanceId := None;
          currentFormId := None; webformInstanceRecordId := None |}.
Proof.
  intros Hf Hd. cbn zeta. unfold run. cbn [fold_left].
  assert (H1 : step (ConditionClick formId dbqWebformId) w
               = await (AwaitCreateInstance formId dbqWebformId)
                   (callApex (createWebformInstance formId)
                      (log (console_log "DBQ Webform Record ID:")
                         (log (console_log "Creating instance for form ID:")
                            (upd (set_errorMessage None)
                               (upd (set_isLoading true) w)))))).
  { cbn [step]. unfold handleConditionClick. cbn zeta.
    rewrite Hf, Hd. reflexivity. }
  rewrite H1. clear H1.
  rewrite iframe_settle_last by reflexivity.
  cbn [continue handleConditionClick_instance].
  rewrite iframe_settle_last by reflexivity.
  cbn [continue handleConditionClick_record].
  cbn. rewrite <- app_assoc. repeat apply conj; reflexivity.
Qed.

Lemma iframe_launch_and_back_witness :
  showSelector
    (comp (run [ ConditionClick (Some "f1") (Some "c1");
                 Settle 0 (Resolved (RInstance BetterWebformSession.created));
                 Settle 0 (Resolved (RRecordId (Some "rec1"))) ]
               initialWorld))
  = false.
Proof.
  destruct (iframe_launch_and_back
              (Some "f1") (Some "c1") BetterWebformSession.created
              (Some "rec1") initialWorld eq_refl eq_refl)
    as ((_ & Hc & _) & _).
  cbn zeta in Hc. change (length (pending initialWorld)) with 0 in Hc.
  rewrite Hc. reflexivity.
Defined.

Lemma iframe_step_reports st e w :
  count_reports st (apex (step e w)) = count_reports st (apex w).
Proof.
  destruct e as [f d| |k r]; cbn [step].
  - unfold handleConditionClick. cbn zeta.
    destruct (negb (Js.truthy f)); [reflexivity|].
    destruct (negb (Js.truthy d)); [reflexivity|].
    cbn [apex await callApex log upd]. rewrite count_reports_app.
    cbn. lia.
  - reflexivity.
  - destruct (pending w !! k) as [p|]; [|reflexivity].
    destruct p as [f d|]; cbn [continue].
    + unfold handleConditionClick_instance, handleConditionClick_finally,
        handleConditionClick_catch.
      destruct r as [[| | result |]|[| |err]]; try reflexivity.
      cbn [apex await callApex log upd set_pending].
      rewrite count_reports_app. cbn. lia.
    + unfold handleConditionClick_record, handleConditionClick_finally,
        handleConditionClick_catch.
      destruct r as [[| | | id]|[| |err]]; reflexivity.
Qed.

(** X24. The simplest variant never reports a status: whatever the user
    does and however the backend answers, no status update is among its
    backend calls. *)
Theorem iframe_never_reports_status st es w :
  count_reports st (apex (run es w)) = count_reports st (apex w).
Proof.
  revert w. induction es as [|e es IH]; intros w; [reflexivity|].
  cbn [run fold_left]. fold (run es (step e w)).
  rewrite IH. apply iframe_step_reports.
Qed.

End DocusignWebformIframeFacts.

(** ** docusignApiDebug *)

Section DocusignApiDebugFacts.
Import DocusignApiDebug.

Lemma debug_settle_last k r w :
  k = length (pending w) ->
  step (Settle k r) (await AwaitCreateInstance w)
  = match handleCreateInstance_settled r w with
    | Some w' => w'
    | None => await AwaitCreateInstance w
    end.
Proof.
  intros ->. cbn [step]. unfold await at 1 2. cbn [pending set_pending].
  rewrite (list_lookup_middle (pending w) [] AwaitCreateInstance _ eq_refl).
  rewrite delete_middle, app_nil_r.
  replace (set_pending (pending w) (await AwaitCreateInstance w)) with w
    by (destruct w; reflexivity).
  reflexivity.
Qed.

Lemma handleCreateInstance_started w :
  Js.truthy (formId (comp w)) = true ->
  handleCreateInstance w
  = await AwaitCreateInstance
      (callApex (createWebformInstance (formId (comp w)))
         (log (console_log "Creating instance for form ID:")
            (upd (set_instanceCreated false)
               (upd (set_errorMessage None) (upd (set_isLoading true) w))))).
Proof. intros H. unfold handleCreateInstance. rewrite H. reflexivity. Qed.

(** Creating an instance with an empty form id makes no backend call and
    only sets the banner; with a form id it calls the session service once
    with that id. *)
Lemma debug_create_needs_a_form_id w :
  (Js.truthy (formId (comp w)) = false ->
   handleCreateInstance w
   = upd (set_errorMessage (Some "Please enter a Form ID")) w)
  /\ (Js.truthy (formId (comp w)) = true ->
      apex (handleCreateInstance w)
      = apex w ++ [createWebformInstance (formId (comp w))]
      /\ isLoading (comp (handleCreateInstance w)) = true
      /\ errorMessage (comp (handleCreateInstance w)) = None
      /\ instanceCreated (comp (handleCreateInstance w)) = false).
Proof.
  split; intros H.
  - unfold handleCreateInstance. rewrite H. reflexivity.
  - rewrite handleCreateInstance_started by exact H.
    repeat apply conj; reflexivity.
Qed.

(** X25. docusignApiDebug: an attempt that the backend rejects marks no
    instance as created and stops the loading indicator, but the token,
    URL and id of an earlier attempt stay in the fields; the banner shows
    the error's [body.message] when the error has a body and its
    [message] otherwise. *)
Theorem debug_failed_attempt_keeps_old_result err w :
  Js.truthy (formId (comp w)) = true ->
  let w' :=
    run [CreateInstance; Settle (length (pending w)) (Rejected (Js.Obj err))] w in
  instanceCreated (comp w') = false
  /\ isLoading (comp w') = false
  /\ instanceToken (comp w') = instanceToken (comp w)
  /\ formUrl (comp w') = formUrl (comp w)
  /\ instanceId (comp w') = instanceId (comp w)
  /\ errorMessage (comp w')
     = match Js.body err with
       | Some b => Js.body_message b
       | None => Js.message err
       end
  /\ apex w' = apex w ++ [createWebformInstance (formId (comp w))].
Proof.
  intros H. cbn zeta. unfold run. cbn [fold_left].
  change (step CreateInstance w) with (handleCreateInstance w).
  rewrite handleCreateInstance_started by exact H.
  rewrite debug_settle_last by reflexivity.
  cbn. repeat apply conj; reflexivity.
Qed.

Lemma debug_failed_attempt_keeps_old_result_witness :
  let w :=
    run [ CreateInstance;
          Settle 0 (Resolved (RInstance BetterWebformSession.created)) ]
        initialWorld in
  instanceCreated
    (comp (run [CreateInstance; Settle 0 (Rejected (Js.Obj bodyWithoutMessage))]
               w))
  = false
  /\ instanceToken
       (comp (run [ CreateInstance;
                    Settle 0 (Rejected (Js.Obj bodyWithoutMessage)) ] w))
     = Some "t1".
Proof.
  cbn zeta.
  destruct (debug_failed_attempt_keeps_old_result
              bodyWithoutMessage
              (run [ CreateInstance;
                     Settle 0 (Resolved (RInstance BetterWebformSession.created)) ]
                   initialWorld))
    as (Hc & _ & Ht & _); [vm_compute; reflexivity|].
  cbn zeta in Hc, Ht.
  split; [exact Hc|]. etransitivity; [exact Ht|]. vm_compute. reflexivity.
Defined.

(** X26. docusignApiDebug: a successful attempt stores the session's
    token, URL and id with one backend call, and handleReset afterwards
    gives the same fields as resetting without the attempt: the result is
    forgotten and the form id stays. *)
Theorem debug_create_then_reset result w :
  Js.truthy (formId (comp w)) = true ->
  isLoading (comp w) = false ->
  let w' :=
    run [ CreateInstance;
          Settle (length (pending w)) (Resolved (RInstance result)) ] w in
  (instanceCreated (comp w') = true
   /\ instanceToken (comp w') = res_instanceToken result
   /\ formUrl (comp w') = res_formUrl result
   /\ instanceId (comp w') = res_instanceId result
   /\ isLoading (comp w') = false
   /\ errorMessage (comp w') = None
   /\ apex w' = apex w ++ [createWebformInstance (formId (comp w))])
  /\ comp (step Reset w') = comp (handleReset w)
  /\ formId (comp (step Reset w')) = formId (comp w).
Proof.
  intros H Hl. cbn zeta. unfold run. cbn [fold_left].
  change (step CreateInstance w) with (handleCreateInstance w).
  rewrite handleCreateInstance_started by exact H.
  rewrite debug_settle_last by reflexivity.
  destruct w as [[fid ld em ic tok url iid] ax co pe]. cbn in Hl. subst ld.
  cbn. repeat apply conj; reflexivity.
Qed.

Lemma debug_create_then_reset_witness :
  comp (run [ CreateInstance;
              Settle 0 (Resolved (RInstance BetterWebformSession.created));
              Reset ] initialWorld)
  = comp (handleReset initialWorld).
Proof.
  destruct (debug_create_then_reset
              BetterWebformSession.created initialWorld eq_refl eq_refl)
    as (_ & Hr & _).
  exact Hr.
Defined.

End DocusignApiDebugFacts.
